(** * VeroBrix: the analysis orchestrator and the HTML stripper

    A shallow embedding of [src/verobrix_launcher.py] (class
    [VeroBrixSystem]) and of [src/clean_html.py], with the properties the
    design document states about them.

    The program:
    - [PyStr]      Python [str] as a sequence of code points, with the
                   built-ins [clean_html] relies on;
    - [CleanHtml]  [clean_html] itself;
    - [Launcher]   the records, the world monad, [analyze_situation],
                   [_generate_recommendations], [_save_analysis_results] and
                   [print_analysis_summary];
    - [Store]      [_generate_recommendations] once more, over a heap of
                   Python objects that it changes in place;
    - [CleanHtmlScript]  the [__main__] block of [clean_html.py];
    - [Driver]     [generate_document], [get_available_templates] and
                   [main].

    Its properties:
    - [CleanHtmlSpec]       the lines of the cleaned text;
    - [RecommendationSpec]  the rules of recommendation derivation;
    - [OrchestratorSpec]    the order of the pipeline, failed persistence;
    - [PresentationSpec]    the summary report;
    - [StoreSpec]           purity of recommendation derivation;
    - [RecommendationFacts] what the recommendations depend on, their sizes;
    - [StoreFacts]          missing keys, freshness of the result;
    - [PresentationFacts]   the frame and the sections of the report;
    - [OrchestratorFacts]   the result, the provenance log, the artifact;
    - [DriverFacts]         the ways [main] ends;
    - [CleanHtmlFacts]      fixed points, tags, entities and length;
    - [ScriptFacts]         the ways the script ends;
    - [Samples], [SampleRuns], [Witnesses], [MoreSamples],
      [MoreSampleRuns], [MoreWitnesses]  concrete runs.

    The modules imported by the launcher (the situation interpreter, the
    JARVIS and FRIDAY agents, the remedy synthesizer) and the environment
    (clock, file system, [str.upper]) are parameters. *)

From Stdlib Require Import NArith Ascii String DecimalString.
From stdpp Require Import base list strings.

Open Scope string_scope.
Open Scope list_scope.

(* ===================================================================== *)
(** * Python strings as code-point sequences *)
(* ===================================================================== *)

Module PyStr.

(** A Python [str] is a sequence of Unicode code points. *)
Definition codepoint := N.
Definition pystr := list codepoint.

(** An ASCII literal of the source as a [pystr]. *)
Definition lit (s : string) : pystr :=
  List.map N_of_ascii (list_ascii_of_string s).

Definition LF : codepoint := 10%N.
Definition CR : codepoint := 13%N.

(** [str.isspace] on one code point (CPython's [_PyUnicode_IsWhitespace]). *)
Definition isspace (c : codepoint) : bool :=
  ((9 <=? c) && (c <=? 13) || (28 <=? c) && (c <=? 32)
   || (c =? 133) || (c =? 160) || (c =? 5760)
   || (8192 <=? c) && (c <=? 8202)
   || (c =? 8232) || (c =? 8233) || (c =? 8239) || (c =? 8287)
   || (c =? 12288))%N.

(** The line boundaries of [str.splitlines] (CPython's
    [_PyUnicode_IsLinebreak]): LF, VT, FF, CR, FS, GS, RS, NEL, LS, PS. *)
Definition is_linebreak (c : codepoint) : bool :=
  ((10 <=? c) && (c <=? 13) || (28 <=? c) && (c <=? 30)
   || (c =? 133) || (c =? 8232) || (c =? 8233))%N.

(** [s.splitlines()]: [cur] is the line being read, [after_cr] tells that the
    previous code point was a CR, so that a LF right after it belongs to the
    same boundary.  A last line without a boundary is kept when it is not
    empty; a text that ends with a boundary has no empty last line. *)
Fixpoint splitlines_from (after_cr : bool) (cur s : pystr) : list pystr :=
  match s with
  | [] => match cur with [] => [] | _ => [cur] end
  | c :: rest =>
      if after_cr && (c =? LF)%N then splitlines_from false cur rest
      else if is_linebreak c then cur :: splitlines_from (c =? CR)%N [] rest
      else splitlines_from false (cur ++ [c]) rest
  end.

Definition splitlines (s : pystr) : list pystr := splitlines_from false [] s.

(** [s.lstrip()], [s.rstrip()], [s.strip()] without argument. *)
Fixpoint lstrip (s : pystr) : pystr :=
  match s with
  | [] => []
  | c :: rest => if isspace c then lstrip rest else s
  end.

Definition rstrip (s : pystr) : pystr := rev (lstrip (rev s)).

Definition strip (s : pystr) : pystr := rstrip (lstrip s).

(** [sep.join(parts)]. *)
Fixpoint join (sep : pystr) (parts : list pystr) : pystr :=
  match parts with
  | [] => []
  | [p] => p
  | p :: ps => p ++ sep ++ join sep ps
  end.

(** [s.startswith(p)]. *)
Fixpoint startswith (p s : pystr) : bool :=
  match p, s with
  | [], _ => true
  | _ :: _, [] => false
  | a :: p', b :: s' => (a =? b)%N && startswith p' s'
  end.

(** Offset of the first occurrence of [needle] in [hay] ([str.find]). *)
Fixpoint find (needle hay : pystr) : option nat :=
  if startswith needle hay then Some 0
  else match hay with
       | [] => None
       | _ :: hay' => option_map S (find needle hay')
       end.

(** [s.replace(old, new)]: every occurrence of [old], left to right, without
    overlap.  [skip] counts the code points of a replaced occurrence that
    are still to be dropped. *)
Fixpoint replace_from (skip : nat) (old new s : pystr) : pystr :=
  match s with
  | [] => []
  | c :: rest =>
      match skip with
      | S k => replace_from k old new rest
      | O => if startswith old s
             then new ++ replace_from (length old - 1) old new rest
             else c :: replace_from 0 old new rest
      end
  end.

Definition replace (old new s : pystr) : pystr :=
  match old with
  | [] => new ++ flat_map (fun c => c :: new) s
  | _ :: _ => replace_from 0 old new s
  end.

(** [re.sub(pattern, repl, s)] for a pattern that never matches the empty
    string: [matcher s] is the length of the match of the pattern at the
    start of [s], if there is one.  The scan goes left to right; a match is
    replaced and the scan resumes after it. *)
Fixpoint re_sub_from (matcher : pystr -> option nat) (repl : pystr)
    (skip : nat) (s : pystr) : pystr :=
  match s with
  | [] => []
  | c :: rest =>
      match skip with
      | S k => re_sub_from matcher repl k rest
      | O => match matcher s with
             | Some (S n) => repl ++ re_sub_from matcher repl n rest
             | Some O => repl ++ c :: re_sub_from matcher repl 0 rest
             | None => c :: re_sub_from matcher repl 0 rest
             end
      end
  end.

Definition re_sub (matcher : pystr -> option nat) (repl s : pystr) : pystr :=
  re_sub_from matcher repl 0 s.

(** Length of the lazy run [.*?c] without DOTALL ([dotall = false], the dot
    refuses LF) or with it: the offset just after the first [c]. *)
Fixpoint lazy_until (dotall : bool) (c : codepoint) (s : pystr) : option nat :=
  match s with
  | [] => None
  | x :: rest =>
      if (x =? c)%N then Some 1
      else if negb dotall && (x =? LF)%N then None
      else option_map S (lazy_until dotall c rest)
  end.

End PyStr.

(* ===================================================================== *)
(** * clean_html.py *)
(* ===================================================================== *)

Module CleanHtml.
Import PyStr.

(** The pattern [<.*?>]: a [<], then the shortest run without LF up to a
    [>]. *)
Definition match_tag (s : pystr) : option nat :=
  match s with
  | c :: rest =>
      if (c =? 60)%N then option_map S (lazy_until false 62%N rest) else None
  | [] => None
  end.

(** The pattern [<(script|style).*?>.*?</\1>] with DOTALL, for one of the
    two names of the group: [<name], the shortest run up to a [>], the
    shortest run up to the closing tag of the same name.  When no closing
    tag follows the first [>], none follows a later one, so the match
    fails. *)
Definition match_element (name s : pystr) : option nat :=
  let opening := lit "<" ++ name in
  let closing := lit "</" ++ name ++ lit ">" in
  if startswith opening s then
    let after_name := drop (length opening) s in
    match lazy_until true 62%N after_name with
    | Some a =>
        match find closing (drop a after_name) with
        | Some b => Some (length opening + a + b + length closing)
        | None => None
        end
    | None => None
    end
  else None.

Definition match_script_style (s : pystr) : option nat :=
  match match_element (lit "script") s with
  | Some n => Some n
  | None => match_element (lit "style") s
  end.

Definition clean_html (html_content : pystr) : pystr :=
  (* Remove script and style elements *)
  let text := re_sub match_script_style [] html_content in
  (* Remove all HTML tags *)
  let text := re_sub match_tag [] text in
  (* Decode common HTML entities *)
  let text := replace (lit "&amp;") (lit "&") text in
  let text := replace (lit "&lt;") (lit "<") text in
  let text := replace (lit "&gt;") (lit ">") text in
  let text := replace (lit "&quot;") [34%N] text in
  let text := replace (lit "&#39;") (lit "'") text in
  (* Remove extra whitespace *)
  let text :=
    join [LF]
      (List.map strip
         (List.filter (fun line => negb (bool_decide (strip line = [])))
            (splitlines text))) in
  text.

End CleanHtml.

(* ===================================================================== *)
(** * verobrix_launcher.py: data *)
(* ===================================================================== *)

Module Launcher.

(** Values the orchestrator only passes along (clauses, legal structure,
    tone analysis, context, legal framework): JSON-like data. *)
#[warnings="-register-all"]
Inductive json :=
| JNull
| JBool (b : bool)
| JNum (z : Z)
| JStr (s : string)
| JList (items : list json)
| JDict (items : list (string * json)).

(** A [dict] literal with string keys, in the order it is written. *)
Definition dict (V : Type) := list (string * V).

Fixpoint dict_lookup {V} (k : string) (d : dict V) : option V :=
  match d with
  | [] => None
  | (k', v) :: rest => if String.eqb k k' then Some v else dict_lookup k rest
  end.

(** [k in d] and [d.get(k, default)]. *)
Definition dict_mem {V} (k : string) (d : dict V) : bool :=
  match dict_lookup k d with Some _ => true | None => false end.

Definition dict_get {V} (k : string) (default : V) (d : dict V) : V :=
  match dict_lookup k d with Some v => v | None => default end.

(** The situation record returned by the situation interpreter; the fields
    are the keys this file reads. *)
Record Urgency := { level : string }.
Record Jurisdiction := { primary : string; secondary : list string }.
Record Entities := { people : list string; organizations : list string }.
Record Situation := {
  type : string;
  urgency : Urgency;
  jurisdiction : Jurisdiction;
  entities : Entities;
  legal_framework : json
}.

(** A contradiction is a [dict] (read through [.get('description', ...)]) or
    anything else, printed as it is: a bare string. *)
Inductive Contradiction :=
| CDict (d : dict string)
| CStr (s : string).

Record Risk := { rk_level : string; rk_description : string }.

Record LegalSummary := { tone_summary : string; risk_level : string }.

(** The dictionary built for the remedy synthesizer ([remedy_input]). *)
Record RemedyInput := {
  req_type : string;
  req_risk_level : string;
  req_contradictions : list Contradiction;
  req_tone_analysis : json;
  req_urgency : Urgency;
  req_jurisdiction : Jurisdiction;
  req_legal_framework : json
}.

(** The remedy record: [legal_strategies] is indexed, [contradictions] is
    read with [.get], so it may be absent. *)
Record Remedy := {
  legal_strategies : list string;
  remedy_contradictions : option (list Contradiction)
}.

Record Recommendations := {
  immediate_actions : list string;
  short_term_actions : list string;
  long_term_actions : list string;
  warnings : list string;
  opportunities : list string
}.

Record Input := { raw_text : string; context : option json }.

Record LegalAnalysis := {
  clauses : list json;
  contradictions : list Contradiction;
  legal_structure : json;
  tone_analysis : json;
  legal_risks : list Risk;
  legal_summary : LegalSummary
}.

Record Results := {
  session_id : string;
  timestamp : string;
  input : Input;
  situation_analysis : Situation;
  legal_analysis : LegalAnalysis;
  remedy : Remedy;
  recommendations : Recommendations
}.

(** ** Recommendation derivation *)

(** Truth value of [remedy.get('contradictions')]: absent gives [None], and
    an empty list is false as well. *)
Definition truthy_list {A} (o : option (list A)) : bool :=
  match o with
  | Some (_ :: _) => true
  | _ => false
  end.

Definition situation_actions : dict (dict (list string)) :=
  [ ("traffic_stop",
      [ ("immediate", ["Document all details of the encounter"; "Preserve any evidence"]);
        ("short_term", ["Review citation for errors"; "Research applicable traffic laws"]);
        ("long_term", ["Consider challenging jurisdiction"; "File administrative remedy if applicable"]) ]);
    ("fee_demand",
      [ ("immediate", ["Do not pay without challenging authority"; "Request fee schedule"]);
        ("short_term", ["Challenge lawful authority for fee"; "Demand due process hearing"]);
        ("long_term", ["File administrative appeal"; "Consider legal action if rights violated"]) ]);
    ("court_summons",
      [ ("immediate", ["Calculate response deadline"; "Preserve all rights"]);
        ("short_term", ["File appropriate response"; "Challenge jurisdiction if applicable"]);
        ("long_term", ["Prepare defense strategy"; "Consider counterclaims if applicable"]) ]) ].

(** [lst.extend(items)] and [lst.append(item)] on one key of the
    recommendations dictionary. *)
Definition extend_immediate (items : list string) (r : Recommendations) :=
  {| immediate_actions := immediate_actions r ++ items;
     short_term_actions := short_term_actions r;
     long_term_actions := long_term_actions r;
     warnings := warnings r;
     opportunities := opportunities r |}.

Definition extend_short_term (items : list string) (r : Recommendations) :=
  {| immediate_actions := immediate_actions r;
     short_term_actions := short_term_actions r ++ items;
     long_term_actions := long_term_actions r;
     warnings := warnings r;
     opportunities := opportunities r |}.

Definition extend_long_term (items : list string) (r : Recommendations) :=
  {| immediate_actions := immediate_actions r;
     short_term_actions := short_term_actions r;
     long_term_actions := long_term_actions r ++ items;
     warnings := warnings r;
     opportunities := opportunities r |}.

Definition append_warning (item : string) (r : Recommendations) :=
  {| immediate_actions := immediate_actions r;
     short_term_actions := short_term_actions r;
     long_term_actions := long_term_actions r;
     warnings := warnings r ++ [item];
     opportunities := opportunities r |}.

Definition append_opportunity (item : string) (r : Recommendations) :=
  {| immediate_actions := immediate_actions r;
     short_term_actions := short_term_actions r;
     long_term_actions := long_term_actions r;
     warnings := warnings r;
     opportunities := opportunities r ++ [item] |}.

Definition _generate_recommendations
    (situation : Situation) (legal_summary : LegalSummary) (remedy : Remedy)
    : Recommendations :=
  let recommendations :=
    {| immediate_actions := []; short_term_actions := [];
       long_term_actions := []; warnings := []; opportunities := [] |} in
  (* Immediate actions based on urgency *)
  let recommendations :=
    if String.eqb (level (urgency situation)) "high" then
      extend_immediate
        [ "URGENT: Time-sensitive situation detected";
          "Review all deadlines and timelines immediately";
          "Consider emergency legal consultation" ] recommendations
    else recommendations in
  (* Actions based on risk level *)
  let recommendations :=
    if String.eqb (risk_level legal_summary) "HIGH" then
      append_warning "Situation contains high-risk legal elements"
        (extend_immediate ["HIGH RISK: Seek immediate legal counsel"]
           recommendations)
    else recommendations in
  (* Actions based on contradictions *)
  let recommendations :=
    if truthy_list (remedy_contradictions remedy) then
      extend_short_term ["Challenge contradictory provisions in documents"]
        recommendations
    else recommendations in
  (* Actions based on situation type *)
  let recommendations :=
    match dict_lookup (type situation) situation_actions with
    | Some actions =>
        extend_long_term (dict_get "long_term" [] actions)
          (extend_short_term (dict_get "short_term" [] actions)
             (extend_immediate (dict_get "immediate" [] actions)
                recommendations))
    | None => recommendations
    end in
  (* Identify opportunities *)
  let recommendations :=
    if String.eqb (tone_summary legal_summary) "positive" then
      append_opportunity
        "Document contains favorable language - preserve these terms"
        recommendations
    else recommendations in
  let recommendations :=
    if String.eqb (primary (jurisdiction situation)) "commercial" then
      append_opportunity
        "Commercial jurisdiction may provide UCC protections" recommendations
    else recommendations in
  recommendations.

(** ** The world: provenance log, collaborator calls, console, files *)

(** A raised exception; [exn_str] is what [str(e)] gives. *)
Record exn := Exception { exn_class : string; exn_str : string }.

(** A call of one of the imported collaborators, with its arguments. *)
Inductive call :=
| CInterpretSituation (text : string) (ctx : option json)
| CExtractClauses (text : string)
| CDetectContradictions (cls : list json)
| CAnalyzeLegalStructure (text : string)
| CInterpretTone (text : string)
| CAnalyzeLegalRisk (text : string)
| CGenerateLegalSummary (text : string) (tone : json) (risks : list Risk)
| CSynthesizeRemedy (req : RemedyInput).

(** What the program does to its environment, in the order it does it. *)
Inductive event :=
| EvLog (actor message : string)       (* log_provenance(actor, message) *)
| EvCall (c : call)
| EvPrint (text : string)              (* print(text) *)
| EvMakedirs (path : string).          (* os.makedirs(path, exist_ok=True) *)

Section Orchestrator.

(** The file system and the clock are the environment's. *)
Context {FS : Type} {DateTime : Type}.
Variable strftime_session : DateTime -> string.   (* "%Y%m%d_%H%M%S" *)
Variable isoformat : DateTime -> string.

(** [with open(filename, 'w', encoding='utf-8') as f:
       json.dump(results, f, indent=2, ensure_ascii=False)]
    on a file system: the file system afterwards, and the exception the
    block raised, if any ([open] on an unwritable path, a failed write, a
    value [json] cannot serialise). *)
Variable dump_to_file : string -> Results -> FS -> option exn * FS.

(** [str.upper]. *)
Variable upper : string -> string.

(** The collaborators, by their contracts. *)
Variable interpret_situation : string -> option json -> Situation.
Variable extract_clauses : string -> list json.
Variable detect_contradictions : list json -> list Contradiction.
Variable analyze_legal_structure : string -> json.
Variable interpret_tone : string -> json.
Variable analyze_legal_risk : string -> list Risk.
Variable generate_legal_summary : string -> json -> list Risk -> LegalSummary.
Variable synthesize_remedy : RemedyInput -> Remedy.

Record World := {
  trace : list event;
  fs : FS;
  now : DateTime
}.

Definition emit (e : event) (w : World) : World :=
  {| trace := trace w ++ [e]; fs := fs w; now := now w |}.

(** Computations that read and change the world and may raise. *)
Definition M (A : Type) : Type := World -> (exn + A) * World.

Definition ret {A} (a : A) : M A := fun w => (inr a, w).

Definition bind {A B} (m : M A) (k : A -> M B) : M B :=
  fun w =>
    match m w with
    | (inr a, w') => k a w'
    | (inl e, w') => (inl e, w')
    end.

Definition raise {A} (e : exn) : M A := fun w => (inl e, w).

(** [try: body  except Exception as e: handler(e)]. *)
Definition try_except {A} (body : M A) (handler : exn -> M A) : M A :=
  fun w =>
    match body w with
    | (inr a, w') => (inr a, w')
    | (inl e, w') => handler e w'
    end.

Notation "x <- m ;; k" := (bind m (fun x => k))
  (at level 100, m at next level, right associativity).
Notation "m ;;; k" := (bind m (fun _ => k))
  (at level 100, right associativity).

Definition log_provenance (actor message : string) : M unit :=
  fun w => (inr tt, emit (EvLog actor message) w).

Definition print (text : string) : M unit :=
  fun w => (inr tt, emit (EvPrint text) w).

Definition makedirs (path : string) : M unit :=
  fun w => (inr tt, emit (EvMakedirs path) w).

(** A collaborator call: the call is recorded, the collaborator's value is
    returned. *)
Definition invoke {A} (c : call) (result : A) : M A :=
  fun w => (inr result, emit (EvCall c) w).

Definition datetime_now : M DateTime := fun w => (inr (now w), w).

Definition write_json (filename : string) (results : Results) : M unit :=
  fun w =>
    let '(failure, fs') := dump_to_file filename results (fs w) in
    let w' := {| trace := trace w; fs := fs'; now := now w |} in
    match failure with
    | Some e => raise e w'
    | None => ret tt w'
    end.

(** [for x in xs: body(x)]. *)
Fixpoint for_each {A} (xs : list A) (body : A -> M unit) : M unit :=
  match xs with
  | [] => ret tt
  | x :: rest => body x ;;; for_each rest body
  end.

(** [enumerate(xs, start)]. *)
Fixpoint enumerate {A} (start : nat) (xs : list A) : list (nat * A) :=
  match xs with
  | [] => []
  | x :: rest => (start, x) :: enumerate (S start) rest
  end.

(** ** The orchestrator *)

Record VeroBrixSystem := { self_session_id : string }.

Definition init : M VeroBrixSystem :=
  t <- datetime_now ;;
  let self := {| self_session_id := strftime_session t |} in
  (* Ensure output directories exist *)
  makedirs "logs" ;;;
  makedirs "output" ;;;
  log_provenance "VeroBrix System"
    ("Initialized new session: " +:+ self_session_id self) ;;;
  ret self.

Definition _save_analysis_results (self : VeroBrixSystem) (results : Results)
    : M unit :=
  let filename :=
    "output/verobrix_analysis_" +:+ self_session_id self +:+ ".json" in
  try_except
    (write_json filename results ;;;
     log_provenance "VeroBrix System"
       ("Analysis results saved to " +:+ filename))
    (fun e =>
     log_provenance "VeroBrix System"
       ("Error saving results: " +:+ exn_str e)).

Definition analyze_situation (self : VeroBrixSystem) (input_text : string)
    (situation_context : option json) : M Results :=
  log_provenance "VeroBrix System" "Starting comprehensive situation analysis" ;;;
  (* Step 1: Interpret the situation *)
  log_provenance "VeroBrix System"
    "Step 1: Interpreting situation with SituationInterpreter" ;;;
  situation <- invoke (CInterpretSituation input_text situation_context)
                 (interpret_situation input_text situation_context) ;;
  (* Step 2: Extract clauses with JARVIS *)
  log_provenance "VeroBrix System" "Step 2: Extracting clauses with JARVIS" ;;;
  clauses <- invoke (CExtractClauses input_text)
               (extract_clauses input_text) ;;
  (* Step 3: Detect contradictions with JARVIS *)
  log_provenance "VeroBrix System"
    "Step 3: Detecting contradictions with JARVIS" ;;;
  contradictions <- invoke (CDetectContradictions clauses)
                      (detect_contradictions clauses) ;;
  (* Step 4: Analyze legal structure with JARVIS *)
  log_provenance "VeroBrix System"
    "Step 4: Analyzing legal structure with JARVIS" ;;;
  legal_structure <- invoke (CAnalyzeLegalStructure input_text)
                       (analyze_legal_structure input_text) ;;
  (* Step 5: Analyze tone and risks with FRIDAY *)
  log_provenance "VeroBrix System"
    "Step 5: Analyzing tone and risks with FRIDAY" ;;;
  tone_analysis <- invoke (CInterpretTone input_text)
                     (interpret_tone input_text) ;;
  legal_risks <- invoke (CAnalyzeLegalRisk input_text)
                   (analyze_legal_risk input_text) ;;
  (* Step 6: Generate legal summary with FRIDAY *)
  log_provenance "VeroBrix System"
    "Step 6: Generating legal summary with FRIDAY" ;;;
  legal_summary <- invoke
                     (CGenerateLegalSummary input_text tone_analysis legal_risks)
                     (generate_legal_summary input_text tone_analysis legal_risks) ;;
  (* Step 7: Synthesize remedy *)
  log_provenance "VeroBrix System" "Step 7: Synthesizing remedy" ;;;
  let remedy_input :=
    {| req_type := type situation;
       req_risk_level := risk_level legal_summary;
       req_contradictions := contradictions;
       req_tone_analysis := tone_analysis;
       req_urgency := urgency situation;
       req_jurisdiction := jurisdiction situation;
       req_legal_framework := legal_framework situation |} in
  remedy <- invoke (CSynthesizeRemedy remedy_input)
              (synthesize_remedy remedy_input) ;;
  (* Compile comprehensive results *)
  t <- datetime_now ;;
  let results :=
    {| session_id := self_session_id self;
       timestamp := isoformat t;
       input := {| raw_text := input_text; context := situation_context |};
       situation_analysis := situation;
       legal_analysis :=
         {| clauses := clauses;
            contradictions := contradictions;
            legal_structure := legal_structure;
            tone_analysis := tone_analysis;
            legal_risks := legal_risks;
            legal_summary := legal_summary |};
       remedy := remedy;
       recommendations :=
         _generate_recommendations situation legal_summary remedy |} in
  (* Save results *)
  _save_analysis_results self results ;;;
  log_provenance "VeroBrix System" "Comprehensive analysis completed" ;;;
  ret results.

(** ** Result presentation *)

(** [if xs:] on a list. *)
Definition truthy {A} (xs : list A) : bool :=
  match xs with
  | [] => false
  | _ :: _ => true
  end.

Definition when_ (cond : bool) (body : M unit) : M unit :=
  if cond then body else ret tt.

(** The pieces of the f-strings: the line feed, [s * n], [sep.join(xs)] and
    the decimal form of [len(xs)] or of a loop index. *)
Definition nl : string := String "010"%char EmptyString.

Fixpoint str_repeat (s : string) (n : nat) : string :=
  match n with
  | O => ""
  | S k => s +:+ str_repeat s k
  end.

Definition str_join (sep : string) (xs : list string) : string :=
  String.concat sep xs.

Definition str_of_nat (n : nat) : string :=
  NilEmpty.string_of_uint (Nat.to_uint n).

Definition print_analysis_summary (results : Results) : M unit :=
  print (nl +:+ str_repeat "=" 60) ;;;
  print "VEROBRIX LEGAL ANALYSIS SUMMARY" ;;;
  print (str_repeat "=" 60) ;;;
  (* Basic information *)
  print ("Session ID: " +:+ session_id results) ;;;
  print ("Analysis Time: " +:+ timestamp results) ;;;
  print ("Situation Type: " +:+ upper (type (situation_analysis results))) ;;;
  print ("Risk Level: " +:+
         risk_level (legal_summary (legal_analysis results))) ;;;
  print ("Urgency: " +:+
         upper (level (urgency (situation_analysis results)))) ;;;
  (* Jurisdiction *)
  let jurisdiction := jurisdiction (situation_analysis results) in
  print ("Primary Jurisdiction: " +:+ upper (primary jurisdiction)) ;;;
  when_ (truthy (secondary jurisdiction))
    (print ("Secondary Jurisdictions: " +:+
            upper (str_join ", " (secondary jurisdiction)))) ;;;
  (* Key entities *)
  let entities := entities (situation_analysis results) in
  when_ (truthy (people entities))
    (print ("People Involved: " +:+ str_join ", " (people entities))) ;;;
  when_ (truthy (organizations entities))
    (print ("Organizations: " +:+ str_join ", " (organizations entities))) ;;;
  (* Contradictions *)
  let contradictions := contradictions (legal_analysis results) in
  when_ (truthy contradictions)
    (print (nl +:+ "CONTRADICTIONS DETECTED: " +:+
            str_of_nat (length contradictions)) ;;;
     for_each (enumerate 1 contradictions) (fun '(i, contradiction) =>
       match contradiction with
       | CDict d =>
           print ("  " +:+ str_of_nat i +:+ ". " +:+
                  dict_get "description" "Unknown contradiction" d)
       | CStr s =>
           print ("  " +:+ str_of_nat i +:+ ". " +:+ s)
       end)) ;;;
  (* Legal risks *)
  let risks := legal_risks (legal_analysis results) in
  when_ (truthy risks)
    (print (nl +:+ "LEGAL RISKS IDENTIFIED: " +:+ str_of_nat (length risks)) ;;;
     for_each risks (fun risk =>
       print ("  - " +:+ rk_level risk +:+ " RISK: " +:+
              rk_description risk))) ;;;
  (* Immediate recommendations *)
  let immediate := immediate_actions (recommendations results) in
  when_ (truthy immediate)
    (print (nl +:+ "IMMEDIATE ACTIONS REQUIRED:") ;;;
     for_each immediate (fun action => print ("  • " +:+ action))) ;;;
  (* Warnings *)
  let warnings := warnings (recommendations results) in
  when_ (truthy warnings)
    (print (nl +:+ "WARNINGS:") ;;;
     for_each warnings (fun warning => print ("  ⚠️  " +:+ warning))) ;;;
  (* Legal strategies *)
  let strategies := legal_strategies (remedy results) in
  when_ (truthy strategies)
    (print (nl +:+ "RECOMMENDED LEGAL STRATEGIES:") ;;;
     for_each strategies (fun strategy => print ("  • " +:+ strategy))) ;;;
  print (nl +:+ str_repeat "=" 60).

End Orchestrator.

End Launcher.

(* ===================================================================== *)
(** * _generate_recommendations over a store of Python objects *)
(* ===================================================================== *)

(** The same method once more, this time with the dictionaries and lists as
    objects in a heap that the method reads through references and changes
    in place with [append] and [extend], as the Python code does.  This is
    the model in which "does not mutate its arguments" and "performs no
    I/O" are statements, and it is shown below to compute what
    [Launcher._generate_recommendations] computes. *)

Module Store.

(** Addresses are indices into the heap. *)
Abbreviation loc := nat.

(** Values: [None], a [str], or a reference to a list or dictionary. *)
Inductive val :=
| VNone
| VStr (s : string)
| VRef (l : loc).

Inductive obj :=
| ODict (items : Launcher.dict val)
| OList (items : list val).

(** The heap ([heap !! l] is the object at address [l]; new objects are
    added at the end) and the I/O done so far. *)
Record state := {
  heap : list obj;
  io : list Launcher.event
}.

Definition St (A : Type) : Type := state -> (Launcher.exn + A) * state.

Definition ret {A} (a : A) : St A := fun st => (inr a, st).

Definition bind {A B} (m : St A) (k : A -> St B) : St B :=
  fun st =>
    match m st with
    | (inr a, st') => k a st'
    | (inl e, st') => (inl e, st')
    end.

Notation "x <- m ;; k" := (bind m (fun x => k))
  (at level 100, m at next level, right associativity).
Notation "m ;;; k" := (bind m (fun _ => k))
  (at level 100, right associativity).

Definition KeyError (k : string) := Launcher.Exception "KeyError" k.
Definition TypeError (msg : string) := Launcher.Exception "TypeError" msg.
Definition AttributeError (msg : string) :=
  Launcher.Exception "AttributeError" msg.

(** Reading the heap. *)
Definition read {A} (f : list obj -> Launcher.exn + A) : St A :=
  fun st => (f (heap st), st).

(** [v[k]] for a string key. *)
Definition getitem_in (h : list obj) (v : val) (k : string)
    : Launcher.exn + val :=
  match v with
  | VRef l =>
      match h !! l with
      | Some (ODict d) =>
          match Launcher.dict_lookup k d with
          | Some x => inr x
          | None => inl (KeyError k)
          end
      | _ => inl (TypeError "list indices must be integers or slices, not str")
      end
  | VStr _ => inl (TypeError "string indices must be integers, not 'str'")
  | VNone => inl (TypeError "'NoneType' object is not subscriptable")
  end.

(** [v.get(k)] (the default is [None]) and [v.get(k, default)]. *)
Definition get_in (h : list obj) (v : val) (k : string) (default : val)
    : Launcher.exn + val :=
  match v with
  | VRef l =>
      match h !! l with
      | Some (ODict d) => inr (Launcher.dict_get k default d)
      | _ => inl (AttributeError "'list' object has no attribute 'get'")
      end
  | VStr _ => inl (AttributeError "'str' object has no attribute 'get'")
  | VNone => inl (AttributeError "'NoneType' object has no attribute 'get'")
  end.

(** The truth value of [v] in [if v:]; there is none for a reference to
    no object of the heap. *)
Definition truthy_in (h : list obj) (v : val) : option bool :=
  match v with
  | VNone => Some false
  | VStr s => Some (negb (String.eqb s ""))
  | VRef l =>
      match h !! l with
      | Some (ODict items) => Some (Launcher.truthy items)
      | Some (OList items) => Some (Launcher.truthy items)
      | None => None
      end
  end.

(** [k in d] for a dictionary with string keys: lists and dictionaries
    cannot be hashed. *)
Definition contains_in (h : list obj) (d : val) (k : val)
    : Launcher.exn + bool :=
  match d with
  | VRef l =>
      match h !! l with
      | Some (ODict items) =>
          match k with
          | VStr s => inr (Launcher.dict_mem s items)
          | VNone => inr false
          | VRef _ => inl (TypeError "unhashable type")
          end
      | _ => inl (TypeError "argument is not a dictionary")
      end
  | _ => inl (TypeError "argument is not iterable")
  end.

(** [d[k]] where the key is a value. *)
Definition getitem_val_in (h : list obj) (d : val) (k : val)
    : Launcher.exn + val :=
  match k with
  | VStr s => getitem_in h d s
  | VNone => inl (KeyError "None")
  | VRef _ => inl (TypeError "unhashable type")
  end.

(** [v == 'literal']. *)
Definition eq_str (v : val) (literal : string) : bool :=
  match v with
  | VStr s => String.eqb s literal
  | _ => false
  end.

Definition getitem (v : val) (k : string) : St val := read (fun h => getitem_in h v k).
Definition get (v : val) (k : string) (default : val) : St val :=
  read (fun h => get_in h v k default).
Definition truthy (v : val) : St bool :=
  read (fun h =>
    match truthy_in h v with
    | Some b => inr b
    | None => inl (Launcher.Exception "SystemError" "dangling reference")
    end).
Definition contains (d k : val) : St bool := read (fun h => contains_in h d k).
Definition getitem_val (d k : val) : St val := read (fun h => getitem_val_in h d k).

(** A list or dictionary display: a new object. *)
Definition alloc (o : obj) : St val :=
  fun st =>
    (inr (VRef (length (heap st))),
     {| heap := heap st ++ [o]; io := io st |}).

Definition new_list (items : list val) : St val := alloc (OList items).
Definition new_dict (items : Launcher.dict val) : St val := alloc (ODict items).

(** [target.extend(source)] and [target.append(item)]: the list object at
    [target] is changed in place. *)
Definition list_extend (target source : val) : St unit :=
  fun st =>
    match target, source with
    | VRef t, VRef s =>
        match heap st !! t, heap st !! s with
        | Some (OList xs), Some (OList ys) =>
            (inr tt, {| heap := <[t := OList (xs ++ ys)]> (heap st);
                        io := io st |})
        | Some (OList xs), Some (ODict d) =>
            (inr tt, {| heap := <[t := OList (xs ++ List.map (fun kv => VStr (fst kv)) d)]> (heap st);
                        io := io st |})
        | _, _ => (inl (AttributeError "object has no attribute 'extend'"), st)
        end
    | VRef t, _ =>
        match heap st !! t with
        | Some (OList _) => (inl (TypeError "object is not iterable"), st)
        | _ => (inl (AttributeError "object has no attribute 'extend'"), st)
        end
    | _, _ => (inl (AttributeError "object has no attribute 'extend'"), st)
    end.

Definition list_append (target item : val) : St unit :=
  fun st =>
    match target with
    | VRef t =>
        match heap st !! t with
        | Some (OList xs) =>
            (inr tt, {| heap := <[t := OList (xs ++ [item])]> (heap st);
                        io := io st |})
        | _ => (inl (AttributeError "object has no attribute 'append'"), st)
        end
    | _ => (inl (AttributeError "object has no attribute 'append'"), st)
    end.

Definition when_ (cond : bool) (body : St unit) : St unit :=
  if cond then body else ret tt.

Definition strs (items : list string) : list val := List.map VStr items.

(** The [recommendations] display: five empty lists, then the dictionary. *)
Definition new_recommendations : St val :=
  immediate <- new_list [] ;;
  short_term <- new_list [] ;;
  long_term <- new_list [] ;;
  warnings <- new_list [] ;;
  opportunities <- new_list [] ;;
  new_dict [ ("immediate_actions", immediate);
             ("short_term_actions", short_term);
             ("long_term_actions", long_term);
             ("warnings", warnings);
             ("opportunities", opportunities) ].

(** One entry of the [situation_actions] display. *)
Definition new_actions (immediate short_term long_term : list string)
    : St val :=
  i <- new_list (strs immediate) ;;
  s <- new_list (strs short_term) ;;
  l <- new_list (strs long_term) ;;
  new_dict [ ("immediate", i); ("short_term", s); ("long_term", l) ].

Definition new_situation_actions : St val :=
  traffic_stop <-
    new_actions
      ["Document all details of the encounter"; "Preserve any evidence"]
      ["Review citation for errors"; "Research applicable traffic laws"]
      ["Consider challenging jurisdiction"; "File administrative remedy if applicable"] ;;
  fee_demand <-
    new_actions
      ["Do not pay without challenging authority"; "Request fee schedule"]
      ["Challenge lawful authority for fee"; "Demand due process hearing"]
      ["File administrative appeal"; "Consider legal action if rights violated"] ;;
  court_summons <-
    new_actions
      ["Calculate response deadline"; "Preserve all rights"]
      ["File appropriate response"; "Challenge jurisdiction if applicable"]
      ["Prepare defense strategy"; "Consider counterclaims if applicable"] ;;
  new_dict [ ("traffic_stop", traffic_stop);
             ("fee_demand", fee_demand);
             ("court_summons", court_summons) ].

(** [recommendations[key].extend(items)] for a list display [items]. *)
Definition extend_with (recommendations : val) (key : string)
    (items : list string) : St unit :=
  target <- getitem recommendations key ;;
  source <- new_list (strs items) ;;
  list_extend target source.

(** [recommendations[key].append(item)]. *)
Definition append_to (recommendations : val) (key : string) (item : string)
    : St unit :=
  target <- getitem recommendations key ;;
  list_append target (VStr item).

(** [recommendations[key].extend(actions.get(name, []))]. *)
Definition extend_from (recommendations : val) (key : string)
    (actions : val) (name : string) : St unit :=
  target <- getitem recommendations key ;;
  default <- new_list [] ;;
  source <- get actions name default ;;
  list_extend target source.

(** The six rules, in the order of the method body. *)
Definition urgency_rule (situation recommendations : val) : St unit :=
  urgency <- getitem situation "urgency" ;;
  level <- getitem urgency "level" ;;
  when_ (eq_str level "high")
    (extend_with recommendations "immediate_actions"
       [ "URGENT: Time-sensitive situation detected";
         "Review all deadlines and timelines immediately";
         "Consider emergency legal consultation" ]).

Definition risk_rule (legal_summary recommendations : val) : St unit :=
  risk_level <- getitem legal_summary "risk_level" ;;
  when_ (eq_str risk_level "HIGH")
    (append_to recommendations "immediate_actions"
       "HIGH RISK: Seek immediate legal counsel" ;;;
     append_to recommendations "warnings"
       "Situation contains high-risk legal elements").

Definition contradictions_rule (remedy recommendations : val) : St unit :=
  contradictions <- get remedy "contradictions" VNone ;;
  cond <- truthy contradictions ;;
  when_ cond
    (append_to recommendations "short_term_actions"
       "Challenge contradictory provisions in documents").

Definition situation_type_rule (situation recommendations : val) : St unit :=
  situation_actions <- new_situation_actions ;;
  type <- getitem situation "type" ;;
  known <- contains situation_actions type ;;
  when_ known
    (type <- getitem situation "type" ;;
     actions <- getitem_val situation_actions type ;;
     extend_from recommendations "immediate_actions" actions "immediate" ;;;
     extend_from recommendations "short_term_actions" actions "short_term" ;;;
     extend_from recommendations "long_term_actions" actions "long_term").

Definition tone_rule (legal_summary recommendations : val) : St unit :=
  tone_summary <- getitem legal_summary "tone_summary" ;;
  when_ (eq_str tone_summary "positive")
    (append_to recommendations "opportunities"
       "Document contains favorable language - preserve these terms").

Definition jurisdiction_rule (situation recommendations : val) : St unit :=
  jurisdiction <- getitem situation "jurisdiction" ;;
  primary <- getitem jurisdiction "primary" ;;
  when_ (eq_str primary "commercial")
    (append_to recommendations "opportunities"
       "Commercial jurisdiction may provide UCC protections").

Definition _generate_recommendations (situation legal_summary remedy : val)
    : St val :=
  recommendations <- new_recommendations ;;
  (* Immediate actions based on urgency *)
  urgency_rule situation recommendations ;;;
  (* Actions based on risk level *)
  risk_rule legal_summary recommendations ;;;
  (* Actions based on contradictions *)
  contradictions_rule remedy recommendations ;;;
  (* Actions based on situation type *)
  situation_type_rule situation recommendations ;;;
  (* Identify opportunities *)
  tone_rule legal_summary recommendations ;;;
  jurisdiction_rule situation recommendations ;;;
  ret recommendations.

(** ** Reading records back from the heap *)

(** The strings of the list at [v]. *)
Definition read_strings (h : list obj) (v : val) : option (list string) :=
  match v with
  | VRef l =>
      match h !! l with
      | Some (OList items) =>
          mapM (fun x => match x with VStr s => Some s | _ => None end) items
      | _ => None
      end
  | _ => None
  end.

Definition read_field (h : list obj) (v : val) (k : string)
    : option (list string) :=
  match getitem_in h v k with
  | inr x => read_strings h x
  | inl _ => None
  end.

(** The recommendation set held by the dictionary at [v]. *)
Definition read_recommendations (h : list obj) (v : val)
    : option Launcher.Recommendations :=
  i ← read_field h v "immediate_actions";
  s ← read_field h v "short_term_actions";
  l ← read_field h v "long_term_actions";
  w ← read_field h v "warnings";
  o ← read_field h v "opportunities";
  Some {| Launcher.immediate_actions := i;
          Launcher.short_term_actions := s;
          Launcher.long_term_actions := l;
          Launcher.warnings := w;
          Launcher.opportunities := o |}.

(** A string reached from [v] through the keys of [path]. *)
Fixpoint read_path (h : list obj) (v : val) (path : list string)
    : option string :=
  match path with
  | [] => match v with VStr s => Some s | _ => None end
  | k :: rest =>
      match getitem_in h v k with
      | inr x => read_path h x rest
      | inl _ => None
      end
  end.

(** The dictionaries at [vs], [vm], [vr] hold what the method reads of the
    records [s], [m], [r]. *)
Definition holds_situation (h : list obj) (vs : val) (s : Launcher.Situation)
    : Prop :=
  read_path h vs ["urgency"; "level"] = Some (Launcher.level (Launcher.urgency s))
  /\ read_path h vs ["type"] = Some (Launcher.type s)
  /\ read_path h vs ["jurisdiction"; "primary"]
     = Some (Launcher.primary (Launcher.jurisdiction s)).

Definition holds_summary (h : list obj) (vm : val) (m : Launcher.LegalSummary)
    : Prop :=
  read_path h vm ["risk_level"] = Some (Launcher.risk_level m)
  /\ read_path h vm ["tone_summary"] = Some (Launcher.tone_summary m).

Definition holds_remedy (h : list obj) (vr : val) (r : Launcher.Remedy)
    : Prop :=
  exists c, get_in h vr "contradictions" VNone = inr c
  /\ truthy_in h c
     = Some (Launcher.truthy_list (Launcher.remedy_contradictions r)).

End Store.

(* ===================================================================== *)
(** * clean_html.py run as a script *)
(* ===================================================================== *)

Module CleanHtmlScript.
Import PyStr CleanHtml.

(** How the script ends: it runs to its end, [sys.exit(code)] is called, or
    an exception no handler catches ends it. *)
Inductive outcome :=
| Finished
| SysExit (code : nat)
| Uncaught (e : Launcher.exn).

Section Script.

Context {FS : Type}.

(** [with open(path, 'r', encoding='utf-8') as f: f.read()] on a file
    system: the text, or the exception raised. *)
Variable read_text : pystr -> FS -> Launcher.exn + pystr.

(** [with open(path, 'w', encoding='utf-8') as f: f.write(text)] on a file
    system: the file system afterwards, and the exception raised, if any. *)
Variable write_text : pystr -> pystr -> FS -> option Launcher.exn * FS.

Record World := {
  stdout : list pystr;      (* one entry per [print] *)
  files : FS
}.

Definition print (text : pystr) (w : World) : World :=
  {| stdout := stdout w ++ [text]; files := files w |}.

(** The block under [if __name__ == '__main__':], on [sys.argv]. *)
Definition script (argv : list pystr) (w : World) : outcome * World :=
  match argv with
  | [_; input_file; output_file] =>
      match read_text input_file (files w) with
      | inl e =>
          if String.eqb (Launcher.exn_class e) "FileNotFoundError" then
            (SysExit 1,
             print (lit "Error: Input file not found at " ++ input_file) w)
          else (Uncaught e, w)
      | inr html_content =>
          let cleaned_text := clean_html html_content in
          let '(failure, files') :=
            write_text output_file cleaned_text (files w) in
          let w' := {| stdout := stdout w; files := files' |} in
          match failure with
          | Some e => (Uncaught e, w')
          | None =>
              (Finished,
               print (lit "Successfully cleaned " ++ input_file ++
                      lit " and saved to " ++ output_file) w')
          end
      end
  | _ =>
      (* len(sys.argv) != 3 *)
      (SysExit 1,
       print (lit "Usage: python clean_html.py <input_file> <output_file>") w)
  end.

End Script.

End CleanHtmlScript.

(* ===================================================================== *)
(** * verobrix_launcher.py: the remaining methods and main *)
(* ===================================================================== *)

Module Driver.
Import Launcher.

Section Main.

Context {FS : Type} {DateTime : Type}.
Variable strftime_session : DateTime -> string.
Variable isoformat : DateTime -> string.
Variable dump_to_file : string -> Results -> FS -> option exn * FS.
Variable upper : string -> string.
Variable interpret_situation : string -> option json -> Situation.
Variable extract_clauses : string -> list json.
Variable detect_contradictions : list json -> list Contradiction.
Variable analyze_legal_structure : string -> json.
Variable interpret_tone : string -> json.
Variable analyze_legal_risk : string -> list Risk.
Variable generate_legal_summary : string -> json -> list Risk -> LegalSummary.
Variable synthesize_remedy : RemedyInput -> Remedy.

(** [with open(path, "r", encoding='utf-8') as f: f.read()]. *)
Variable read_file : string -> FS -> exn + string.

(** [RemedySynthesizer.generate_document] and
    [RemedySynthesizer.get_available_templates]. *)
Variable render_document : string -> dict string -> exn + string.
Variable available_templates : list string.

Notation "x <- m ;; k" := (bind m (fun x => k))
  (at level 100, m at next level, right associativity).
Notation "m ;;; k" := (bind m (fun _ => k))
  (at level 100, right associativity).

(** A value or an exception of the environment, as a computation. *)
Definition lift {A} (result : exn + A) : M (FS:=FS) (DateTime:=DateTime) A :=
  fun w => (result, w).

Definition generate_document (self : VeroBrixSystem) (template_name : string)
    (variables : dict string) : M string :=
  log_provenance "VeroBrix System"
    ("Generating document: " +:+ template_name) ;;;
  lift (render_document template_name variables).

Definition get_available_templates (self : VeroBrixSystem)
    : M (FS:=FS) (DateTime:=DateTime) (list string) :=
  ret available_templates.

(** The second [try] of [main]: the analysis, its summary, the sample
    document. *)
Definition analysis_and_document (system : VeroBrixSystem)
    (input_text : string) : M unit :=
  try_except
    (results <- analyze_situation isoformat dump_to_file interpret_situation
                  extract_clauses detect_contradictions
                  analyze_legal_structure interpret_tone analyze_legal_risk
                  generate_legal_summary synthesize_remedy
                  system input_text None ;;
     (* Print summary *)
     print_analysis_summary upper results ;;;
     (* Demonstrate document generation *)
     print (nl +:+ str_repeat "=" 60) ;;;
     print "DOCUMENT GENERATION EXAMPLE" ;;;
     print (str_repeat "=" 60) ;;;
     (* Generate a sample notice *)
     let variables :=
       [ ("OFFICER", "Officer Johnson");
         ("AGENCY", "State Highway Patrol");
         ("INDIVIDUAL_NAME", "John Doe");
         ("NAME", "John Doe") ] in
     document <- generate_document system "traffic_stop" variables ;;
     print "Generated Notice of Lawful Travel:" ;;;
     print (str_repeat "-" 40) ;;;
     print document ;;;
     print (nl +:+ "Full analysis results saved to: output/verobrix_analysis_"
            +:+ self_session_id system +:+ ".json"))
    (fun e =>
     log_provenance "VeroBrix System"
       ("Error during analysis: " +:+ exn_str e) ;;;
     print ("An error occurred during analysis: " +:+ exn_str e)).

Definition main : M unit :=
  system <- init strftime_session ;;
  (* Load input document *)
  fun w =>
    match read_file "intake/sample_document.txt" (fs w) with
    | inr input_text =>
        (log_provenance "VeroBrix System"
           "Successfully loaded 'intake/sample_document.txt'" ;;;
         (* Perform comprehensive analysis *)
         analysis_and_document system input_text) w
    | inl e =>
        if String.eqb (exn_class e) "FileNotFoundError" then
          (log_provenance "VeroBrix System"
             "Error: 'intake/sample_document.txt' not found" ;;;
           print "Please create the file 'intake/sample_document.txt' with some text.")
            w
        else
          log_provenance "VeroBrix System"
            ("Error loading input file: " +:+ exn_str e) w
    end.

End Main.

End Driver.

(* ===================================================================== *)
(** * Properties of clean_html *)
(* ===================================================================== *)

Module CleanHtmlSpec.
Import PyStr CleanHtml.

(** A code point that is not a line boundary. *)
Definition inline (c : codepoint) : Prop := is_linebreak c = false.

(** A line as [clean_html] promises it: something on it, and no white space
    at either end. *)
Definition tidy (line : pystr) : Prop :=
  line <> []
  /\ (forall c, head line = Some c -> isspace c = false)
  /\ (forall c, last line = Some c -> isspace c = false).

(** [s.split(sep)] for a separator of one code point: the pieces between
    the separators, empty ones included. *)
Fixpoint split_on_from (sep : codepoint) (cur s : pystr) : list pystr :=
  match s with
  | [] => [cur]
  | c :: rest =>
      if (c =? sep)%N then cur :: split_on_from sep [] rest
      else split_on_from sep (cur ++ [c]) rest
  end.

Definition split_on (sep : codepoint) (s : pystr) : list pystr :=
  split_on_from sep [] s.

(** The list the generator expression of the last statement yields. *)
Definition kept_lines (text : pystr) : list pystr :=
  List.map strip
    (List.filter (fun line => negb (bool_decide (strip line = [])))
       (splitlines text)).

Lemma splitlines_from_inline s : forall after_cr cur,
  Forall inline cur ->
  Forall (Forall inline) (splitlines_from after_cr cur s).
Proof.
  induction s as [|c rest IH]; intros after_cr cur Hcur; simpl.
  - destruct cur; [constructor|]. constructor; [assumption|constructor].
  - destruct (after_cr && (c =? LF)%N); [now apply IH|].
    destruct (is_linebreak c) eqn:Hc.
    + constructor; [assumption|]. apply IH. constructor.
    + apply IH. apply Forall_app. split; [assumption|].
      constructor; [exact Hc|constructor].
Qed.

Lemma splitlines_inline text : Forall (Forall inline) (splitlines text).
Proof. apply splitlines_from_inline. constructor. Qed.

Lemma lstrip_Forall (P : codepoint -> Prop) s :
  Forall P s -> Forall P (lstrip s).
Proof.
  induction 1 as [|c s Hc Hs IH]; simpl; [constructor|].
  destruct (isspace c); [exact IH|]. constructor; assumption.
Qed.

Lemma strip_Forall (P : codepoint -> Prop) s :
  Forall P s -> Forall P (strip s).
Proof.
  intros H. unfold strip, rstrip.
  apply Forall_rev, lstrip_Forall, Forall_rev, lstrip_Forall, H.
Qed.

Lemma lstrip_head s c : head (lstrip s) = Some c -> isspace c = false.
Proof.
  induction s as [|x s IH]; simpl; [discriminate|].
  destruct (isspace x) eqn:Hx; [exact IH|].
  simpl. intros [= <-]. exact Hx.
Qed.

Lemma lstrip_app a b :
  lstrip (a ++ b) =
  match lstrip a with
  | [] => lstrip b
  | x :: a' => (x :: a') ++ b
  end.
Proof.
  induction a as [|c a IH]; simpl.
  - reflexivity.
  - destruct (isspace c); [exact IH|reflexivity].
Qed.

(** [rstrip] keeps a first code point that is not white space. *)
Lemma rstrip_cons_keep c s :
  isspace c = false -> exists s', rstrip (c :: s) = c :: s'.
Proof.
  intros Hc. unfold rstrip. simpl rev. rewrite lstrip_app.
  destruct (lstrip (rev s)) as [|x r] eqn:E.
  - simpl. rewrite Hc. simpl. eauto.
  - rewrite rev_app_distr. simpl. eauto.
Qed.

Lemma last_rev_head (s : pystr) : last (rev s) = head s.
Proof.
  destruct s as [|x s]; [reflexivity|]. simpl rev. apply last_snoc.
Qed.

Lemma rstrip_last s c : last (rstrip s) = Some c -> isspace c = false.
Proof.
  unfold rstrip. rewrite last_rev_head. apply lstrip_head.
Qed.

Lemma strip_head s c : head (strip s) = Some c -> isspace c = false.
Proof.
  unfold strip. pose proof (lstrip_head s) as Hh.
  destruct (lstrip s) as [|x r].
  - discriminate.
  - specialize (Hh x eq_refl).
    destruct (rstrip_cons_keep x r Hh) as [s' ->].
    simpl. intros [= <-]. exact Hh.
Qed.

Lemma strip_tidy s : strip s <> [] -> tidy (strip s).
Proof.
  intros Hne. split; [exact Hne|]. split.
  - apply strip_head.
  - unfold strip. apply rstrip_last.
Qed.

(** Reading a run without line boundaries moves it into the current
    line. *)
Lemma splitlines_from_run line : forall cur rest,
  Forall inline line ->
  splitlines_from false cur (line ++ rest)
  = splitlines_from false (cur ++ line) rest.
Proof.
  induction line as [|c line IH]; intros cur rest Hl; simpl.
  - now rewrite app_nil_r.
  - inversion Hl as [|? ? Hc Hl']; subst. unfold inline in Hc.
    rewrite Hc. rewrite IH by assumption.
    now rewrite <- app_assoc.
Qed.

(** Lines that are not empty and hold no boundary come back from
    [splitlines] after a [join] on LF. *)
Lemma splitlines_join lines :
  Forall (fun l => l <> [] /\ Forall inline l) lines ->
  splitlines (join [LF] lines) = lines.
Proof.
  unfold splitlines.
  induction lines as [|l ls IH]; intros H; [reflexivity|].
  inversion H as [|? ? [Hne Hl] Hls]; subst.
  destruct ls as [|l' ls'].
  - simpl. rewrite <- (app_nil_r l) at 1.
    rewrite splitlines_from_run by assumption. simpl.
    destruct l; [contradiction|reflexivity].
  - change (join [LF] (l :: l' :: ls'))
      with (l ++ [LF] ++ join [LF] (l' :: ls')).
    rewrite splitlines_from_run by assumption.
    simpl app at 1. simpl splitlines_from at 1.
    change (LF =? CR)%N with false.
    f_equal. apply IH. assumption.
Qed.

Lemma kept_lines_spec text :
  Forall (fun l => tidy l /\ Forall inline l) (kept_lines text).
Proof.
  unfold kept_lines. apply Forall_forall. intros x Hx.
  apply list_elem_of_In in Hx.
  apply in_map_iff in Hx as (l & <- & Hl).
  apply filter_In in Hl as [Hl Hkeep].
  apply negb_true_iff, bool_decide_eq_false in Hkeep.
  split; [now apply strip_tidy|].
  apply strip_Forall.
  pose proof (splitlines_inline text) as Hall.
  rewrite Forall_forall in Hall. apply Hall.
  now apply list_elem_of_In.
Qed.

(** The lines of the text [clean_html] returns are the stripped lines it
    kept. *)
Lemma clean_html_lines html :
  exists text, clean_html html = join [LF] (kept_lines text)
               /\ splitlines (clean_html html) = kept_lines text.
Proof.
  unfold clean_html. fold kept_lines.
  eexists. split; [reflexivity|].
  fold (kept_lines
    (replace (lit "&#39;") (lit "'")
      (replace (lit "&quot;") [34%N]
        (replace (lit "&gt;") (lit ">")
          (replace (lit "&lt;") (lit "<")
            (replace (lit "&amp;") (lit "&")
              (re_sub match_tag []
                (re_sub match_script_style [] html)))))))).
  apply splitlines_join.
  eapply Forall_impl; [apply kept_lines_spec|].
  intros l [[Hne _] Hin]. simpl. auto.
Qed.

(** The same lines come back when the text is cut at every LF, as
    [text.split('\n')] does, unless there is no line at all. *)
Lemma split_on_from_run line : forall cur rest,
  Forall inline line ->
  split_on_from LF cur (line ++ rest) = split_on_from LF (cur ++ line) rest.
Proof.
  induction line as [|c line IH]; intros cur rest Hl; simpl.
  - now rewrite app_nil_r.
  - inversion Hl as [|? ? Hc Hl']; subst. unfold inline in Hc.
    destruct (N.eqb_spec c LF) as [->|_]; [discriminate Hc|].
    rewrite IH by assumption. now rewrite <- app_assoc.
Qed.

Lemma split_on_join lines :
  lines <> [] ->
  Forall (Forall inline) lines ->
  split_on LF (join [LF] lines) = lines.
Proof.
  unfold split_on.
  induction lines as [|l ls IH]; intros Hne H; [contradiction|].
  inversion H as [|? ? Hl Hls]; subst.
  destruct ls as [|l' ls'].
  - simpl. rewrite <- (app_nil_r l) at 1.
    now rewrite split_on_from_run by assumption.
  - change (join [LF] (l :: l' :: ls'))
      with (l ++ [LF] ++ join [LF] (l' :: ls')).
    rewrite split_on_from_run by assumption.
    simpl app at 1. simpl split_on_from at 1.
    f_equal. apply IH; [discriminate|assumption].
Qed.

(** C10.  For every input string, every line of the text returned by
    [clean_html] is non-empty and has no white space at its start or at its
    end, so the output has no blank line.  The lines are those
    [str.splitlines] gives, and, for an output that is not the empty
    string, equally those between its line feeds. *)
Theorem clean_html_lines_tidy (html : pystr) :
  Forall tidy (splitlines (clean_html html))
  /\ (clean_html html <> [] -> Forall tidy (split_on LF (clean_html html))).
Proof.
  destruct (clean_html_lines html) as (text & Hjoin & Hlines).
  assert (Htidy : Forall tidy (kept_lines text)).
  { eapply Forall_impl; [apply kept_lines_spec|]. intros l [Ht _]. exact Ht. }
  split; [now rewrite Hlines|].
  intros Hne. rewrite Hjoin in *.
  rewrite split_on_join; [exact Htidy| |].
  - intros E. rewrite E in Hne. now apply Hne.
  - eapply Forall_impl; [apply kept_lines_spec|]. intros l [_ Hin]. exact Hin.
Qed.

End CleanHtmlSpec.

(* ===================================================================== *)
(** * Properties of recommendation derivation *)
(* ===================================================================== *)

Module RecommendationSpec.
Import Launcher.

(** What each rule contributes, as the design document names it. *)
Definition urgency_triggered : list string :=
  [ "URGENT: Time-sensitive situation detected";
    "Review all deadlines and timelines immediately";
    "Consider emergency legal consultation" ].

Definition risk_triggered : list string :=
  [ "HIGH RISK: Seek immediate legal counsel" ].

Definition high_risk_warning : string :=
  "Situation contains high-risk legal elements".

(** The entry of the situation table for a type, one key of it. *)
Definition table (ty key : string) : list string :=
  match dict_lookup ty situation_actions with
  | Some actions => dict_get key [] actions
  | None => []
  end.

Definition urgency_part (s : Situation) : list string :=
  if String.eqb (level (urgency s)) "high" then urgency_triggered else [].

Definition risk_part (m : LegalSummary) : list string :=
  if String.eqb (risk_level m) "HIGH" then risk_triggered else [].

Ltac split_rules :=
  unfold _generate_recommendations, urgency_part, risk_part, table;
  repeat match goal with
         | |- context [if ?c then _ else _] => destruct c
         | |- context [match dict_lookup ?k ?d with _ => _ end] =>
             destruct (dict_lookup k d)
         end;
  cbn; rewrite ?app_nil_r; reflexivity.

(** Each list of the result, rule by rule. *)
Lemma immediate_actions_rules s m r :
  immediate_actions (_generate_recommendations s m r)
  = urgency_part s ++ risk_part m ++ table (type s) "immediate".
Proof. split_rules. Qed.

Lemma short_term_actions_rules s m r :
  short_term_actions (_generate_recommendations s m r)
  = (if truthy_list (remedy_contradictions r)
     then ["Challenge contradictory provisions in documents"] else [])
    ++ table (type s) "short_term".
Proof. split_rules. Qed.

Lemma long_term_actions_rules s m r :
  long_term_actions (_generate_recommendations s m r)
  = table (type s) "long_term".
Proof. split_rules. Qed.

Lemma warnings_rules s m r :
  warnings (_generate_recommendations s m r)
  = if String.eqb (risk_level m) "HIGH" then [high_risk_warning] else [].
Proof. split_rules. Qed.

Lemma opportunities_rules s m r :
  opportunities (_generate_recommendations s m r)
  = (if String.eqb (tone_summary m) "positive"
     then ["Document contains favorable language - preserve these terms"]
     else [])
    ++ (if String.eqb (primary (jurisdiction s)) "commercial"
        then ["Commercial jurisdiction may provide UCC protections"]
        else []).
Proof. split_rules. Qed.

(** C2.  With [urgency.level = "high"], [risk_level = "HIGH"] and
    [situation.type = "traffic_stop"], the immediate actions are the three
    urgency strings, then the risk string, then the two strings of the
    traffic-stop entry of the table: six strings in that order. *)
Theorem high_urgency_high_risk_traffic_stop (s : Situation)
    (m : LegalSummary) (r : Remedy) :
  level (urgency s) = "high" ->
  risk_level m = "HIGH" ->
  type s = "traffic_stop" ->
  immediate_actions (_generate_recommendations s m r)
  = urgency_triggered ++ risk_triggered
    ++ ["Document all details of the encounter"; "Preserve any evidence"]
  /\ length (immediate_actions (_generate_recommendations s m r)) = 6.
Proof.
  intros Hu Hr Ht.
  rewrite immediate_actions_rules.
  unfold urgency_part, risk_part. rewrite Hu, Hr, Ht.
  split; reflexivity.
Qed.

(** C4.  Two inputs that agree on the risk level, the remedy's
    contradictions, the situation type, the tone and the jurisdiction, one
    with urgency "high" and the other with urgency "low": the first result
    has the three urgency strings in front of the immediate actions of the
    second, and every other list is the same. *)
Theorem urgency_toggle (s1 s2 : Situation) (m1 m2 : LegalSummary)
    (r1 r2 : Remedy) :
  risk_level m1 = risk_level m2 ->
  remedy_contradictions r1 = remedy_contradictions r2 ->
  type s1 = type s2 ->
  tone_summary m1 = tone_summary m2 ->
  jurisdiction s1 = jurisdiction s2 ->
  level (urgency s1) = "high" ->
  level (urgency s2) = "low" ->
  let high := _generate_recommendations s1 m1 r1 in
  let low := _generate_recommendations s2 m2 r2 in
  immediate_actions high = urgency_triggered ++ immediate_actions low
  /\ short_term_actions high = short_term_actions low
  /\ long_term_actions high = long_term_actions low
  /\ warnings high = warnings low
  /\ opportunities high = opportunities low.
Proof.
  intros Hrisk Hcontra Htype Htone Hjur Hhigh Hlow. cbv zeta.
  rewrite !immediate_actions_rules, !short_term_actions_rules,
    !long_term_actions_rules, !warnings_rules, !opportunities_rules.
  unfold urgency_part, risk_part.
  rewrite Hrisk, Hcontra, Htype, Htone, Hjur, Hhigh, Hlow.
  repeat split; reflexivity.
Qed.

(** C5.  With [situation.type = "fee_demand"] the immediate actions are the
    urgency-triggered strings (if any), then the risk-triggered string (if
    any), then the two strings of the fee-demand entry, in that order; the
    two strings occur nowhere before. *)
Theorem fee_demand_immediate_actions (s : Situation) (m : LegalSummary)
    (r : Remedy) :
  type s = "fee_demand" ->
  immediate_actions (_generate_recommendations s m r)
  = (urgency_part s ++ risk_part m)
    ++ ["Do not pay without challenging authority"; "Request fee schedule"]
  /\ ~ In "Do not pay without challenging authority"
         (urgency_part s ++ risk_part m)
  /\ ~ In "Request fee schedule" (urgency_part s ++ risk_part m).
Proof.
  intros Ht. rewrite immediate_actions_rules, Ht.
  split; [now rewrite <- app_assoc|].
  unfold urgency_part, risk_part.
  destruct (String.eqb (level (urgency s)) "high"),
           (String.eqb (risk_level m) "HIGH");
    cbn; split; intros H; intuition discriminate.
Qed.

(** C9.  The warnings list is non-empty exactly when the summary's risk
    level is "HIGH", and then it is the one fixed warning; no other rule
    adds a warning. *)
Theorem warnings_iff_high_risk (s : Situation) (m : LegalSummary)
    (r : Remedy) :
  (warnings (_generate_recommendations s m r) <> [] <-> risk_level m = "HIGH")
  /\ (risk_level m = "HIGH" ->
      warnings (_generate_recommendations s m r) = [high_risk_warning])
  /\ (risk_level m <> "HIGH" ->
      warnings (_generate_recommendations s m r) = []).
Proof.
  rewrite warnings_rules.
  destruct (String.eqb_spec (risk_level m) "HIGH") as [E|E].
  - split; [|split].
    + split; [intros _; exact E|discriminate].
    + reflexivity.
    + intros H. contradiction.
  - split; [|split].
    + split; intros H; contradiction.
    + intros H. contradiction.
    + reflexivity.
Qed.

End RecommendationSpec.

(* ===================================================================== *)
(** * Properties of the orchestrator *)
(* ===================================================================== *)

Module OrchestratorSpec.
Import Launcher.

Section Analyze.

Context {FS : Type} {DateTime : Type}.
Variable isoformat : DateTime -> string.
Variable dump_to_file : string -> Results -> FS -> option exn * FS.
Variable interpret_situation : string -> option json -> Situation.
Variable extract_clauses : string -> list json.
Variable detect_contradictions : list json -> list Contradiction.
Variable analyze_legal_structure : string -> json.
Variable interpret_tone : string -> json.
Variable analyze_legal_risk : string -> list Risk.
Variable generate_legal_summary : string -> json -> list Risk -> LegalSummary.
Variable synthesize_remedy : RemedyInput -> Remedy.

Local Abbreviation world := (@World FS DateTime).

Local Abbreviation analyze :=
  (analyze_situation isoformat dump_to_file interpret_situation
     extract_clauses detect_contradictions analyze_legal_structure
     interpret_tone analyze_legal_risk generate_legal_summary
     synthesize_remedy).

(** The projection handed to the remedy synthesizer. *)
Definition remedy_request (text : string) (ctx : option json) : RemedyInput :=
  let situation := interpret_situation text ctx in
  let contradictions := detect_contradictions (extract_clauses text) in
  let tone := interpret_tone text in
  let summary := generate_legal_summary text tone (analyze_legal_risk text) in
  {| req_type := type situation;
     req_risk_level := risk_level summary;
     req_contradictions := contradictions;
     req_tone_analysis := tone;
     req_urgency := urgency situation;
     req_jurisdiction := jurisdiction situation;
     req_legal_framework := legal_framework situation |}.

(** The collaborator calls of one analysis, in order, each with its
    arguments. *)
Definition pipeline (text : string) (ctx : option json) : list call :=
  let clauses := extract_clauses text in
  let tone := interpret_tone text in
  let risks := analyze_legal_risk text in
  [ CInterpretSituation text ctx;
    CExtractClauses text;
    CDetectContradictions clauses;
    CAnalyzeLegalStructure text;
    CInterpretTone text;
    CAnalyzeLegalRisk text;
    CGenerateLegalSummary text tone risks;
    CSynthesizeRemedy (remedy_request text ctx) ].

(** The Analysis Result of a text, a context, a session and a clock
    reading. *)
Definition analysis_result (self : VeroBrixSystem) (text : string)
    (ctx : option json) (t : DateTime) : Results :=
  let situation := interpret_situation text ctx in
  let clauses := extract_clauses text in
  let contradictions := detect_contradictions clauses in
  let tone := interpret_tone text in
  let risks := analyze_legal_risk text in
  let summary := generate_legal_summary text tone risks in
  let remedy := synthesize_remedy (remedy_request text ctx) in
  {| session_id := self_session_id self;
     timestamp := isoformat t;
     input := {| raw_text := text; context := ctx |};
     situation_analysis := situation;
     legal_analysis :=
       {| clauses := clauses;
          contradictions := contradictions;
          legal_structure := analyze_legal_structure text;
          tone_analysis := tone;
          legal_risks := risks;
          legal_summary := summary |};
     remedy := remedy;
     recommendations := _generate_recommendations situation summary remedy |}.

(** The collaborator calls among the events. *)
Fixpoint calls_of (events : list event) : list call :=
  match events with
  | [] => []
  | EvCall c :: rest => c :: calls_of rest
  | _ :: rest => calls_of rest
  end.

Definition artifact (self : VeroBrixSystem) : string :=
  "output/verobrix_analysis_" +:+ self_session_id self +:+ ".json".

(** The provenance entry that saving leaves, by its outcome. *)
Definition save_entry (self : VeroBrixSystem) (failure : option exn) : event :=
  match failure with
  | Some e => EvLog "VeroBrix System" ("Error saving results: " +:+ exn_str e)
  | None =>
      EvLog "VeroBrix System" ("Analysis results saved to " +:+ artifact self)
  end.

(** Saving never raises: it returns [None], changes the file system as the
    write did, and leaves one provenance entry. *)
Lemma save_analysis_results_run self results (w : world) :
  let outcome := dump_to_file (artifact self) results (fs w) in
  _save_analysis_results dump_to_file self results w
  = (inr tt, {| trace := trace w ++ [save_entry self (fst outcome)];
                fs := snd outcome;
                now := now w |}).
Proof.
  cbv zeta. unfold _save_analysis_results, try_except, bind, write_json,
    log_provenance, emit, artifact.
  destruct (dump_to_file _ results (fs w)) as [[e|] fs']; reflexivity.
Qed.

(** Several events at once. *)
Definition emits (events : list event) (w : world) : world :=
  {| trace := trace w ++ events; fs := fs w; now := now w |}.

Lemma emit_as_emits e (w : world) : emit e w = emits [e] w.
Proof. reflexivity. Qed.

Lemma emits_emits es1 es2 (w : world) :
  emits es2 (emits es1 w) = emits (es1 ++ es2) w.
Proof. unfold emits. cbn. now rewrite app_assoc. Qed.

Lemma fs_emits es (w : world) : fs (emits es w) = fs w.
Proof. reflexivity. Qed.

Lemma now_emits es (w : world) : now (emits es w) = now w.
Proof. reflexivity. Qed.

(** One step of a run. *)
Lemma run_bind_log {A} actor message (k : unit -> M A) (w : world) :
  bind (log_provenance actor message) k w
  = k tt (emit (EvLog actor message) w).
Proof. reflexivity. Qed.

Lemma run_bind_invoke {A B} c (result : A) (k : A -> M B) (w : world) :
  bind (invoke c result) k w = k result (emit (EvCall c) w).
Proof. reflexivity. Qed.

Lemma run_bind_now {A} (k : DateTime -> M A) (w : world) :
  bind datetime_now k w = k (now w) w.
Proof. reflexivity. Qed.

(** One analysis, start to end: the value returned and the world left. *)
Lemma analyze_situation_run self text ctx (w : world) :
  let results := analysis_result self text ctx (now w) in
  let outcome := dump_to_file (artifact self) results (fs w) in
  analyze self text ctx w
  = (inr results,
     {| trace :=
          trace w ++
          [ EvLog "VeroBrix System" "Starting comprehensive situation analysis";
            EvLog "VeroBrix System" "Step 1: Interpreting situation with SituationInterpreter";
            EvCall (CInterpretSituation text ctx);
            EvLog "VeroBrix System" "Step 2: Extracting clauses with JARVIS";
            EvCall (CExtractClauses text);
            EvLog "VeroBrix System" "Step 3: Detecting contradictions with JARVIS";
            EvCall (CDetectContradictions (extract_clauses text));
            EvLog "VeroBrix System" "Step 4: Analyzing legal structure with JARVIS";
            EvCall (CAnalyzeLegalStructure text);
            EvLog "VeroBrix System" "Step 5: Analyzing tone and risks with FRIDAY";
            EvCall (CInterpretTone text);
            EvCall (CAnalyzeLegalRisk text);
            EvLog "VeroBrix System" "Step 6: Generating legal summary with FRIDAY";
            EvCall (CGenerateLegalSummary text (interpret_tone text)
                      (analyze_legal_risk text));
            EvLog "VeroBrix System" "Step 7: Synthesizing remedy";
            EvCall (CSynthesizeRemedy (remedy_request text ctx));
            save_entry self (fst outcome);
            EvLog "VeroBrix System" "Comprehensive analysis completed" ];
        fs := snd outcome;
        now := now w |}).
Proof.
  cbv zeta. unfold analyze_situation.
  repeat (first [rewrite run_bind_log | rewrite run_bind_invoke
                | rewrite run_bind_now]; cbv beta).
  unfold bind at 1. rewrite save_analysis_results_run.
  rewrite run_bind_log. unfold ret.
  rewrite !emit_as_emits, !emits_emits. cbn [app].
  rewrite !fs_emits, !now_emits.
  unfold emits at 1. cbn [trace fs now].
  unfold emits. cbn [trace fs now].
  rewrite <- !app_assoc. reflexivity.
Qed.

(** C1.  Every analysis calls the collaborators in one fixed order:
    situation interpretation on the text and the context; clause extraction
    on the text; contradiction detection on exactly the extracted clauses;
    legal structure, tone and risk analysis on the text; the legal summary
    on the text, the tone analysis and the risks; and last remedy synthesis
    on the projection of type, risk level, contradictions, tone analysis,
    urgency, jurisdiction and legal framework, taken from the situation
    record, the legal summary and the detected contradictions. *)
Theorem analyze_pipeline_order self text ctx (w : world) :
  exists events,
    trace (snd (analyze self text ctx w)) = trace w ++ events
    /\ calls_of events = pipeline text ctx
    /\ req_type (remedy_request text ctx)
       = type (interpret_situation text ctx)
    /\ req_risk_level (remedy_request text ctx)
       = risk_level (generate_legal_summary text (interpret_tone text)
                       (analyze_legal_risk text))
    /\ req_contradictions (remedy_request text ctx)
       = detect_contradictions (extract_clauses text)
    /\ req_tone_analysis (remedy_request text ctx) = interpret_tone text
    /\ req_urgency (remedy_request text ctx)
       = urgency (interpret_situation text ctx)
    /\ req_jurisdiction (remedy_request text ctx)
       = jurisdiction (interpret_situation text ctx)
    /\ req_legal_framework (remedy_request text ctx)
       = legal_framework (interpret_situation text ctx).
Proof.
  rewrite analyze_situation_run. cbn [snd trace].
  eexists. split; [reflexivity|].
  split.
  - unfold save_entry.
    destruct (fst (dump_to_file _ _ (fs w))); reflexivity.
  - repeat split; reflexivity.
Qed.

End Analyze.

(** C6.  When writing the completed Analysis Result fails, [analyze] still
    returns (the exception does not reach the caller), the failure is in
    the provenance log, and the result returned is the one a run returns
    whose write succeeds, on the same text, context, session and clock
    reading. *)
Theorem persistence_failure_contained {FS DateTime : Type}
    (isoformat : DateTime -> string)
    (dump_to_file : string -> Results -> FS -> option exn * FS)
    interpret_situation extract_clauses detect_contradictions
    analyze_legal_structure interpret_tone analyze_legal_risk
    generate_legal_summary synthesize_remedy
    (self : VeroBrixSystem) (text : string) (ctx : option json)
    (w : @World FS DateTime) (e : exn) :
  let analyze dump :=
    analyze_situation isoformat dump interpret_situation
      extract_clauses detect_contradictions analyze_legal_structure
      interpret_tone analyze_legal_risk generate_legal_summary
      synthesize_remedy self text ctx in
  let results :=
    analysis_result isoformat interpret_situation extract_clauses
      detect_contradictions analyze_legal_structure interpret_tone
      analyze_legal_risk generate_legal_summary synthesize_remedy
      self text ctx (now w) in
  fst (dump_to_file (artifact self) results (fs w)) = Some e ->
  fst (analyze dump_to_file w) = inr results
  /\ In (EvLog "VeroBrix System" ("Error saving results: " +:+ exn_str e))
        (trace (snd (analyze dump_to_file w)))
  /\ (forall (working : string -> Results -> FS -> option exn * FS)
             (w' : @World FS DateTime),
        now w' = now w ->
        fst (working (artifact self) results (fs w')) = None ->
        fst (analyze working w') = inr results).
Proof.
  intros analyze results Hfail. unfold analyze.
  rewrite analyze_situation_run. cbn [fst snd trace].
  split; [reflexivity|]. split.
  - fold results. rewrite Hfail. apply in_or_app. right. cbn. tauto.
  - intros working w' Hnow _. rewrite analyze_situation_run. cbn [fst].
    unfold results. now rewrite Hnow.
Qed.

End OrchestratorSpec.

(* ===================================================================== *)
(** * Properties of the summary report *)
(* ===================================================================== *)

Module PresentationSpec.
Import Launcher.

(** [line.startswith(header)]. *)
Fixpoint str_startswith (header line : string) : bool :=
  match header with
  | EmptyString => true
  | String a header' =>
      match line with
      | EmptyString => false
      | String b line' => Ascii.eqb a b && str_startswith header' line'
      end
  end.

(** The [print] calls among the events, in order. *)
Fixpoint printed (events : list event) : list string :=
  match events with
  | [] => []
  | EvPrint text :: rest => text :: printed rest
  | _ :: rest => printed rest
  end.

(** How the design document renders one contradiction: a bare string as it
    is, a record by its description, a record without description by the
    placeholder. *)
Definition rendering (c : Contradiction) : string :=
  match c with
  | CStr s => s
  | CDict d =>
      match dict_lookup "description" d with
      | Some description => description
      | None => "Unknown contradiction"
      end
  end.

Definition numbered (entry : nat * Contradiction) : string :=
  "  " +:+ str_of_nat (fst entry) +:+ ". " +:+ rendering (snd entry).

Definition contradiction_lines (cs : list Contradiction) : list string :=
  List.map numbered (enumerate 1 cs).

(** The sections of the report that depend on a field being there. *)
Inductive report_section :=
| SecondaryJurisdictions
| PeopleInvolved
| Organizations
| ContradictionsDetected
| LegalRisks
| ImmediateActions
| Warnings
| LegalStrategies.

Definition header_of (sec : report_section) : string :=
  match sec with
  | SecondaryJurisdictions => "Secondary Jurisdictions: "
  | PeopleInvolved => "People Involved: "
  | Organizations => "Organizations: "
  | ContradictionsDetected => nl +:+ "CONTRADICTIONS DETECTED: "
  | LegalRisks => nl +:+ "LEGAL RISKS IDENTIFIED: "
  | ImmediateActions => nl +:+ "IMMEDIATE ACTIONS REQUIRED:"
  | Warnings => nl +:+ "WARNINGS:"
  | LegalStrategies => nl +:+ "RECOMMENDED LEGAL STRATEGIES:"
  end.

(** The field a section is printed from has nothing in it. *)
Definition field_empty (sec : report_section) (r : Results) : Prop :=
  match sec with
  | SecondaryJurisdictions =>
      secondary (jurisdiction (situation_analysis r)) = []
  | PeopleInvolved => people (entities (situation_analysis r)) = []
  | Organizations => organizations (entities (situation_analysis r)) = []
  | ContradictionsDetected => contradictions (legal_analysis r) = []
  | LegalRisks => legal_risks (legal_analysis r) = []
  | ImmediateActions => immediate_actions (recommendations r) = []
  | Warnings => warnings (recommendations r) = []
  | LegalStrategies => legal_strategies (remedy r) = []
  end.

Definition block (cond : bool) (lines : list string) : list string :=
  if cond then lines else [].

Section Summary.

Context {FS : Type} {DateTime : Type}.
Variable upper : string -> string.

Local Abbreviation world := (@World FS DateTime).
Local Abbreviation summarize :=
  (print_analysis_summary (FS:=FS) (DateTime:=DateTime) upper).

(** Everything the summary prints, one string per [print]. *)
Definition summary_lines (r : Results) : list string :=
  let jur := jurisdiction (situation_analysis r) in
  let ent := entities (situation_analysis r) in
  let cs := contradictions (legal_analysis r) in
  let risks := legal_risks (legal_analysis r) in
  let immediate := immediate_actions (recommendations r) in
  let warns := warnings (recommendations r) in
  let strategies := legal_strategies (remedy r) in
  [nl +:+ str_repeat "=" 60] ++
  ["VEROBRIX LEGAL ANALYSIS SUMMARY"] ++
  [str_repeat "=" 60] ++
  ["Session ID: " +:+ session_id r] ++
  ["Analysis Time: " +:+ timestamp r] ++
  ["Situation Type: " +:+ upper (type (situation_analysis r))] ++
  ["Risk Level: " +:+ risk_level (legal_summary (legal_analysis r))] ++
  ["Urgency: " +:+ upper (level (urgency (situation_analysis r)))] ++
  ["Primary Jurisdiction: " +:+ upper (primary jur)] ++
  block (truthy (secondary jur))
    ["Secondary Jurisdictions: " +:+ upper (str_join ", " (secondary jur))] ++
  block (truthy (people ent))
    ["People Involved: " +:+ str_join ", " (people ent)] ++
  block (truthy (organizations ent))
    ["Organizations: " +:+ str_join ", " (organizations ent)] ++
  block (truthy cs)
    ([nl +:+ "CONTRADICTIONS DETECTED: " +:+ str_of_nat (length cs)] ++
     contradiction_lines cs) ++
  block (truthy risks)
    ([nl +:+ "LEGAL RISKS IDENTIFIED: " +:+ str_of_nat (length risks)] ++
     List.map (fun risk => "  - " +:+ rk_level risk +:+ " RISK: " +:+
                           rk_description risk) risks) ++
  block (truthy immediate)
    ([nl +:+ "IMMEDIATE ACTIONS REQUIRED:"] ++
     List.map (fun action => "  • " +:+ action) immediate) ++
  block (truthy warns)
    ([nl +:+ "WARNINGS:"] ++
     List.map (fun warning => "  ⚠️  " +:+ warning) warns) ++
  block (truthy strategies)
    ([nl +:+ "RECOMMENDED LEGAL STRATEGIES:"] ++
     List.map (fun strategy => "  • " +:+ strategy) strategies) ++
  [nl +:+ str_repeat "=" 60].

Definition print_all (lines : list string) (w : world) : world :=
  {| trace := trace w ++ List.map EvPrint lines; fs := fs w; now := now w |}.

(** [m] returns normally after printing [lines] and doing nothing else. *)
Definition prints (m : M unit) (lines : list string) : Prop :=
  forall w : world, m w = (inr tt, print_all lines w).

Lemma print_all_nil (w : world) : print_all [] w = w.
Proof. destruct w. unfold print_all. cbn. now rewrite app_nil_r. Qed.

Lemma print_all_app l1 l2 (w : world) :
  print_all (l1 ++ l2) w = print_all l2 (print_all l1 w).
Proof. unfold print_all. cbn. now rewrite map_app, app_assoc. Qed.

Lemma prints_print text : prints (print text) [text].
Proof. intros w. reflexivity. Qed.

Lemma prints_ret : prints (ret tt) [].
Proof. intros w. now rewrite print_all_nil. Qed.

Lemma prints_seq m k l1 l2 :
  prints m l1 -> prints k l2 -> prints (bind m (fun _ => k)) (l1 ++ l2).
Proof.
  intros Hm Hk w. unfold bind. rewrite Hm, Hk. now rewrite print_all_app.
Qed.

Lemma prints_when cond m lines :
  prints m lines -> prints (when_ cond m) (block cond lines).
Proof. destruct cond; [auto|]. intros _. apply prints_ret. Qed.

Lemma prints_for_each {A} (body : A -> M unit) (line : A -> string) xs :
  (forall x, prints (body x) [line x]) ->
  prints (for_each xs body) (List.map line xs).
Proof.
  intros Hbody. induction xs as [|x xs IH]; simpl.
  - apply prints_ret.
  - apply (prints_seq _ _ [line x]); [apply Hbody|apply IH].
Qed.

Lemma summary_prints r : prints (summarize r) (summary_lines r).
Proof.
  unfold print_analysis_summary, summary_lines. cbv zeta.
  repeat first
    [ apply prints_seq
    | apply prints_print
    | apply prints_when
    | apply prints_for_each; intros ] .
  destruct x as [i [d|s]]; apply prints_print.
Qed.

Lemma summarize_run r (w : world) :
  summarize r w = (inr tt, print_all (summary_lines r) w).
Proof. apply summary_prints. Qed.

Lemma printed_app e1 e2 : printed (e1 ++ e2) = printed e1 ++ printed e2.
Proof.
  induction e1 as [|[] e1 IH]; simpl; rewrite ?IH; reflexivity.
Qed.

Lemma printed_prints lines : printed (List.map EvPrint lines) = lines.
Proof. induction lines; simpl; congruence. Qed.

(** What the summary adds to the console is [summary_lines]. *)
Lemma summarize_printed r (w : world) :
  printed (trace (snd (summarize r w)))
  = printed (trace w) ++ summary_lines r.
Proof.
  rewrite summarize_run. cbn [snd]. unfold print_all. cbn [trace].
  now rewrite printed_app, printed_prints.
Qed.

Lemma infix_shift {A} (pre l x : list A) :
  (exists before after, l = before ++ x ++ after) ->
  exists before after, pre ++ l = before ++ x ++ after.
Proof.
  intros (b & a & ->). exists (pre ++ b), a. now rewrite <- app_assoc.
Qed.

Lemma enumerate_lookup (cs : list Contradiction) : forall start i c,
  cs !! i = Some c ->
  List.map numbered (enumerate start cs) !! i
  = Some (numbered (start + i, c)).
Proof.
  induction cs as [|c' cs IH]; intros start i c; [discriminate|].
  destruct i as [|i]; cbn [enumerate List.map].
  - intros [= ->]. now rewrite Nat.add_0_r.
  - intros H. change (List.map numbered (enumerate (S start) cs) !! i
                      = Some (numbered (start + S i, c))).
    rewrite (IH (S start) i c H). now rewrite Nat.add_succ_r.
Qed.

(** C7.  The summary prints the contradictions in their order, numbered
    from 1: a bare string as it is, a record through its [description], and
    the placeholder "Unknown contradiction" for a record that has none. *)
Theorem contradictions_rendered (r : Results) (w : world) :
  (exists before after,
     printed (trace (snd (summarize r w)))
     = printed (trace w) ++ before
       ++ contradiction_lines (contradictions (legal_analysis r)) ++ after)
  /\ (forall i c,
        contradictions (legal_analysis r) !! i = Some c ->
        contradiction_lines (contradictions (legal_analysis r)) !! i
        = Some ("  " +:+ str_of_nat (S i) +:+ ". " +:+ rendering c))
  /\ (forall s, rendering (CStr s) = s)
  /\ (forall d description,
        dict_lookup "description" d = Some description ->
        rendering (CDict d) = description)
  /\ (forall d, dict_lookup "description" d = None ->
        rendering (CDict d) = "Unknown contradiction").
Proof.
  split; [|split; [|split; [|split]]].
  - rewrite summarize_printed.
    cut (exists before after,
           summary_lines r
           = before ++ contradiction_lines (contradictions (legal_analysis r))
             ++ after).
    { intros (b & a & ->). exists b, a. reflexivity. }
    unfold summary_lines. cbv zeta.
    generalize (contradictions (legal_analysis r)) as cs. intros cs.
    do 12 apply (infix_shift (A:=string)).
    destruct cs as [|c cs].
    + exists [], (block (truthy (legal_risks (legal_analysis r)))
        ([nl +:+ "LEGAL RISKS IDENTIFIED: " +:+
          str_of_nat (length (legal_risks (legal_analysis r)))] ++
         List.map (fun risk => "  - " +:+ rk_level risk +:+ " RISK: " +:+
                               rk_description risk)
           (legal_risks (legal_analysis r))) ++
        block (truthy (immediate_actions (recommendations r)))
          ([nl +:+ "IMMEDIATE ACTIONS REQUIRED:"] ++
           List.map (fun action => "  • " +:+ action)
             (immediate_actions (recommendations r))) ++
        block (truthy (warnings (recommendations r)))
          ([nl +:+ "WARNINGS:"] ++
           List.map (fun warning => "  ⚠️  " +:+ warning)
             (warnings (recommendations r))) ++
        block (truthy (legal_strategies (remedy r)))
          ([nl +:+ "RECOMMENDED LEGAL STRATEGIES:"] ++
           List.map (fun strategy => "  • " +:+ strategy)
             (legal_strategies (remedy r))) ++
        [nl +:+ str_repeat "=" 60]).
      reflexivity.
    + cbn [truthy block]. eexists [_], _.
      rewrite <- app_assoc. reflexivity.
  - intros i c H. unfold contradiction_lines.
    rewrite (enumerate_lookup _ 1 i c H). reflexivity.
  - reflexivity.
  - intros d description H. cbn. now rewrite H.
  - intros d H. cbn. now rewrite H.
Qed.

Lemma Forall_map_all {A} (P : string -> Prop) (f : A -> string) xs :
  (forall x, P (f x)) -> Forall P (List.map f xs).
Proof.
  intros H. induction xs; simpl; constructor; auto.
Qed.

Ltac no_header :=
  repeat match goal with
         | |- Forall _ (_ ++ _) => apply Forall_app; split
         | |- Forall _ (block ?c _) => destruct c; cbn [block]
         | |- Forall _ [] => constructor
         | |- Forall _ (_ :: _) => constructor; [reflexivity|]
         | |- Forall _ (contradiction_lines _) =>
             apply Forall_map_all; intros [? ?]; reflexivity
         | |- Forall _ (List.map _ _) =>
             apply Forall_map_all; intros; reflexivity
         end.

Lemma header_absent sec r :
  field_empty sec r ->
  Forall (fun line => str_startswith (header_of sec) line = false)
    (summary_lines r).
Proof.
  intros Hempty. unfold summary_lines. cbv zeta.
  destruct sec; cbn [field_empty] in Hempty; rewrite Hempty;
    cbn [truthy block header_of]; no_header.
Qed.

(** C8.  Whatever the Analysis Result, the summary returns normally; and
    when the field of a section (secondary jurisdictions, people,
    organizations, contradictions, risks, immediate actions, warnings,
    legal strategies) is empty, nothing that is printed starts with the
    header of that section: the section is left out, header included. *)
Theorem empty_section_omitted (r : Results) (w : world)
    (sec : report_section) :
  field_empty sec r ->
  exists lines,
    fst (summarize r w) = inr tt
    /\ printed (trace (snd (summarize r w))) = printed (trace w) ++ lines
    /\ Forall (fun line => str_startswith (header_of sec) line = false) lines.
Proof.
  intros Hempty. exists (summary_lines r).
  split; [now rewrite summarize_run|].
  split; [apply summarize_printed|].
  now apply header_absent.
Qed.

End Summary.

End PresentationSpec.

(* ===================================================================== *)
(** * Recommendation derivation is pure *)
(* ===================================================================== *)

Module StoreSpec.
Import Store.

(** The lists of a recommendation set, by the key that holds them. *)
Inductive field :=
| Immediate | ShortTerm | LongTerm | Warns | Opportunities.

Definition key_of (f : field) : string :=
  match f with
  | Immediate => "immediate_actions"
  | ShortTerm => "short_term_actions"
  | LongTerm => "long_term_actions"
  | Warns => "warnings"
  | Opportunities => "opportunities"
  end.

Definition slot_of (f : field) : nat :=
  match f with
  | Immediate => 0 | ShortTerm => 1 | LongTerm => 2 | Warns => 3
  | Opportunities => 4
  end.

Definition project (f : field) (R : Launcher.Recommendations) : list string :=
  match f with
  | Immediate => Launcher.immediate_actions R
  | ShortTerm => Launcher.short_term_actions R
  | LongTerm => Launcher.long_term_actions R
  | Warns => Launcher.warnings R
  | Opportunities => Launcher.opportunities R
  end.

(** [items] added at the end of one list, as the value-level model does
    it. *)
Definition add (f : field) (items : list string)
    (R : Launcher.Recommendations) : Launcher.Recommendations :=
  match f with
  | Immediate => Launcher.extend_immediate items R
  | ShortTerm => Launcher.extend_short_term items R
  | LongTerm => Launcher.extend_long_term items R
  | Warns =>
      {| Launcher.immediate_actions := Launcher.immediate_actions R;
         Launcher.short_term_actions := Launcher.short_term_actions R;
         Launcher.long_term_actions := Launcher.long_term_actions R;
         Launcher.warnings := Launcher.warnings R ++ items;
         Launcher.opportunities := Launcher.opportunities R |}
  | Opportunities =>
      {| Launcher.immediate_actions := Launcher.immediate_actions R;
         Launcher.short_term_actions := Launcher.short_term_actions R;
         Launcher.long_term_actions := Launcher.long_term_actions R;
         Launcher.warnings := Launcher.warnings R;
         Launcher.opportunities := Launcher.opportunities R ++ items |}
  end.

Definition no_recommendations : Launcher.Recommendations :=
  {| Launcher.immediate_actions := []; Launcher.short_term_actions := [];
     Launcher.long_term_actions := []; Launcher.warnings := [];
     Launcher.opportunities := [] |}.

(** The six objects of a recommendation set whose first list is at address
    [n]: the five lists, then the dictionary that refers to them. *)
Definition rec_dict (n : nat) : Launcher.dict val :=
  [ ("immediate_actions", VRef (n + 0));
    ("short_term_actions", VRef (n + 1));
    ("long_term_actions", VRef (n + 2));
    ("warnings", VRef (n + 3));
    ("opportunities", VRef (n + 4)) ].

Definition rec_block (n : nat) (R : Launcher.Recommendations) : list obj :=
  [ OList (strs (Launcher.immediate_actions R));
    OList (strs (Launcher.short_term_actions R));
    OList (strs (Launcher.long_term_actions R));
    OList (strs (Launcher.warnings R));
    OList (strs (Launcher.opportunities R));
    ODict (rec_dict n) ].

(** The objects of the [situation_actions] display, the first at address
    [n + e]. *)
Definition actions_block (n e : nat) : list obj :=
  [ OList (strs ["Document all details of the encounter"; "Preserve any evidence"]);
    OList (strs ["Review citation for errors"; "Research applicable traffic laws"]);
    OList (strs ["Consider challenging jurisdiction"; "File administrative remedy if applicable"]);
    ODict [("immediate", VRef (n + (e + 0))); ("short_term", VRef (n + (e + 1)));
           ("long_term", VRef (n + (e + 2)))];
    OList (strs ["Do not pay without challenging authority"; "Request fee schedule"]);
    OList (strs ["Challenge lawful authority for fee"; "Demand due process hearing"]);
    OList (strs ["File administrative appeal"; "Consider legal action if rights violated"]);
    ODict [("immediate", VRef (n + (e + 4))); ("short_term", VRef (n + (e + 5)));
           ("long_term", VRef (n + (e + 6)))];
    OList (strs ["Calculate response deadline"; "Preserve all rights"]);
    OList (strs ["File appropriate response"; "Challenge jurisdiction if applicable"]);
    OList (strs ["Prepare defense strategy"; "Consider counterclaims if applicable"]);
    ODict [("immediate", VRef (n + (e + 8))); ("short_term", VRef (n + (e + 9)));
           ("long_term", VRef (n + (e + 10)))];
    ODict [("traffic_stop", VRef (n + (e + 3))); ("fee_demand", VRef (n + (e + 7)));
           ("court_summons", VRef (n + (e + 11)))] ].

(** The rules on values, one by one. *)
Definition pure_urgency (s : Launcher.Situation) R :=
  if String.eqb (Launcher.level (Launcher.urgency s)) "high" then
    add Immediate
      [ "URGENT: Time-sensitive situation detected";
        "Review all deadlines and timelines immediately";
        "Consider emergency legal consultation" ] R
  else R.

Definition pure_risk (m : Launcher.LegalSummary) R :=
  if String.eqb (Launcher.risk_level m) "HIGH" then
    add Warns ["Situation contains high-risk legal elements"]
      (add Immediate ["HIGH RISK: Seek immediate legal counsel"] R)
  else R.

Definition pure_contradictions (r : Launcher.Remedy) R :=
  if Launcher.truthy_list (Launcher.remedy_contradictions r) then
    add ShortTerm ["Challenge contradictory provisions in documents"] R
  else R.

Definition pure_type (s : Launcher.Situation) R :=
  match Launcher.dict_lookup (Launcher.type s) Launcher.situation_actions with
  | Some actions =>
      add LongTerm (Launcher.dict_get "long_term" [] actions)
        (add ShortTerm (Launcher.dict_get "short_term" [] actions)
           (add Immediate (Launcher.dict_get "immediate" [] actions) R))
  | None => R
  end.

Definition pure_tone (m : Launcher.LegalSummary) R :=
  if String.eqb (Launcher.tone_summary m) "positive" then
    add Opportunities
      ["Document contains favorable language - preserve these terms"] R
  else R.

Definition pure_jurisdiction (s : Launcher.Situation) R :=
  if String.eqb (Launcher.primary (Launcher.jurisdiction s)) "commercial" then
    add Opportunities
      ["Commercial jurisdiction may provide UCC protections"] R
  else R.

Lemma rules_compose s m r :
  pure_jurisdiction s
    (pure_tone m
       (pure_type s
          (pure_contradictions r
             (pure_risk m (pure_urgency s no_recommendations)))))
  = Launcher._generate_recommendations s m r.
Proof. reflexivity. Qed.

(** A heap that grows keeps what could be read from it. *)
Lemma getitem_in_grow h e v k x :
  getitem_in h v k = inr x -> getitem_in (h ++ e) v k = inr x.
Proof.
  unfold getitem_in. destruct v as [| |l]; try discriminate.
  destruct (h !! l) as [o|] eqn:E; [|discriminate].
  now rewrite (lookup_app_l_Some _ _ _ _ E).
Qed.

Lemma get_in_grow h e v k d x :
  get_in h v k d = inr x -> get_in (h ++ e) v k d = inr x.
Proof.
  unfold get_in. destruct v as [| |l]; try discriminate.
  destruct (h !! l) as [o|] eqn:E; [|discriminate].
  now rewrite (lookup_app_l_Some _ _ _ _ E).
Qed.

Lemma truthy_in_grow h e v b :
  truthy_in h v = Some b -> truthy_in (h ++ e) v = Some b.
Proof.
  unfold truthy_in. destruct v as [| |l]; try easy.
  destruct (h !! l) as [o|] eqn:E; [|discriminate].
  now rewrite (lookup_app_l_Some _ _ _ _ E).
Qed.

Lemma read_path_grow h e path : forall v s,
  read_path h v path = Some s -> read_path (h ++ e) v path = Some s.
Proof.
  induction path as [|k path IH]; intros v s; simpl; [easy|].
  destruct (getitem_in h v k) as [err|x] eqn:E; [discriminate|].
  rewrite (getitem_in_grow _ e _ _ _ E). apply IH.
Qed.

Lemma read_path_step h v k path s :
  read_path h v (k :: path) = Some s ->
  exists x, getitem_in h v k = inr x /\ read_path h x path = Some s.
Proof.
  simpl. destruct (getitem_in h v k) as [err|x]; [discriminate|eauto].
Qed.

Lemma read_path_here h v s : read_path h v [] = Some s -> v = VStr s.
Proof. simpl. destruct v; congruence. Qed.

Section Run.

(** The heap and the I/O at the call. *)
Variable h0 : list obj.
Variable io0 : list Launcher.event.

(** The arguments of the call, and the records they stand for when
    [represented] holds. *)
Variables vs vm vr : val.
Variable s : Launcher.Situation.
Variable m : Launcher.LegalSummary.
Variable r : Launcher.Remedy.

Definition represented : Prop :=
  holds_situation h0 vs s /\ holds_summary h0 vm m /\ holds_remedy h0 vr r.

(** A state during the call: the heap of the caller, then the recommendation
    set built so far, then the other objects the call has made. *)
Definition during (R : Launcher.Recommendations) (extra : list obj) : state :=
  {| heap := h0 ++ rec_block (length h0) R ++ extra; io := io0 |}.

Definition recs : val := VRef (length h0 + 5).

Lemma heap_during R extra :
  heap (during R extra) = h0 ++ rec_block (length h0) R ++ extra.
Proof. reflexivity. Qed.

Lemma lookup_old R extra l o :
  h0 !! l = Some o -> heap (during R extra) !! l = Some o.
Proof. intros H. rewrite heap_during. now apply lookup_app_l_Some. Qed.

Lemma lookup_rec R extra k o :
  rec_block (length h0) R !! k = Some o ->
  heap (during R extra) !! (length h0 + k) = Some o.
Proof.
  intros H. rewrite heap_during.
  rewrite lookup_app_r by lia.
  replace (length h0 + k - length h0) with k by lia.
  now apply lookup_app_l_Some.
Qed.

Lemma lookup_extra R extra k :
  heap (during R extra) !! (length h0 + 6 + k) = extra !! k.
Proof.
  rewrite heap_during.
  rewrite lookup_app_r by lia.
  rewrite lookup_app_r by (cbn; lia).
  f_equal. cbn. lia.
Qed.

Lemma length_during R extra :
  length (heap (during R extra)) = length h0 + 6 + length extra.
Proof. rewrite heap_during, !length_app. cbn. lia. Qed.

(** Adding to a list of the recommendation set. *)
Lemma insert_rec R extra f items :
  <[length h0 + slot_of f := OList (strs (project f R) ++ strs items)]>
    (heap (during R extra))
  = heap (during (add f items R) extra).
Proof.
  rewrite !heap_during. rewrite insert_app_r.
  f_equal. rewrite insert_app_l by (destruct f; cbn; lia).
  f_equal. unfold strs, rec_block.
  destruct f; cbn; rewrite map_app; reflexivity.
Qed.

Lemma lookup_slot R extra f :
  heap (during R extra) !! (length h0 + slot_of f)
  = Some (OList (strs (project f R))).
Proof. apply lookup_rec. destruct f; reflexivity. Qed.

Lemma getitem_recs R extra f :
  getitem_in (heap (during R extra)) recs (key_of f)
  = inr (VRef (length h0 + slot_of f)).
Proof.
  unfold getitem_in, recs.
  rewrite (lookup_rec R extra 5 (ODict (rec_dict (length h0)))) by reflexivity.
  destruct f; reflexivity.
Qed.

Lemma alloc_run o R extra :
  alloc o (during R extra)
  = (inr (VRef (length h0 + 6 + length extra)), during R (extra ++ [o])).
Proof.
  unfold alloc. rewrite length_during. f_equal.
  unfold during. cbn [heap io]. f_equal. now rewrite <- !app_assoc.
Qed.

Lemma append_to_run f item R extra :
  append_to recs (key_of f) item (during R extra)
  = (inr tt, during (add f [item] R) extra).
Proof.
  unfold append_to, bind, getitem, read. rewrite getitem_recs.
  unfold list_append. rewrite lookup_slot.
  change [VStr item] with (strs [item]). rewrite insert_rec.
  reflexivity.
Qed.

Lemma extend_with_run f items R extra :
  extend_with recs (key_of f) items (during R extra)
  = (inr tt, during (add f items R) (extra ++ [OList (strs items)])).
Proof.
  unfold extend_with, bind, getitem, read. rewrite getitem_recs.
  unfold new_list. rewrite alloc_run.
  unfold list_extend. rewrite lookup_slot, lookup_extra.
  rewrite list_lookup_middle by reflexivity.
  rewrite insert_rec. reflexivity.
Qed.

Lemma extend_from_run f name R extra ia d isrc items :
  extra !! ia = Some (ODict d) ->
  Launcher.dict_lookup name d = Some (VRef (length h0 + 6 + isrc)) ->
  extra !! isrc = Some (OList (strs items)) ->
  extend_from recs (key_of f) (VRef (length h0 + 6 + ia)) name
    (during R extra)
  = (inr tt, during (add f items R) (extra ++ [OList []])).
Proof.
  intros Hd Hname Hsrc.
  unfold extend_from, bind, getitem, read. rewrite getitem_recs.
  unfold new_list. rewrite alloc_run.
  unfold get, read, get_in. rewrite lookup_extra.
  rewrite (lookup_app_l_Some _ _ _ _ Hd).
  unfold Launcher.dict_get. rewrite Hname.
  unfold list_extend. rewrite lookup_slot, lookup_extra.
  rewrite (lookup_app_l_Some _ _ _ _ Hsrc).
  rewrite insert_rec. reflexivity.
Qed.

Lemma new_recommendations_run :
  new_recommendations {| heap := h0; io := io0 |}
  = (inr recs, during no_recommendations []).
Proof.
  unfold new_recommendations, new_list, new_dict, bind, alloc.
  cbn [heap io]. rewrite !length_app. cbn [length].
  rewrite <- !app_assoc. cbn [app].
  unfold recs, during, rec_block, rec_dict, no_recommendations, strs.
  cbn [Launcher.immediate_actions Launcher.short_term_actions
       Launcher.long_term_actions Launcher.warnings Launcher.opportunities
       List.map app].
  rewrite ?app_nil_r.
  repeat (f_equal; try lia).
Qed.

Lemma new_situation_actions_run R extra :
  new_situation_actions (during R extra)
  = (inr (VRef (length h0 + 6 + (length extra + 12))),
     during R (extra ++ actions_block (length h0 + 6) (length extra))).
Proof.
  unfold new_situation_actions, new_actions, new_list, new_dict, bind.
  repeat (rewrite alloc_run; cbv beta iota).
  rewrite !length_app. cbn [length].
  rewrite <- !app_assoc. cbn [app]. unfold actions_block.
  repeat (f_equal; try lia).
Qed.

(** ** The rules, one by one *)

(** From a state of the call, [c] leads to a state of the call, whatever it
    returns; and when the arguments are [represented] it returns [a] and has
    changed the recommendation set as [f] does. *)
Definition refines_at {A} (R : Launcher.Recommendations) (extra : list obj)
    (c : St A) (a : A)
    (f : Launcher.Recommendations -> Launcher.Recommendations) : Prop :=
  exists R' extra',
    snd (c (during R extra)) = during R' extra'
    /\ (represented -> fst (c (during R extra)) = inr a /\ R' = f R).

Definition refines {A} (c : St A) (a : A)
    (f : Launcher.Recommendations -> Launcher.Recommendations) : Prop :=
  forall R extra, refines_at R extra c a f.

Lemma refines_at_run {A} R extra (c : St A) a f R' extra' :
  c (during R extra) = (inr a, during R' extra') ->
  (represented -> R' = f R) ->
  refines_at R extra c a f.
Proof.
  intros Hrun Hf. exists R', extra'. rewrite Hrun. split; [reflexivity|].
  intros Hok. split; [reflexivity|auto].
Qed.

Lemma refines_at_ret {A} R extra (a : A) f :
  (represented -> R = f R) -> refines_at R extra (ret a) a f.
Proof. intros H. now apply (refines_at_run R extra _ a f R extra). Qed.

Lemma refines_at_read {A B} (rd : list obj -> Launcher.exn + A)
    (k : A -> St B) R extra b f :
  (forall a, rd (heap (during R extra)) = inr a ->
             refines_at R extra (k a) b f) ->
  (represented -> exists a, rd (heap (during R extra)) = inr a) ->
  refines_at R extra (bind (read rd) k) b f.
Proof.
  intros Hk Hok. unfold refines_at, bind, read.
  destruct (rd (heap (during R extra))) as [e|a] eqn:E.
  - exists R, extra. split; [reflexivity|].
    intros H. destruct (Hok H) as [a Ha]. discriminate.
  - now apply Hk.
Qed.

(** A step whose run is known and that leaves the recommendation set as it
    is. *)
Lemma refines_at_step {A B} (c : St A) (k : A -> St B) R extra a extra' b f :
  c (during R extra) = (inr a, during R extra') ->
  refines_at R extra' (k a) b f ->
  refines_at R extra (bind c k) b f.
Proof. intros Hrun H. unfold refines_at, bind. now rewrite Hrun. Qed.

Lemma refines_seq {A} c1 (c2 : St A) a f1 f2 :
  refines c1 tt f1 -> refines c2 a f2 ->
  refines (bind c1 (fun _ => c2)) a (fun R => f2 (f1 R)).
Proof.
  intros H1 H2 R extra.
  destruct (H1 R extra) as (R1 & e1 & Hs1 & Hok1).
  unfold refines_at, bind.
  destruct (c1 (during R extra)) as [[err|[]] st1]; cbn [fst snd] in *;
    subst st1.
  - exists R1, e1. split; [reflexivity|].
    intros H. destruct (Hok1 H) as [? _]. discriminate.
  - destruct (H2 R1 e1) as (R2 & e2 & Hs2 & Hok2).
    exists R2, e2. split; [exact Hs2|].
    intros H. destruct (Hok1 H) as [_ ->]. now apply Hok2.
Qed.

Lemma refines_append f item :
  refines (append_to recs (key_of f) item) tt (add f [item]).
Proof.
  intros R extra. eapply refines_at_run; [apply append_to_run|reflexivity].
Qed.

Lemma refines_extend_with f items :
  refines (extend_with recs (key_of f) items) tt (add f items).
Proof.
  intros R extra. eapply refines_at_run; [apply extend_with_run|reflexivity].
Qed.

(** What the dictionaries of the caller hold is still there during the
    call. *)
Lemma read_path_during R extra v path str :
  read_path h0 v path = Some str ->
  read_path (heap (during R extra)) v path = Some str.
Proof. rewrite heap_during. apply read_path_grow. Qed.

(** [x = v[k]; ...] and [x = v[k1][k2]; ...] where a string is expected. *)
Lemma refines_at_getitem {B} v k str (body : val -> St B) R extra b f :
  (represented -> read_path h0 v [k] = Some str) ->
  (forall x, (represented -> x = VStr str) ->
             refines_at R extra (body x) b f) ->
  refines_at R extra (bind (getitem v k) body) b f.
Proof.
  intros Hstr Hbody. unfold getitem. apply refines_at_read.
  - intros x Hx. apply Hbody. intros Hok.
    apply Hstr, (read_path_during R extra) in Hok.
    apply read_path_step in Hok as (y & Hy & Hok).
    apply read_path_here in Hok. congruence.
  - intros Hok. apply Hstr, (read_path_during R extra) in Hok.
    apply read_path_step in Hok as (y & Hy & _). eauto.
Qed.

Lemma refines_at_getitem2 {B} v k1 k2 str (body : val -> St B) R extra b f :
  (represented -> read_path h0 v [k1; k2] = Some str) ->
  (forall x, (represented -> x = VStr str) ->
             refines_at R extra (body x) b f) ->
  refines_at R extra
    (bind (getitem v k1) (fun u => bind (getitem u k2) body)) b f.
Proof.
  intros Hstr Hbody. unfold getitem. apply refines_at_read.
  - intros u Hu. apply refines_at_read.
    + intros x Hx. apply Hbody. intros Hok.
      apply Hstr, (read_path_during R extra) in Hok.
      apply read_path_step in Hok as (u' & Hu' & Hok).
      apply read_path_step in Hok as (y & Hy & Hok).
      apply read_path_here in Hok. congruence.
    + intros Hok. apply Hstr, (read_path_during R extra) in Hok.
      apply read_path_step in Hok as (u' & Hu' & Hok).
      apply read_path_step in Hok as (y & Hy & _).
      exists y. congruence.
  - intros Hok. apply Hstr, (read_path_during R extra) in Hok.
    apply read_path_step in Hok as (u' & Hu' & _). eauto.
Qed.

(** [if x == 'literal': body]. *)
Lemma refines_at_when_str x literal str body f R extra :
  (represented -> x = VStr str) ->
  refines body tt f ->
  refines_at R extra (when_ (eq_str x literal) body) tt
    (fun R => if String.eqb str literal then f R else R).
Proof.
  intros Hx Hbody. destruct (eq_str x literal) eqn:E; cbn [when_].
  - destruct (Hbody R extra) as (R' & e' & Hs & Hok).
    exists R', e'. split; [exact Hs|].
    intros H. destruct (Hok H) as [Hv ->]. split; [exact Hv|].
    rewrite (Hx H) in E. cbn in E. now rewrite E.
  - apply refines_at_ret. intros H.
    rewrite (Hx H) in E. cbn in E. now rewrite E.
Qed.

Lemma urgency_rule_refines :
  refines (urgency_rule vs recs) tt (pure_urgency s).
Proof.
  intros R extra. unfold urgency_rule.
  apply (refines_at_getitem2 _ _ _ (Launcher.level (Launcher.urgency s))).
  { intros (H & _). apply H. }
  intros lv Hlv. unfold pure_urgency.
  apply (refines_at_when_str lv "high" _ _
           (add Immediate
              [ "URGENT: Time-sensitive situation detected";
                "Review all deadlines and timelines immediately";
                "Consider emergency legal consultation" ]));
    [exact Hlv|].
  apply (refines_extend_with Immediate).
Qed.

Lemma risk_rule_refines :
  refines (risk_rule vm recs) tt (pure_risk m).
Proof.
  intros R extra. unfold risk_rule.
  apply (refines_at_getitem _ _ (Launcher.risk_level m)).
  { intros (_ & H & _). apply H. }
  intros x Hx. unfold pure_risk.
  apply (refines_at_when_str x "HIGH" _ _
           (fun R =>
              add Warns ["Situation contains high-risk legal elements"]
                (add Immediate ["HIGH RISK: Seek immediate legal counsel"] R)));
    [exact Hx|].
  apply (refines_seq _ _ tt
           (add Immediate ["HIGH RISK: Seek immediate legal counsel"])
           (add Warns ["Situation contains high-risk legal elements"])).
  - apply (refines_append Immediate).
  - apply (refines_append Warns).
Qed.

Lemma tone_rule_refines :
  refines (tone_rule vm recs) tt (pure_tone m).
Proof.
  intros R extra. unfold tone_rule.
  apply (refines_at_getitem _ _ (Launcher.tone_summary m)).
  { intros (_ & H & _). apply H. }
  intros x Hx. unfold pure_tone.
  apply (refines_at_when_str x "positive" _ _
           (add Opportunities
              ["Document contains favorable language - preserve these terms"]));
    [exact Hx|].
  apply (refines_append Opportunities).
Qed.

Lemma jurisdiction_rule_refines :
  refines (jurisdiction_rule vs recs) tt (pure_jurisdiction s).
Proof.
  intros R extra. unfold jurisdiction_rule.
  apply (refines_at_getitem2 _ _ _
           (Launcher.primary (Launcher.jurisdiction s))).
  { intros (H & _). apply H. }
  intros x Hx. unfold pure_jurisdiction.
  apply (refines_at_when_str x "commercial" _ _
           (add Opportunities
              ["Commercial jurisdiction may provide UCC protections"]));
    [exact Hx|].
  apply (refines_append Opportunities).
Qed.

Lemma contradictions_rule_refines :
  refines (contradictions_rule vr recs) tt (pure_contradictions r).
Proof.
  intros R extra. unfold contradictions_rule, get, truthy.
  assert (Hread : represented -> exists c,
    get_in (heap (during R extra)) vr "contradictions" VNone = inr c
    /\ truthy_in (heap (during R extra)) c
       = Some (Launcher.truthy_list (Launcher.remedy_contradictions r))).
  { intros (_ & _ & c & Hc & Ht). exists c. rewrite heap_during.
    split; [now apply get_in_grow|now apply truthy_in_grow]. }
  apply refines_at_read.
  2:{ intros H. destruct (Hread H) as (c & Hc & _). eauto. }
  intros c Hc. apply refines_at_read.
  2:{ intros H. destruct (Hread H) as (c' & Hc' & Ht).
      rewrite Hc in Hc'. injection Hc' as <-. rewrite Ht. eauto. }
  intros cond Hcond.
  assert (Hb : represented ->
    cond = Launcher.truthy_list (Launcher.remedy_contradictions r)).
  { intros H. destruct (Hread H) as (c' & Hc' & Ht).
    rewrite Hc in Hc'. injection Hc' as <-. rewrite Ht in Hcond.
    congruence. }
  unfold pure_contradictions. destruct cond; cbn [when_].
  - destruct (refines_append ShortTerm
                "Challenge contradictory provisions in documents" R extra)
      as (R' & e' & Hs & Hok).
    exists R', e'. split; [exact Hs|].
    intros H. destruct (Hok H) as [Hv ->]. split; [exact Hv|].
    now rewrite <- (Hb H).
  - apply refines_at_ret. intros H. now rewrite <- (Hb H).
Qed.

(** The [situation_actions] display is among the objects the call made,
    its first object at offset [e]. *)
Definition has_actions (extra : list obj) (e : nat) : Prop :=
  forall j o,
    actions_block (length h0 + 6) e !! j = Some o ->
    extra !! (e + j) = Some o.

Lemma has_actions_new extra :
  has_actions (extra ++ actions_block (length h0 + 6) (length extra))
    (length extra).
Proof.
  intros j o H. rewrite lookup_app_r by lia.
  now replace (length extra + j - length extra) with j by lia.
Qed.

Lemma has_actions_grow extra e more :
  has_actions extra e -> has_actions (extra ++ more) e.
Proof. intros H j o Hj. apply lookup_app_l_Some. now apply H. Qed.

Lemma extend_from_actions f name R extra e ja d js items :
  has_actions extra e ->
  actions_block (length h0 + 6) e !! ja = Some (ODict d) ->
  Launcher.dict_lookup name d = Some (VRef (length h0 + 6 + (e + js))) ->
  actions_block (length h0 + 6) e !! js = Some (OList (strs items)) ->
  extend_from recs (key_of f) (VRef (length h0 + 6 + (e + ja))) name
    (during R extra)
  = (inr tt, during (add f items R) (extra ++ [OList []])).
Proof.
  intros Hact Hd Hname Hsrc.
  apply (extend_from_run f name R extra (e + ja) d (e + js) items); auto.
Qed.

(** The three [extend] calls for the entry at offset [ja] of the display. *)
Lemma extend_all_run R extra e ja d i1 i2 i3 l1 l2 l3 :
  has_actions extra e ->
  actions_block (length h0 + 6) e !! ja = Some (ODict d) ->
  Launcher.dict_lookup "immediate" d = Some (VRef (length h0 + 6 + (e + i1))) ->
  Launcher.dict_lookup "short_term" d = Some (VRef (length h0 + 6 + (e + i2))) ->
  Launcher.dict_lookup "long_term" d = Some (VRef (length h0 + 6 + (e + i3))) ->
  actions_block (length h0 + 6) e !! i1 = Some (OList (strs l1)) ->
  actions_block (length h0 + 6) e !! i2 = Some (OList (strs l2)) ->
  actions_block (length h0 + 6) e !! i3 = Some (OList (strs l3)) ->
  let actions := VRef (length h0 + 6 + (e + ja)) in
  bind (extend_from recs "immediate_actions" actions "immediate") (fun _ =>
  bind (extend_from recs "short_term_actions" actions "short_term") (fun _ =>
  extend_from recs "long_term_actions" actions "long_term"))
    (during R extra)
  = (inr tt,
     during (add LongTerm l3 (add ShortTerm l2 (add Immediate l1 R)))
       (((extra ++ [OList []]) ++ [OList []]) ++ [OList []])).
Proof.
  intros Hact Hd H1 H2 H3 Hl1 Hl2 Hl3 actions. unfold bind, actions.
  change "immediate_actions" with (key_of Immediate).
  change "short_term_actions" with (key_of ShortTerm).
  change "long_term_actions" with (key_of LongTerm).
  rewrite (extend_from_actions Immediate "immediate" R extra e ja d i1 l1)
    by assumption.
  rewrite (extend_from_actions ShortTerm "short_term" _ _ e ja d i2 l2)
    by (try apply has_actions_grow; assumption).
  rewrite (extend_from_actions LongTerm "long_term" _ _ e ja d i3 l3)
    by (try (do 2 apply has_actions_grow); assumption).
  reflexivity.
Qed.

Lemma situation_type_rule_refines :
  refines (situation_type_rule vs recs) tt (pure_type s).
Proof.
  intros R extra. unfold situation_type_rule.
  eapply refines_at_step; [apply new_situation_actions_run|].
  pose proof (has_actions_new extra) as Hact.
  set (extra2 := extra ++ actions_block (length h0 + 6) (length extra)) in *.
  assert (Hsa : heap (during R extra2)
                !! (length h0 + 6 + (length extra + 12))
    = Some (ODict [("traffic_stop", VRef (length h0 + 6 + (length extra + 3)));
                   ("fee_demand", VRef (length h0 + 6 + (length extra + 7)));
                   ("court_summons", VRef (length h0 + 6 + (length extra + 11)))])).
  { rewrite lookup_extra. now apply Hact. }
  unfold getitem at 1. apply refines_at_read.
  2:{ intros (H & _). destruct H as (_ & H & _).
      apply (read_path_during R extra2) in H.
      apply read_path_step in H as (y & Hy & _). eauto. }
  intros ty Hty.
  assert (Hrep : represented -> ty = VStr (Launcher.type s)).
  { intros (H & _). destruct H as (_ & H & _).
    apply (read_path_during R extra2) in H.
    apply read_path_step in H as (y & Hy & H).
    apply read_path_here in H. congruence. }
  unfold contains. apply refines_at_read.
  2:{ intros H. rewrite (Hrep H). unfold contains_in. rewrite Hsa. eauto. }
  intros known Hknown. unfold contains_in in Hknown. rewrite Hsa in Hknown.
  destruct ty as [|t|l]; [| |discriminate].
  { injection Hknown as <-. cbn [when_]. apply refines_at_ret.
    intros H. discriminate (Hrep H). }
  injection Hknown as <-.
  assert (Ht : represented -> Launcher.type s = t).
  { intros H. specialize (Hrep H). congruence. }
  unfold pure_type.
  assert (Hsecond : forall (k : val -> St unit),
    bind (getitem vs "type") k (during R extra2)
    = k (VStr t) (during R extra2)).
  { intros k. unfold bind, getitem, read. now rewrite Hty. }
  assert (Hentry : forall key ja (k : val -> St unit),
    Launcher.dict_lookup key
      [("traffic_stop", VRef (length h0 + 6 + (length extra + 3)));
       ("fee_demand", VRef (length h0 + 6 + (length extra + 7)));
       ("court_summons", VRef (length h0 + 6 + (length extra + 11)))]
    = Some (VRef (length h0 + 6 + (length extra + ja))) ->
    bind (getitem_val (VRef (length h0 + 6 + (length extra + 12))) (VStr key))
      k (during R extra2)
    = k (VRef (length h0 + 6 + (length extra + ja))) (during R extra2)).
  { intros key ja k Hkey.
    unfold bind, getitem_val, read, getitem_val_in, getitem_in.
    now rewrite Hsa, Hkey. }
  destruct (String.eqb_spec t "traffic_stop") as [->|N1];
    [|destruct (String.eqb_spec t "fee_demand") as [->|N2];
      [|destruct (String.eqb_spec t "court_summons") as [->|N3]]].
  - change (when_ _ ?body) with body.
    eapply refines_at_run.
    + rewrite Hsecond, (Hentry "traffic_stop" 3) by reflexivity.
      eapply (extend_all_run R extra2 (length extra) 3 _ 0 1 2);
        try exact Hact; reflexivity.
    + intros H. rewrite (Ht H). reflexivity.
  - change (when_ _ ?body) with body.
    eapply refines_at_run.
    + rewrite Hsecond, (Hentry "fee_demand" 7) by reflexivity.
      eapply (extend_all_run R extra2 (length extra) 7 _ 4 5 6);
        try exact Hact; reflexivity.
    + intros H. rewrite (Ht H). reflexivity.
  - change (when_ _ ?body) with body.
    eapply refines_at_run.
    + rewrite Hsecond, (Hentry "court_summons" 11) by reflexivity.
      eapply (extend_all_run R extra2 (length extra) 11 _ 8 9 10);
        try exact Hact; reflexivity.
    + intros H. rewrite (Ht H). reflexivity.
  - apply String.eqb_neq in N1, N2, N3.
    unfold Launcher.dict_mem, Launcher.dict_lookup. rewrite N1, N2, N3.
    cbn [when_]. apply refines_at_ret.
    intros H. rewrite (Ht H).
    unfold Launcher.situation_actions, Launcher.dict_lookup.
    now rewrite N1, N2, N3.
Qed.

(** ** The whole method *)

Lemma rules_refine :
  refines
    (bind (urgency_rule vs recs) (fun _ =>
     bind (risk_rule vm recs) (fun _ =>
     bind (contradictions_rule vr recs) (fun _ =>
     bind (situation_type_rule vs recs) (fun _ =>
     bind (tone_rule vm recs) (fun _ =>
     bind (jurisdiction_rule vs recs) (fun _ =>
     ret recs)))))))
    recs
    (fun R =>
       pure_jurisdiction s
         (pure_tone m
            (pure_type s (pure_contradictions r (pure_risk m (pure_urgency s R)))))).
Proof.
  apply (refines_seq _ _ _ (pure_urgency s)
           (fun R => pure_jurisdiction s (pure_tone m (pure_type s
              (pure_contradictions r (pure_risk m R)))))).
  { apply urgency_rule_refines. }
  apply (refines_seq _ _ _ (pure_risk m)
           (fun R => pure_jurisdiction s (pure_tone m (pure_type s
              (pure_contradictions r R))))).
  { apply risk_rule_refines. }
  apply (refines_seq _ _ _ (pure_contradictions r)
           (fun R => pure_jurisdiction s (pure_tone m (pure_type s R)))).
  { apply contradictions_rule_refines. }
  apply (refines_seq _ _ _ (pure_type s)
           (fun R => pure_jurisdiction s (pure_tone m R))).
  { apply situation_type_rule_refines. }
  apply (refines_seq _ _ _ (pure_tone m) (fun R => pure_jurisdiction s R)).
  { apply tone_rule_refines. }
  apply (refines_seq _ _ _ (pure_jurisdiction s) (fun R => R)).
  { apply jurisdiction_rule_refines. }
  intros R extra. now apply refines_at_ret.
Qed.

(** The call ends in a state of the call; on represented arguments it
    returns the reference to a recommendation set that is the one of the
    value-level method. *)
Lemma generate_recommendations_run :
  exists R extra,
    snd (_generate_recommendations vs vm vr {| heap := h0; io := io0 |})
    = during R extra
    /\ (represented ->
        fst (_generate_recommendations vs vm vr {| heap := h0; io := io0 |})
        = inr recs
        /\ R = Launcher._generate_recommendations s m r).
Proof.
  destruct (rules_refine no_recommendations []) as (R & extra & Hs & Hok).
  exists R, extra.
  replace (_generate_recommendations vs vm vr {| heap := h0; io := io0 |})
    with (bind (urgency_rule vs recs) (fun _ =>
          bind (risk_rule vm recs) (fun _ =>
          bind (contradictions_rule vr recs) (fun _ =>
          bind (situation_type_rule vs recs) (fun _ =>
          bind (tone_rule vm recs) (fun _ =>
          bind (jurisdiction_rule vs recs) (fun _ =>
          ret recs))))))
          (during no_recommendations []))
    by (symmetry; unfold _generate_recommendations; unfold bind at 1;
        now rewrite new_recommendations_run).
  split; [exact Hs|].
  intros H. destruct (Hok H) as [Hv ->]. split; [exact Hv|].
  apply rules_compose.
Qed.

Lemma mapM_strs items :
  mapM (fun x => match x with VStr str => Some str | _ => None end)
    (strs items)
  = Some items.
Proof.
  induction items as [|x items IH]; [reflexivity|].
  cbn. unfold strs in IH. now rewrite IH.
Qed.

Lemma read_field_during R extra f :
  read_field (heap (during R extra)) recs (key_of f) = Some (project f R).
Proof.
  unfold read_field. rewrite getitem_recs.
  unfold read_strings. rewrite lookup_slot. apply mapM_strs.
Qed.

Lemma read_recommendations_during R extra :
  read_recommendations (heap (during R extra)) recs = Some R.
Proof.
  unfold read_recommendations.
  change "immediate_actions" with (key_of Immediate).
  change "short_term_actions" with (key_of ShortTerm).
  change "long_term_actions" with (key_of LongTerm).
  change "warnings" with (key_of Warns).
  change "opportunities" with (key_of Opportunities).
  rewrite (read_field_during R extra Immediate),
    (read_field_during R extra ShortTerm),
    (read_field_during R extra LongTerm),
    (read_field_during R extra Warns),
    (read_field_during R extra Opportunities).
  destruct R. reflexivity.
Qed.

End Run.

(** C3.  Recommendation derivation is pure.  Run in any state, on any
    arguments, it does no I/O and leaves every object that was in the heap
    as it was, so the situation, summary and remedy dictionaries and
    whatever they refer to are not changed.  And what it returns is a
    function of what the three dictionaries hold: when they hold the records
    [s], [m] and [r], the call returns a reference to a fresh recommendation
    set whose five lists are, element for element and in order, those of
    [Launcher._generate_recommendations s m r]; two calls on dictionaries
    that hold the same records therefore return the same lists. *)
Theorem generate_recommendations_pure (st : state) (vs vm vr : val) :
  let out := _generate_recommendations vs vm vr st in
  io (snd out) = io st
  /\ (forall l o, heap st !! l = Some o -> heap (snd out) !! l = Some o)
  /\ (forall s m r,
        holds_situation (heap st) vs s ->
        holds_summary (heap st) vm m ->
        holds_remedy (heap st) vr r ->
        exists v,
          fst out = inr v
          /\ read_recommendations (heap (snd out)) v
             = Some (Launcher._generate_recommendations s m r))
  /\ (forall st' vs' vm' vr' s m r,
        holds_situation (heap st) vs s ->
        holds_summary (heap st) vm m ->
        holds_remedy (heap st) vr r ->
        holds_situation (heap st') vs' s ->
        holds_summary (heap st') vm' m ->
        holds_remedy (heap st') vr' r ->
        let out' := _generate_recommendations vs' vm' vr' st' in
        exists v v' R,
          fst out = inr v /\ fst out' = inr v'
          /\ read_recommendations (heap (snd out)) v = Some R
          /\ read_recommendations (heap (snd out')) v' = Some R).
Proof.
  assert (Hfun : forall st vs vm vr s m r,
    holds_situation (heap st) vs s ->
    holds_summary (heap st) vm m ->
    holds_remedy (heap st) vr r ->
    exists v,
      fst (_generate_recommendations vs vm vr st) = inr v
      /\ read_recommendations
           (heap (snd (_generate_recommendations vs vm vr st))) v
         = Some (Launcher._generate_recommendations s m r)).
  { clear. intros [h0 io0] vs vm vr s m r Hs Hm Hr. cbn [heap] in *.
    destruct (generate_recommendations_run h0 io0 vs vm vr s m r)
      as (R & extra & Hst & Hok).
    destruct Hok as [Hv ->]; [split; [exact Hs|split; [exact Hm|exact Hr]]|].
    exists (recs h0). split; [exact Hv|].
    rewrite Hst. apply read_recommendations_during. }
  cbv zeta. split; [|split; [|split]].
  - destruct st as [h0 io0].
    destruct (generate_recommendations_run h0 io0 vs vm vr
                (Launcher.Build_Situation "" (Launcher.Build_Urgency "")
                   (Launcher.Build_Jurisdiction "" [])
                   (Launcher.Build_Entities [] []) Launcher.JNull)
                (Launcher.Build_LegalSummary "" "")
                (Launcher.Build_Remedy [] None))
      as (R & extra & -> & _).
    reflexivity.
  - destruct st as [h0 io0]. intros l o Hl.
    destruct (generate_recommendations_run h0 io0 vs vm vr
                (Launcher.Build_Situation "" (Launcher.Build_Urgency "")
                   (Launcher.Build_Jurisdiction "" [])
                   (Launcher.Build_Entities [] []) Launcher.JNull)
                (Launcher.Build_LegalSummary "" "")
                (Launcher.Build_Remedy [] None))
      as (R & extra & -> & _).
    now apply lookup_old.
  - intros s m r Hs Hm Hr. now apply Hfun.
  - intros st' vs' vm' vr' s m r Hs Hm Hr Hs' Hm' Hr'.
    destruct (Hfun st vs vm vr s m r Hs Hm Hr) as (v & Hv & Hread).
    destruct (Hfun st' vs' vm' vr' s m r Hs' Hm' Hr') as (v' & Hv' & Hread').
    exists v, v', (Launcher._generate_recommendations s m r). auto.
Qed.

End StoreSpec.

(* ===================================================================== *)
(** * More on recommendation derivation *)
(* ===================================================================== *)

Module RecommendationFacts.
Import Launcher.

(** The keys of the situation table. *)
Definition known_types : list string :=
  ["traffic_stop"; "fee_demand"; "court_summons"].

Lemma dict_lookup_unknown ty :
  ~ In ty known_types -> dict_lookup ty situation_actions = None.
Proof.
  intros H. unfold situation_actions, dict_lookup.
  destruct (String.eqb_spec ty "traffic_stop") as [->|_];
    [exfalso; apply H; cbn; tauto|].
  destruct (String.eqb_spec ty "fee_demand") as [->|_];
    [exfalso; apply H; cbn; tauto|].
  destruct (String.eqb_spec ty "court_summons") as [->|_];
    [exfalso; apply H; cbn; tauto|].
  reflexivity.
Qed.

(** The recommendation set looks at six things only: whether the urgency
    level is "high", whether the risk level is "HIGH", whether the remedy
    carries contradictions, the situation type, whether the tone is
    "positive" and whether the primary jurisdiction is "commercial".  So
    "low" and "medium" urgency give the same set, a remedy without
    [contradictions] gives the same set as one with an empty list, and
    entities, secondary jurisdictions, legal framework and legal strategies
    play no part. *)
Theorem recommendations_depend_on_six_tests (s1 s2 : Situation)
    (m1 m2 : LegalSummary) (r1 r2 : Remedy) :
  (level (urgency s1) = "high" <-> level (urgency s2) = "high") ->
  (risk_level m1 = "HIGH" <-> risk_level m2 = "HIGH") ->
  truthy_list (remedy_contradictions r1)
  = truthy_list (remedy_contradictions r2) ->
  type s1 = type s2 ->
  (tone_summary m1 = "positive" <-> tone_summary m2 = "positive") ->
  (primary (jurisdiction s1) = "commercial"
   <-> primary (jurisdiction s2) = "commercial") ->
  _generate_recommendations s1 m1 r1 = _generate_recommendations s2 m2 r2.
Proof.
  intros Hu Hr Hc Ht Htone Hj.
  assert (Heqb : forall a b lit, (a = lit <-> b = lit) ->
                                 String.eqb a lit = String.eqb b lit).
  { intros a b lit H.
    destruct (String.eqb_spec a lit) as [Ea|Ea],
             (String.eqb_spec b lit) as [Eb|Eb]; try reflexivity;
      tauto. }
  unfold _generate_recommendations.
  rewrite (Heqb _ _ _ Hu), (Heqb _ _ _ Hr), Hc, Ht, (Heqb _ _ _ Htone),
    (Heqb _ _ _ Hj).
  reflexivity.
Qed.

(** A situation type that is no key of the table adds nothing: no long-term
    action at all, and only the urgency, risk and contradiction rules fill
    the other two action lists. *)
Theorem unknown_type_adds_nothing (s : Situation) (m : LegalSummary)
    (r : Remedy) :
  ~ In (type s) known_types ->
  immediate_actions (_generate_recommendations s m r)
  = RecommendationSpec.urgency_part s ++ RecommendationSpec.risk_part m
  /\ short_term_actions (_generate_recommendations s m r)
     = (if truthy_list (remedy_contradictions r)
        then ["Challenge contradictory provisions in documents"] else [])
  /\ long_term_actions (_generate_recommendations s m r) = [].
Proof.
  intros H.
  rewrite RecommendationSpec.immediate_actions_rules,
    RecommendationSpec.short_term_actions_rules,
    RecommendationSpec.long_term_actions_rules.
  unfold RecommendationSpec.table. rewrite (dict_lookup_unknown _ H).
  rewrite !app_nil_r. auto.
Qed.

(** The three lists of the table entry of a type: one of the three
    entries, or nothing. *)
Lemma table_entry_cases ty :
  let entry := (RecommendationSpec.table ty "immediate",
                RecommendationSpec.table ty "short_term",
                RecommendationSpec.table ty "long_term") in
  entry = ([], [], [])
  \/ entry = (["Document all details of the encounter"; "Preserve any evidence"],
              ["Review citation for errors"; "Research applicable traffic laws"],
              ["Consider challenging jurisdiction"; "File administrative remedy if applicable"])
  \/ entry = (["Do not pay without challenging authority"; "Request fee schedule"],
              ["Challenge lawful authority for fee"; "Demand due process hearing"],
              ["File administrative appeal"; "Consider legal action if rights violated"])
  \/ entry = (["Calculate response deadline"; "Preserve all rights"],
              ["File appropriate response"; "Challenge jurisdiction if applicable"],
              ["Prepare defense strategy"; "Consider counterclaims if applicable"]).
Proof.
  cbv zeta. unfold RecommendationSpec.table, situation_actions, dict_lookup.
  destruct (String.eqb ty "traffic_stop"); [right; left; reflexivity|].
  destruct (String.eqb ty "fee_demand"); [right; right; left; reflexivity|].
  destruct (String.eqb ty "court_summons"); [right; right; right; reflexivity|].
  left. reflexivity.
Qed.

(** The sizes of the five lists are bounded, whatever the inputs: at most 6
    immediate, 3 short-term and 2 long-term actions, 1 warning and 2
    opportunities. *)
Theorem recommendation_sizes (s : Situation) (m : LegalSummary) (r : Remedy) :
  let recs := _generate_recommendations s m r in
  length (immediate_actions recs) <= 6
  /\ length (short_term_actions recs) <= 3
  /\ length (long_term_actions recs) <= 2
  /\ length (warnings recs) <= 1
  /\ length (opportunities recs) <= 2.
Proof.
  cbv zeta.
  rewrite RecommendationSpec.immediate_actions_rules,
    RecommendationSpec.short_term_actions_rules,
    RecommendationSpec.long_term_actions_rules,
    RecommendationSpec.warnings_rules,
    RecommendationSpec.opportunities_rules.
  pose proof (table_entry_cases (type s)) as Hentry. cbv zeta in Hentry.
  assert (Htable :
    length (RecommendationSpec.table (type s) "immediate") <= 2
    /\ length (RecommendationSpec.table (type s) "short_term") <= 2
    /\ length (RecommendationSpec.table (type s) "long_term") <= 2).
  { destruct Hentry as [E|[E|[E|E]]]; injection E as -> -> ->; cbn; lia. }
  destruct Htable as (? & ? & ?).
  unfold RecommendationSpec.urgency_part, RecommendationSpec.risk_part.
  rewrite !length_app.
  destruct (String.eqb (level (urgency s)) "high"),
           (String.eqb (risk_level m) "HIGH"),
           (truthy_list (remedy_contradictions r)),
           (String.eqb (tone_summary m) "positive"),
           (String.eqb (primary (jurisdiction s)) "commercial");
    cbn [length RecommendationSpec.urgency_triggered
         RecommendationSpec.risk_triggered]; repeat split; lia.
Qed.

(** A check that no string occurs twice. *)
Fixpoint distinct (l : list string) : bool :=
  match l with
  | [] => true
  | x :: rest => negb (existsb (String.eqb x) rest) && distinct rest
  end.

Lemma distinct_sound l : distinct l = true -> List.NoDup l.
Proof.
  induction l as [|x l IH]; simpl; [constructor|].
  intros H. apply andb_prop in H as [Hx Hl].
  constructor; [|auto].
  intros Hin. apply negb_true_iff in Hx.
  assert (existsb (String.eqb x) l = true); [|congruence].
  apply existsb_exists. exists x. split; [exact Hin|apply String.eqb_refl].
Qed.

(** The same string never occurs twice in a list of the result: the rules
    contribute pairwise different strings. *)
Theorem recommendations_without_repeats (s : Situation) (m : LegalSummary)
    (r : Remedy) :
  let recs := _generate_recommendations s m r in
  List.NoDup (immediate_actions recs)
  /\ List.NoDup (short_term_actions recs)
  /\ List.NoDup (long_term_actions recs)
  /\ List.NoDup (warnings recs)
  /\ List.NoDup (opportunities recs).
Proof.
  cbv zeta.
  rewrite RecommendationSpec.immediate_actions_rules,
    RecommendationSpec.short_term_actions_rules,
    RecommendationSpec.long_term_actions_rules,
    RecommendationSpec.warnings_rules,
    RecommendationSpec.opportunities_rules.
  unfold RecommendationSpec.urgency_part, RecommendationSpec.risk_part.
  pose proof distinct_sound as Hdec.
  pose proof (table_entry_cases (type s)) as Hentry. cbv zeta in Hentry.
  assert (Hi : List.NoDup
    ((if String.eqb (level (urgency s)) "high"
      then RecommendationSpec.urgency_triggered else [])
     ++ (if String.eqb (risk_level m) "HIGH"
         then RecommendationSpec.risk_triggered else [])
     ++ RecommendationSpec.table (type s) "immediate")).
  { destruct Hentry as [E|[E|[E|E]]]; injection E as -> _ _;
      destruct (String.eqb (level (urgency s)) "high"),
               (String.eqb (risk_level m) "HIGH");
      apply Hdec; vm_compute; reflexivity. }
  assert (Hs : List.NoDup
    ((if truthy_list (remedy_contradictions r)
      then ["Challenge contradictory provisions in documents"] else [])
     ++ RecommendationSpec.table (type s) "short_term")).
  { destruct Hentry as [E|[E|[E|E]]]; injection E as _ -> _;
      destruct (truthy_list (remedy_contradictions r));
      apply Hdec; vm_compute; reflexivity. }
  assert (Hl : List.NoDup (RecommendationSpec.table (type s) "long_term")).
  { destruct Hentry as [E|[E|[E|E]]]; injection E as _ _ ->;
      apply Hdec; vm_compute; reflexivity. }
  split; [exact Hi|]. split; [exact Hs|]. split; [exact Hl|].
  split.
  - destruct (String.eqb (risk_level m) "HIGH"); apply Hdec; vm_compute;
      reflexivity.
  - destruct (String.eqb (tone_summary m) "positive"),
             (String.eqb (primary (jurisdiction s)) "commercial");
      apply Hdec; vm_compute; reflexivity.
Qed.

End RecommendationFacts.

(* ===================================================================== *)
(** * More on the store-level method *)
(* ===================================================================== *)

Module StoreFacts.
Import Store.


(** On dictionaries that hold what the method reads, the result is made of
    new objects only: the dictionary returned and its five lists lie
    beyond every address of the caller's heap, at six consecutive addresses,
    so the result shares nothing with the arguments or with an earlier
    result. *)
Theorem result_is_fresh (st : state) (vs vm vr : val)
    (s : Launcher.Situation) (m : Launcher.LegalSummary)
    (r : Launcher.Remedy) :
  holds_situation (heap st) vs s ->
  holds_summary (heap st) vm m ->
  holds_remedy (heap st) vr r ->
  let out := _generate_recommendations vs vm vr st in
  let n := length (heap st) in
  fst out = inr (VRef (n + 5))
  /\ heap (snd out) !! (n + 5)
     = Some (ODict [ ("immediate_actions", VRef (n + 0));
                     ("short_term_actions", VRef (n + 1));
                     ("long_term_actions", VRef (n + 2));
                     ("warnings", VRef (n + 3));
                     ("opportunities", VRef (n + 4)) ])
  /\ (forall k, k < 5 ->
        exists items, heap (snd out) !! (n + k) = Some (OList items)).
Proof.
  destruct st as [h0 io0]. cbn [heap]. intros Hs Hm Hr. cbv zeta.
  destruct (StoreSpec.generate_recommendations_run h0 io0 vs vm vr s m r)
    as (R & extra & Hst & Hok).
  destruct Hok as [Hv _]; [split; [exact Hs|split; [exact Hm|exact Hr]]|].
  rewrite Hst, Hv. split; [reflexivity|]. split.
  - now apply StoreSpec.lookup_rec.
  - intros k Hk.
    destruct k as [|[|[|[|[|k]]]]]; [| | | | |lia];
      eexists; apply StoreSpec.lookup_rec; reflexivity.
Qed.

End StoreFacts.

(* ===================================================================== *)
(** * More on the summary report *)
(* ===================================================================== *)

Module PresentationFacts.
Import Launcher PresentationSpec.

(** The number of printed strings that start with the header of a section. *)
Definition header_count (sec : report_section) (lines : list string) : nat :=
  length (List.filter (str_startswith (header_of sec)) lines).

(** The strings a section adds under its header: one per item, none for the
    three one-line sections. *)
Definition items_of (sec : report_section) (r : Results) : nat :=
  match sec with
  | SecondaryJurisdictions | PeopleInvolved | Organizations => 0
  | ContradictionsDetected => length (contradictions (legal_analysis r))
  | LegalRisks => length (legal_risks (legal_analysis r))
  | ImmediateActions => length (immediate_actions (recommendations r))
  | Warnings => length (warnings (recommendations r))
  | LegalStrategies => length (legal_strategies (remedy r))
  end.

Definition all_sections : list report_section :=
  [ SecondaryJurisdictions; PeopleInvolved; Organizations;
    ContradictionsDetected; LegalRisks; ImmediateActions; Warnings;
    LegalStrategies ].

Definition field_emptyb (sec : report_section) (r : Results) : bool :=
  match sec with
  | SecondaryJurisdictions =>
      negb (truthy (secondary (jurisdiction (situation_analysis r))))
  | PeopleInvolved => negb (truthy (people (entities (situation_analysis r))))
  | Organizations =>
      negb (truthy (organizations (entities (situation_analysis r))))
  | ContradictionsDetected => negb (truthy (contradictions (legal_analysis r)))
  | LegalRisks => negb (truthy (legal_risks (legal_analysis r)))
  | ImmediateActions => negb (truthy (immediate_actions (recommendations r)))
  | Warnings => negb (truthy (warnings (recommendations r)))
  | LegalStrategies => negb (truthy (legal_strategies (remedy r)))
  end.

Lemma field_emptyb_spec sec r :
  field_emptyb sec r = true <-> field_empty sec r.
Proof.
  destruct sec; cbn [field_emptyb field_empty];
    match goal with |- negb (truthy ?l) = true <-> _ => destruct l end;
    cbn; split; intros H; try reflexivity; discriminate.
Qed.

Section Summary.

Context {FS : Type} {DateTime : Type}.
Variable upper : string -> string.

Local Abbreviation world := (@World FS DateTime).
Local Abbreviation summarize :=
  (print_analysis_summary (FS:=FS) (DateTime:=DateTime) upper).

(** The summary only prints: it leaves the file system and the clock alone,
    and every event it adds is a [print]; no provenance entry, no
    collaborator call. *)
Theorem summary_only_prints (r : Results) (w : world) :
  fs (snd (summarize r w)) = fs w
  /\ now (snd (summarize r w)) = now w
  /\ exists lines,
       trace (snd (summarize r w)) = trace w ++ List.map EvPrint lines.
Proof.
  rewrite summarize_run. cbn [snd]. unfold print_all. cbn [fs now trace].
  eauto.
Qed.

(** Every report opens with the same nine strings, banner and basic
    information, and closes with the rule of sixty [=]: at least ten strings
    are printed, whatever the result holds. *)
Theorem summary_frame (r : Results) (w : world) :
  exists sections,
    printed (trace (snd (summarize r w)))
    = printed (trace w)
      ++ [ nl +:+ str_repeat "=" 60;
           "VEROBRIX LEGAL ANALYSIS SUMMARY";
           str_repeat "=" 60;
           "Session ID: " +:+ session_id r;
           "Analysis Time: " +:+ timestamp r;
           "Situation Type: " +:+ upper (type (situation_analysis r));
           "Risk Level: " +:+ risk_level (legal_summary (legal_analysis r));
           "Urgency: " +:+ upper (level (urgency (situation_analysis r)));
           "Primary Jurisdiction: " +:+
             upper (primary (jurisdiction (situation_analysis r))) ]
      ++ sections ++ [nl +:+ str_repeat "=" 60].
Proof.
  rewrite summarize_printed. unfold summary_lines. cbv zeta.
  eexists. f_equal. cbn [app]. do 9 f_equal.
  rewrite !app_assoc. reflexivity.
Qed.

Lemma filter_map_none {A} (p : string -> bool) (f : A -> string) xs :
  (forall x, p (f x) = false) -> List.filter p (List.map f xs) = [].
Proof.
  intros H. induction xs as [|x xs IH]; simpl; [reflexivity|].
  now rewrite H.
Qed.

Lemma filter_block (p : string -> bool) c lines :
  List.filter p (block c lines) = block c (List.filter p lines).
Proof. now destruct c. Qed.

Lemma length_block c lines :
  length (block c lines) = if c then length lines else 0.
Proof. now destruct c. Qed.

Lemma filter_one (p : string -> bool) line :
  List.filter p [line] = if p line then [line] else [].
Proof. reflexivity. Qed.

Lemma if_negb {A} (c : bool) (a b : A) :
  (if negb c then a else b) = if c then b else a.
Proof. now destruct c. Qed.

Lemma if_same {A} (c : bool) (a : A) : (if c then a else a) = a.
Proof. now destruct c. Qed.

Ltac count_headers :=
  unfold contradiction_lines;
  rewrite !List.filter_app, !filter_block, !List.filter_app;
  repeat match goal with
         | |- context [List.filter ?p (List.map ?f ?xs)] =>
             rewrite (filter_map_none p f xs) by (intros; reflexivity)
         | |- context [List.filter ?p [?line]] =>
             rewrite (filter_one p line);
             (change (p line) with false || change (p line) with true);
             cbv iota
         end;
  rewrite !length_app, !length_block, ?if_negb; cbn [length app];
  rewrite ?if_same; lia.

(** A section is printed exactly when its field holds something: its header
    is then printed once, and not at all otherwise. *)
Theorem section_header_once (r : Results) (w : world) (sec : report_section) :
  exists lines,
    printed (trace (snd (summarize r w))) = printed (trace w) ++ lines
    /\ header_count sec lines = if field_emptyb sec r then 0 else 1.
Proof.
  exists (summary_lines upper r). split; [apply summarize_printed|].
  unfold header_count, summary_lines. cbv zeta.
  destruct sec; cbn [field_emptyb header_of]; count_headers.
Qed.

(** The number of strings printed: ten, and for every section whose field
    holds something one for the header and one per item. *)
Theorem summary_line_count (r : Results) (w : world) :
  exists lines,
    printed (trace (snd (summarize r w))) = printed (trace w) ++ lines
    /\ length lines
       = 10 + list_sum
                (List.map
                   (fun sec =>
                      if field_emptyb sec r then 0 else 1 + items_of sec r)
                   all_sections).
Proof.
  exists (summary_lines upper r). split; [apply summarize_printed|].
  unfold summary_lines, all_sections, contradiction_lines. cbv zeta.
  rewrite !length_app, !length_block, !length_app, !length_map.
  cbn [List.map list_sum field_emptyb items_of length].
  rewrite !if_negb.
  assert (Henum : forall (cs : list Contradiction) start,
            length (enumerate start cs) = length cs).
  { induction cs as [|c cs IH]; intros start; cbn; [reflexivity|].
    now rewrite IH. }
  rewrite Henum. change (1 + 0) with 1. simpl list_sum. cbn [Nat.add].
  repeat match goal with
         | |- context [if ?c then ?a else ?b] =>
             generalize (if c then a else b); intro
         end.
  lia.
Qed.

End Summary.

End PresentationFacts.

(* ===================================================================== *)
(** * More on the orchestrator *)
(* ===================================================================== *)

Module OrchestratorFacts.
Import Launcher OrchestratorSpec.

(** The provenance entries among the events, in order. *)
Fixpoint logged (events : list event) : list string :=
  match events with
  | [] => []
  | EvLog _ message :: rest => message :: logged rest
  | _ :: rest => logged rest
  end.

(** The events that are neither a provenance entry nor a collaborator
    call. *)
Fixpoint other_events (events : list event) : list event :=
  match events with
  | [] => []
  | EvLog _ _ :: rest => other_events rest
  | EvCall _ :: rest => other_events rest
  | e :: rest => e :: other_events rest
  end.

Section Analyze.

Context {FS : Type} {DateTime : Type}.
Variable isoformat : DateTime -> string.
Variable dump_to_file : string -> Results -> FS -> option exn * FS.
Variable interpret_situation : string -> option json -> Situation.
Variable extract_clauses : string -> list json.
Variable detect_contradictions : list json -> list Contradiction.
Variable analyze_legal_structure : string -> json.
Variable interpret_tone : string -> json.
Variable analyze_legal_risk : string -> list Risk.
Variable generate_legal_summary : string -> json -> list Risk -> LegalSummary.
Variable synthesize_remedy : RemedyInput -> Remedy.

Local Abbreviation world := (@World FS DateTime).

Local Abbreviation analyze :=
  (analyze_situation isoformat dump_to_file interpret_situation
     extract_clauses detect_contradictions analyze_legal_structure
     interpret_tone analyze_legal_risk generate_legal_summary
     synthesize_remedy).

(** The parts of a returned Analysis Result fit together: the
    recommendations are those derived from the situation, the summary and
    the remedy stored beside them; the contradictions are those detected in
    the stored clauses; the remedy answers the request built from the stored
    parts; the input and the session are the caller's. *)
Theorem analysis_result_coherent self text ctx (w : world) :
  exists results,
    fst (analyze self text ctx w) = inr results
    /\ recommendations results
       = _generate_recommendations (situation_analysis results)
           (legal_summary (legal_analysis results)) (remedy results)
    /\ contradictions (legal_analysis results)
       = detect_contradictions (clauses (legal_analysis results))
    /\ remedy results
       = synthesize_remedy
           {| req_type := type (situation_analysis results);
              req_risk_level :=
                risk_level (legal_summary (legal_analysis results));
              req_contradictions := contradictions (legal_analysis results);
              req_tone_analysis := tone_analysis (legal_analysis results);
              req_urgency := urgency (situation_analysis results);
              req_jurisdiction := jurisdiction (situation_analysis results);
              req_legal_framework :=
                legal_framework (situation_analysis results) |}
    /\ legal_summary (legal_analysis results)
       = generate_legal_summary text (tone_analysis (legal_analysis results))
           (legal_risks (legal_analysis results))
    /\ input results = {| raw_text := text; context := ctx |}
    /\ session_id results = self_session_id self
    /\ timestamp results = isoformat (now w).
Proof.
  rewrite analyze_situation_run. cbn [fst].
  eexists. split; [reflexivity|]. repeat split.
Qed.

(** One analysis leaves ten provenance entries, the first announcing the
    analysis and the last its completion, whether saving worked or not; it
    prints nothing and creates no directory. *)
Theorem analysis_provenance self text ctx (w : world) :
  exists events saving,
    trace (snd (analyze self text ctx w)) = trace w ++ events
    /\ logged events
       = [ "Starting comprehensive situation analysis";
           "Step 1: Interpreting situation with SituationInterpreter";
           "Step 2: Extracting clauses with JARVIS";
           "Step 3: Detecting contradictions with JARVIS";
           "Step 4: Analyzing legal structure with JARVIS";
           "Step 5: Analyzing tone and risks with FRIDAY";
           "Step 6: Generating legal summary with FRIDAY";
           "Step 7: Synthesizing remedy";
           saving;
           "Comprehensive analysis completed" ]
    /\ other_events events = [].
Proof.
  rewrite analyze_situation_run. cbn [snd trace]. unfold save_entry.
  destruct (fst (dump_to_file _ _ (fs w)));
    eexists; eexists; (split; [reflexivity|]); split; reflexivity.
Qed.

(** What one analysis does to the file system is one write, of the very
    result it returns, to the file named after the session,
    [output/verobrix_analysis_<session id>.json]. *)
Theorem artifact_is_returned_result self text ctx (w : world) :
  exists results,
    fst (analyze self text ctx w) = inr results
    /\ fs (snd (analyze self text ctx w))
       = snd (dump_to_file (OrchestratorSpec.artifact self) results (fs w)).
Proof.
  rewrite analyze_situation_run. cbn [fst snd fs].
  eexists. split; reflexivity.
Qed.

(** The file is named after the session, not after the call: on a file
    system where a second write to a path replaces the first, a second
    analysis by the same system leaves the file system as if only its own
    result had been written; the artifact of the first analysis is gone. *)
Theorem second_analysis_overwrites self text1 ctx1 text2 ctx2 (w : world) :
  (forall path r1 r2 files,
     snd (dump_to_file path r2 (snd (dump_to_file path r1 files)))
     = snd (dump_to_file path r2 files)) ->
  let w1 := snd (analyze self text1 ctx1 w) in
  exists second,
    fst (analyze self text2 ctx2 w1) = inr second
    /\ fs (snd (analyze self text2 ctx2 w1))
       = snd (dump_to_file (OrchestratorSpec.artifact self) second (fs w)).
Proof.
  intros Hover. cbv zeta.
  rewrite !analyze_situation_run. cbn [fst snd fs now].
  eexists. split; [reflexivity|]. apply Hover.
Qed.

End Analyze.

End OrchestratorFacts.

(* ===================================================================== *)
(** * Properties of main *)
(* ===================================================================== *)

Module DriverFacts.
Import Launcher Driver.

Section Main.

Context {FS : Type} {DateTime : Type}.
Variable strftime_session : DateTime -> string.
Variable isoformat : DateTime -> string.
Variable dump_to_file : string -> Results -> FS -> option exn * FS.
Variable upper : string -> string.
Variable interpret_situation : string -> option json -> Situation.
Variable extract_clauses : string -> list json.
Variable detect_contradictions : list json -> list Contradiction.
Variable analyze_legal_structure : string -> json.
Variable interpret_tone : string -> json.
Variable analyze_legal_risk : string -> list Risk.
Variable generate_legal_summary : string -> json -> list Risk -> LegalSummary.
Variable synthesize_remedy : RemedyInput -> Remedy.
Variable read_file : string -> FS -> exn + string.
Variable render_document : string -> dict string -> exn + string.

Local Abbreviation world := (@World FS DateTime).

Local Abbreviation run_main :=
  (main strftime_session isoformat dump_to_file upper interpret_situation
     extract_clauses detect_contradictions analyze_legal_structure
     interpret_tone analyze_legal_risk generate_legal_summary
     synthesize_remedy read_file render_document).

Local Abbreviation run_analysis :=
  (analysis_and_document isoformat dump_to_file upper interpret_situation
     extract_clauses detect_contradictions analyze_legal_structure
     interpret_tone analyze_legal_risk generate_legal_summary
     synthesize_remedy render_document).

Local Abbreviation result_of :=
  (OrchestratorSpec.analysis_result isoformat interpret_situation
     extract_clauses detect_contradictions analyze_legal_structure
     interpret_tone analyze_legal_risk generate_legal_summary
     synthesize_remedy).

(** A world that differs from [w] by added events and by its files. *)
Definition advance (events : list event) (files : FS) (w : world) : world :=
  {| trace := trace w ++ events; fs := files; now := now w |}.

Lemma advance_advance es1 es2 f1 f2 (w : world) :
  advance es2 f2 (advance es1 f1 w) = advance (es1 ++ es2) f2 w.
Proof. unfold advance. cbn. now rewrite app_assoc. Qed.

Lemma emit_advance e es f (w : world) :
  emit e (advance es f w) = advance (es ++ [e]) f w.
Proof. unfold emit, advance. cbn. now rewrite app_assoc. Qed.

Lemma emit_start e (w : world) : emit e w = advance [e] (fs w) w.
Proof. reflexivity. Qed.

Lemma print_all_advance lines es f (w : world) :
  PresentationSpec.print_all lines (advance es f w)
  = advance (es ++ List.map EvPrint lines) f w.
Proof.
  unfold PresentationSpec.print_all, advance. cbn. now rewrite app_assoc.
Qed.

Lemma run_bind_print {A} text (k : unit -> M A) (w : world) :
  bind (print text) k w = k tt (emit (EvPrint text) w).
Proof. reflexivity. Qed.

Lemma run_bind_makedirs {A} path (k : unit -> M A) (w : world) :
  bind (makedirs path) k w = k tt (emit (EvMakedirs path) w).
Proof. reflexivity. Qed.

(** The system [main] builds, and the events of building it. *)
Definition system_of (w : world) : VeroBrixSystem :=
  {| self_session_id := strftime_session (now w) |}.

Definition init_events (w : world) : list event :=
  [ EvMakedirs "logs"; EvMakedirs "output";
    EvLog "VeroBrix System"
      ("Initialized new session: " +:+ strftime_session (now w)) ].

Lemma init_run {A} (k : VeroBrixSystem -> M A) (w : world) :
  bind (init strftime_session) k w
  = k (system_of w) (advance (init_events w) (fs w) w).
Proof.
  unfold init. unfold bind at 1 2. unfold datetime_now at 1.
  rewrite run_bind_makedirs, run_bind_makedirs,
    OrchestratorSpec.run_bind_log.
  unfold ret. rewrite (emit_start (EvMakedirs "logs") w), !emit_advance.
  reflexivity.
Qed.

(** The events of the analysis of [text] by [system], up to the request for
    the sample document. *)
Definition analysis_events (system : VeroBrixSystem) (text : string)
    (t : DateTime) (files : FS) : list event :=
  let results := result_of system text None t in
  [ EvLog "VeroBrix System" "Starting comprehensive situation analysis";
    EvLog "VeroBrix System" "Step 1: Interpreting situation with SituationInterpreter";
    EvCall (CInterpretSituation text None);
    EvLog "VeroBrix System" "Step 2: Extracting clauses with JARVIS";
    EvCall (CExtractClauses text);
    EvLog "VeroBrix System" "Step 3: Detecting contradictions with JARVIS";
    EvCall (CDetectContradictions (extract_clauses text));
    EvLog "VeroBrix System" "Step 4: Analyzing legal structure with JARVIS";
    EvCall (CAnalyzeLegalStructure text);
    EvLog "VeroBrix System" "Step 5: Analyzing tone and risks with FRIDAY";
    EvCall (CInterpretTone text);
    EvCall (CAnalyzeLegalRisk text);
    EvLog "VeroBrix System" "Step 6: Generating legal summary with FRIDAY";
    EvCall (CGenerateLegalSummary text (interpret_tone text)
              (analyze_legal_risk text));
    EvLog "VeroBrix System" "Step 7: Synthesizing remedy";
    EvCall (CSynthesizeRemedy
              (OrchestratorSpec.remedy_request interpret_situation
                 extract_clauses detect_contradictions interpret_tone
                 analyze_legal_risk generate_legal_summary text None));
    OrchestratorSpec.save_entry system
      (fst (dump_to_file (OrchestratorSpec.artifact system) results files));
    EvLog "VeroBrix System" "Comprehensive analysis completed" ]
  ++ List.map EvPrint
       (PresentationSpec.summary_lines upper results
        ++ [ nl +:+ str_repeat "=" 60;
             "DOCUMENT GENERATION EXAMPLE";
             str_repeat "=" 60 ])
  ++ [ EvLog "VeroBrix System" "Generating document: traffic_stop" ].

(** How the second [try] ends, by what the renderer does. *)
Definition document_events (system : VeroBrixSystem)
    (rendered : exn + string) : list event :=
  match rendered with
  | inr document =>
      List.map EvPrint
        [ "Generated Notice of Lawful Travel:";
          str_repeat "-" 40;
          document;
          nl +:+ "Full analysis results saved to: output/verobrix_analysis_"
          +:+ self_session_id system +:+ ".json" ]
  | inl e =>
      [ EvLog "VeroBrix System" ("Error during analysis: " +:+ exn_str e);
        EvPrint ("An error occurred during analysis: " +:+ exn_str e) ]
  end.

Definition sample_variables : dict string :=
  [ ("OFFICER", "Officer Johnson");
    ("AGENCY", "State Highway Patrol");
    ("INDIVIDUAL_NAME", "John Doe");
    ("NAME", "John Doe") ].

Lemma analysis_and_document_run system text (w : world) :
  let results := result_of system text None (now w) in
  run_analysis system text w
  = (inr tt,
     advance
       (analysis_events system text (now w) (fs w)
        ++ document_events system
             (render_document "traffic_stop" sample_variables))
       (snd (dump_to_file (OrchestratorSpec.artifact system) results (fs w)))
       w).
Proof.
  cbv zeta. unfold analysis_and_document, try_except.
  unfold bind at 1. rewrite OrchestratorSpec.analyze_situation_run.
  cbv beta iota zeta.
  unfold bind at 1. rewrite PresentationSpec.summarize_run.
  rewrite !run_bind_print. unfold generate_document.
  unfold bind at 1. unfold bind at 1. unfold log_provenance at 1.
  unfold lift at 1.
  fold sample_variables.
  match goal with
  | |- context [advance _ ?f w] =>
      match goal with
      | |- context [PresentationSpec.print_all ?lines ?w1] =>
          change w1 with (advance
            (firstn 18 (analysis_events system text (now w) (fs w))) f w)
      end
  end.
  rewrite print_all_advance, !emit_advance.
  destruct (render_document "traffic_stop" sample_variables) as [e|document].
  - rewrite OrchestratorSpec.run_bind_log. unfold print.
    rewrite !emit_advance. f_equal. f_equal.
    unfold analysis_events, document_events. cbv zeta.
    cbn [firstn app]. rewrite !map_app. cbn [List.map].
    rewrite <- !app_assoc. reflexivity.
  - rewrite !run_bind_print. unfold print.
    rewrite !emit_advance. f_equal. f_equal.
    unfold analysis_events, document_events. cbv zeta.
    cbn [firstn app]. rewrite !map_app. cbn [List.map].
    rewrite <- !app_assoc. reflexivity.
Qed.

Definition input_path : string := "intake/sample_document.txt".

Lemma main_run (w : world) :
  run_main w
  = match read_file input_path (fs w) with
    | inr input_text =>
        run_analysis (system_of w) input_text
          (advance
             (init_events w ++
              [EvLog "VeroBrix System"
                 "Successfully loaded 'intake/sample_document.txt'"])
             (fs w) w)
    | inl e =>
        (inr tt,
         advance
           (init_events w ++
            if String.eqb (exn_class e) "FileNotFoundError" then
              [ EvLog "VeroBrix System"
                  "Error: 'intake/sample_document.txt' not found";
                EvPrint "Please create the file 'intake/sample_document.txt' with some text." ]
            else
              [ EvLog "VeroBrix System"
                  ("Error loading input file: " +:+ exn_str e) ])
           (fs w) w)
    end.
Proof.
  unfold main. rewrite init_run. cbn [fs advance].
  fold input_path.
  destruct (read_file input_path (fs w)) as [e|input_text].
  - destruct (String.eqb (exn_class e) "FileNotFoundError").
    + rewrite OrchestratorSpec.run_bind_log. unfold print.
      now rewrite !emit_advance, <- !app_assoc.
    + unfold log_provenance. now rewrite emit_advance.
  - rewrite OrchestratorSpec.run_bind_log. now rewrite emit_advance.
Qed.

Lemma calls_of_app es1 es2 :
  OrchestratorSpec.calls_of (es1 ++ es2)
  = OrchestratorSpec.calls_of es1 ++ OrchestratorSpec.calls_of es2.
Proof.
  induction es1 as [|[] es1 IH]; simpl; rewrite ?IH; reflexivity.
Qed.

Lemma printed_analysis_events system text t files :
  PresentationSpec.printed (analysis_events system text t files)
  = PresentationSpec.summary_lines upper (result_of system text None t)
    ++ [ nl +:+ str_repeat "=" 60;
         "DOCUMENT GENERATION EXAMPLE";
         str_repeat "=" 60 ].
Proof.
  unfold analysis_events. cbv zeta.
  rewrite !PresentationSpec.printed_app, PresentationSpec.printed_prints.
  unfold OrchestratorSpec.save_entry.
  destruct (fst (dump_to_file _ _ files)); cbn [PresentationSpec.printed app];
    now rewrite app_nil_r.
Qed.


(** When the input file cannot be read, nothing is analysed and no file is
    written.  A missing file gets the one-line instruction on the console;
    any other failure to read is logged only, and the console stays
    silent. *)
Theorem main_without_input (w : world) (e : exn) :
  read_file "intake/sample_document.txt" (fs w) = inl e ->
  fs (snd (run_main w)) = fs w
  /\ OrchestratorSpec.calls_of (trace (snd (run_main w)))
     = OrchestratorSpec.calls_of (trace w)
  /\ PresentationSpec.printed (trace (snd (run_main w)))
     = PresentationSpec.printed (trace w)
       ++ (if String.eqb (exn_class e) "FileNotFoundError"
           then ["Please create the file 'intake/sample_document.txt' with some text."]
           else []).
Proof.
  intros Hread. rewrite main_run. unfold input_path. rewrite Hread.
  cbn [snd fs trace advance]. split; [reflexivity|].
  rewrite calls_of_app, PresentationSpec.printed_app.
  rewrite calls_of_app, PresentationSpec.printed_app.
  destruct (String.eqb (exn_class e) "FileNotFoundError"); cbn;
    rewrite ?app_nil_r; auto.
Qed.

(** When rendering the sample document fails, the analysis of the text
    read has been saved and its summary printed all the same; the console
    then shows the banner of the document example and one error line, and
    no line about the saved results. *)
Theorem main_document_failure (w : world) (text : string) (e : exn) :
  read_file "intake/sample_document.txt" (fs w) = inr text ->
  render_document "traffic_stop" sample_variables = inl e ->
  exists results,
    input results = {| raw_text := text; context := None |}
    /\ session_id results = strftime_session (now w)
    /\ PresentationSpec.printed (trace (snd (run_main w)))
       = PresentationSpec.printed (trace w)
         ++ PresentationSpec.summary_lines upper results
         ++ [ nl +:+ str_repeat "=" 60;
              "DOCUMENT GENERATION EXAMPLE";
              str_repeat "=" 60;
              "An error occurred during analysis: " +:+ exn_str e ]
    /\ fs (snd (run_main w))
       = snd (dump_to_file
                ("output/verobrix_analysis_" +:+ strftime_session (now w)
                 +:+ ".json")
                results (fs w)).
Proof.
  intros Hread Hrender.
  exists (result_of (system_of w) text None (now w)).
  split; [reflexivity|]. split; [reflexivity|].
  rewrite main_run. unfold input_path. rewrite Hread.
  rewrite analysis_and_document_run. rewrite Hrender.
  rewrite advance_advance. cbn [snd fs trace now advance].
  split; [|reflexivity].
  rewrite !PresentationSpec.printed_app, printed_analysis_events.
  cbn [PresentationSpec.printed init_events document_events app].
  rewrite <- !app_assoc. reflexivity.
Qed.

(** The last line [main] prints after an analysis says that the results
    were saved to the artifact, also when the artifact could not be
    written: the failure is in the provenance log only. *)
Theorem main_reports_saved_after_failed_save (w : world) (text document : string)
    (e : exn) :
  read_file "intake/sample_document.txt" (fs w) = inr text ->
  render_document "traffic_stop" sample_variables = inr document ->
  (forall results files,
     fst (dump_to_file
            ("output/verobrix_analysis_" +:+ strftime_session (now w)
             +:+ ".json")
            results files) = Some e) ->
  In (EvLog "VeroBrix System" ("Error saving results: " +:+ exn_str e))
     (trace (snd (run_main w)))
  /\ last (PresentationSpec.printed (trace (snd (run_main w))))
     = Some (nl +:+ "Full analysis results saved to: output/verobrix_analysis_"
             +:+ strftime_session (now w) +:+ ".json").
Proof.
  intros Hread Hrender Hsave.
  rewrite main_run. unfold input_path. rewrite Hread.
  rewrite analysis_and_document_run. rewrite Hrender.
  rewrite advance_advance. cbn [snd fs trace now advance].
  split.
  - apply in_or_app. right. apply in_or_app. right.
    apply in_or_app. left. unfold analysis_events. cbv zeta.
    apply in_or_app. left.
    unfold OrchestratorSpec.artifact, system_of in *. cbn [self_session_id].
    rewrite Hsave. cbn. tauto.
  - rewrite !PresentationSpec.printed_app.
    cbn [document_events List.map].
    change (PresentationSpec.printed
              [EvPrint "Generated Notice of Lawful Travel:";
               EvPrint (str_repeat "-" 40); EvPrint document;
               EvPrint (nl +:+ "Full analysis results saved to: output/verobrix_analysis_"
                        +:+ self_session_id (system_of w) +:+ ".json")])
      with (["Generated Notice of Lawful Travel:"; str_repeat "-" 40; document]
            ++ [nl +:+ "Full analysis results saved to: output/verobrix_analysis_"
                +:+ strftime_session (now w) +:+ ".json"]).
    rewrite !app_assoc. apply last_snoc.
Qed.

End Main.

End DriverFacts.

(* ===================================================================== *)
(** * More on clean_html *)
(* ===================================================================== *)

Module CleanHtmlFacts.
Import PyStr CleanHtml CleanHtmlSpec.

Definition LT : codepoint := 60%N.    (* < *)
Definition GT : codepoint := 62%N.    (* > *)
Definition AMP : codepoint := 38%N.   (* & *)

(** The five [replace] calls, and the last statement, as stages. *)
Definition decode_entities (text : pystr) : pystr :=
  replace (lit "&#39;") (lit "'")
    (replace (lit "&quot;") [34%N]
       (replace (lit "&gt;") (lit ">")
          (replace (lit "&lt;") (lit "<")
             (replace (lit "&amp;") (lit "&") text)))).

Definition squeeze (text : pystr) : pystr := join [LF] (kept_lines text).

Lemma clean_html_stages html :
  clean_html html
  = squeeze (decode_entities
               (re_sub match_tag [] (re_sub match_script_style [] html))).
Proof. reflexivity. Qed.

(** ** The substitutions where nothing matches *)

Lemma match_tag_needs_lt c rest : c <> LT -> match_tag (c :: rest) = None.
Proof.
  intros H. unfold match_tag.
  destruct (N.eqb_spec c 60); [contradiction|reflexivity].
Qed.

Lemma match_element_needs_lt name c rest :
  c <> LT -> match_element name (c :: rest) = None.
Proof.
  intros H. unfold match_element.
  change (lit "<" ++ name) with (LT :: name). cbn [startswith].
  destruct (N.eqb_spec LT c) as [E|_]; [now subst|reflexivity].
Qed.

Lemma match_script_style_needs_lt c rest :
  c <> LT -> match_script_style (c :: rest) = None.
Proof.
  intros H. unfold match_script_style.
  now rewrite !match_element_needs_lt.
Qed.

(** A scan copies a run in which no match can start. *)
Lemma re_sub_from_copies matcher repl p rest :
  (forall c tail, c <> LT -> matcher (c :: tail) = None) ->
  Forall (fun c => c <> LT) p ->
  re_sub_from matcher repl 0 (p ++ rest)
  = p ++ re_sub_from matcher repl 0 rest.
Proof.
  intros Hm Hp. induction Hp as [|c p Hc Hp IH]; [reflexivity|].
  cbn [app re_sub_from]. rewrite (Hm c _ Hc). now rewrite IH.
Qed.

Lemma re_sub_without_lt matcher repl s :
  (forall c tail, c <> LT -> matcher (c :: tail) = None) ->
  Forall (fun c => c <> LT) s ->
  re_sub matcher repl s = s.
Proof.
  intros Hm Hs. unfold re_sub. rewrite <- (app_nil_r s) at 1.
  rewrite re_sub_from_copies by assumption. cbn. now rewrite app_nil_r.
Qed.

(** Code points still to be dropped are dropped. *)
Lemma re_sub_from_skips matcher repl dropped rest :
  re_sub_from matcher repl (length dropped) (dropped ++ rest)
  = re_sub_from matcher repl 0 rest.
Proof.
  induction dropped as [|c dropped IH]; [reflexivity|].
  cbn [length app re_sub_from]. exact IH.
Qed.

Lemma startswith_head a p' c tail :
  c <> a -> startswith (a :: p') (c :: tail) = false.
Proof.
  intros H. cbn [startswith].
  destruct (N.eqb_spec a c) as [E|_]; [now subst|reflexivity].
Qed.

Lemma replace_from_copies a old' new p rest :
  Forall (fun c => c <> a) p ->
  replace_from 0 (a :: old') new (p ++ rest)
  = p ++ replace_from 0 (a :: old') new rest.
Proof.
  intros Hp. induction Hp as [|c p Hc Hp IH]; [reflexivity|].
  cbn [app replace_from]. rewrite (startswith_head a old' c _ Hc).
  now rewrite IH.
Qed.

Lemma replace_without_head a old' new s :
  Forall (fun c => c <> a) s -> replace (a :: old') new s = s.
Proof.
  intros Hs. unfold replace. rewrite <- (app_nil_r s) at 1.
  rewrite replace_from_copies by assumption. cbn. now rewrite app_nil_r.
Qed.

Lemma startswith_app p rest : startswith p (p ++ rest) = true.
Proof.
  induction p as [|c p IH]; [reflexivity|].
  cbn [app startswith]. now rewrite N.eqb_refl, IH.
Qed.

Lemma replace_from_skips old new dropped rest :
  replace_from (length dropped) old new (dropped ++ rest)
  = replace_from 0 old new rest.
Proof.
  induction dropped as [|c dropped IH]; [reflexivity|].
  cbn [length app replace_from]. exact IH.
Qed.

(** An occurrence after a run without the first code point of [old] is
    replaced, and the scan goes on behind it. *)
Lemma replace_occurrence a old' new p rest :
  Forall (fun c => c <> a) p ->
  replace (a :: old') new (p ++ (a :: old') ++ rest)
  = p ++ new ++ replace (a :: old') new rest.
Proof.
  intros Hp. unfold replace. rewrite replace_from_copies by assumption.
  f_equal. cbn [app]. cbn [replace_from].
  change (a :: old' ++ rest) with ((a :: old') ++ rest).
  rewrite startswith_app. f_equal.
  replace (length (a :: old') - 1) with (length old') by (cbn [length]; lia).
  apply replace_from_skips.
Qed.

Lemma decode_entities_without_amp s :
  Forall (fun c => c <> AMP) s -> decode_entities s = s.
Proof.
  intros H. unfold decode_entities.
  change (lit "&amp;") with (AMP :: lit "amp;").
  change (lit "&lt;") with (AMP :: lit "lt;").
  change (lit "&gt;") with (AMP :: lit "gt;").
  change (lit "&quot;") with (AMP :: lit "quot;").
  change (lit "&#39;") with (AMP :: lit "#39;").
  rewrite (replace_without_head AMP (lit "amp;") _ s H).
  rewrite (replace_without_head AMP (lit "lt;") _ s H).
  rewrite (replace_without_head AMP (lit "gt;") _ s H).
  rewrite (replace_without_head AMP (lit "quot;") _ s H).
  apply (replace_without_head AMP (lit "#39;") _ s H).
Qed.

(** ** The last statement on text that is clean already *)

Lemma lstrip_keeps s :
  (forall c, head s = Some c -> isspace c = false) -> lstrip s = s.
Proof.
  destruct s as [|c s]; [reflexivity|]. intros H. cbn.
  now rewrite (H c eq_refl).
Qed.

Lemma strip_tidy_id line : tidy line -> strip line = line.
Proof.
  intros (_ & Hh & Hl). unfold strip, rstrip.
  rewrite (lstrip_keeps line Hh).
  rewrite lstrip_keeps; [apply rev_involutive|].
  intros c Hc. apply Hl. rewrite <- Hc.
  rewrite <- (rev_involutive line) at 1. apply last_rev_head.
Qed.

Lemma kept_lines_join lines :
  Forall (fun l => tidy l /\ Forall inline l) lines ->
  kept_lines (join [LF] lines) = lines.
Proof.
  intros H. unfold kept_lines. rewrite splitlines_join.
  2:{ eapply Forall_impl; [exact H|]. intros l [[Hne _] Hin]. auto. }
  induction H as [|l ls [Ht Hin] Hls IH]; [reflexivity|].
  cbn [List.filter]. rewrite (strip_tidy_id l Ht).
  pose proof Ht as (Hne & _).
  rewrite bool_decide_eq_false_2 by exact Hne. cbn [negb List.map].
  rewrite (strip_tidy_id l Ht). now rewrite IH.
Qed.

Lemma squeeze_join lines :
  Forall (fun l => tidy l /\ Forall inline l) lines ->
  squeeze (join [LF] lines) = join [LF] lines.
Proof. intros H. unfold squeeze. now rewrite kept_lines_join. Qed.

Lemma squeeze_line line :
  tidy line -> Forall inline line -> squeeze line = line.
Proof.
  intros Ht Hin. apply (squeeze_join [line]). constructor; [auto|constructor].
Qed.

Lemma join_Forall (P : codepoint -> Prop) lines :
  P LF -> Forall (Forall P) lines -> Forall P (join [LF] lines).
Proof.
  intros HLF H. induction H as [|l ls Hl Hls IH]; [constructor|].
  destruct ls as [|l' ls']; [exact Hl|].
  change (join [LF] (l :: l' :: ls')) with (l ++ [LF] ++ join [LF] (l' :: ls')).
  apply Forall_app. split; [exact Hl|].
  apply Forall_app. split; [constructor; [exact HLF|constructor]|exact IH].
Qed.

(** Text without markup: no [<], no [&]. *)
Definition unmarked (s : pystr) : Prop :=
  Forall (fun c => c <> LT /\ c <> AMP) s.

Lemma unmarked_lt s : unmarked s -> Forall (fun c => c <> LT) s.
Proof. intros H. eapply Forall_impl; [exact H|]. intros c Hc. apply Hc. Qed.

Lemma unmarked_amp s : unmarked s -> Forall (fun c => c <> AMP) s.
Proof. intros H. eapply Forall_impl; [exact H|]. intros c Hc. apply Hc. Qed.

Lemma clean_html_unmarked s : unmarked s -> clean_html s = squeeze s.
Proof.
  intros H. rewrite clean_html_stages.
  rewrite (re_sub_without_lt match_script_style);
    [|apply match_script_style_needs_lt|now apply unmarked_lt].
  rewrite (re_sub_without_lt match_tag);
    [|apply match_tag_needs_lt|now apply unmarked_lt].
  now rewrite decode_entities_without_amp by now apply unmarked_amp.
Qed.

(** Clean text stays as it is: lines without markup, each with something on
    it and no white space at its ends, joined by line feeds, come back
    unchanged.  So [clean_html] can be run again on such a result. *)
Theorem clean_text_unchanged (lines : list pystr) :
  Forall (fun l => tidy l /\ Forall inline l /\ unmarked l) lines ->
  clean_html (join [LF] lines) = join [LF] lines.
Proof.
  intros H. rewrite clean_html_unmarked.
  - apply squeeze_join. eapply Forall_impl; [exact H|].
    intros l (Ht & Hi & _). auto.
  - apply join_Forall; [split; discriminate|].
    eapply Forall_impl; [exact H|]. intros l (_ & _ & Hu). exact Hu.
Qed.

(** ** White space only *)

Lemma splitlines_from_Forall (P : codepoint -> Prop) s : forall after_cr cur,
  Forall P cur -> Forall P s ->
  Forall (Forall P) (splitlines_from after_cr cur s).
Proof.
  induction s as [|c rest IH]; intros after_cr cur Hcur Hs; simpl.
  - destruct cur; [constructor|]. constructor; [assumption|constructor].
  - inversion Hs as [|? ? Hc Hrest]; subst.
    destruct (after_cr && (c =? LF)%N); [now apply IH|].
    destruct (is_linebreak c).
    + constructor; [assumption|]. apply IH; [constructor|assumption].
    + apply IH; [|assumption]. apply Forall_app. split; [assumption|].
      constructor; [exact Hc|constructor].
Qed.

Lemma lstrip_spaces s : Forall (fun c => isspace c = true) s -> lstrip s = [].
Proof.
  induction 1 as [|c s Hc Hs IH]; [reflexivity|]. cbn. now rewrite Hc.
Qed.

Lemma strip_spaces s : Forall (fun c => isspace c = true) s -> strip s = [].
Proof. intros H. unfold strip. now rewrite lstrip_spaces. Qed.

Lemma isspace_unmarked c : isspace c = true -> c <> LT /\ c <> AMP.
Proof.
  intros H. split; intros ->; vm_compute in H; discriminate.
Qed.

(** An input of white space only, the empty string included, gives the
    empty string. *)
Theorem white_space_gives_empty (html : pystr) :
  Forall (fun c => isspace c = true) html -> clean_html html = [].
Proof.
  intros H. rewrite clean_html_unmarked.
  2:{ eapply Forall_impl; [exact H|]. intros c. apply isspace_unmarked. }
  unfold squeeze, kept_lines.
  assert (Hlines : Forall (Forall (fun c => isspace c = true))
                     (splitlines_from false [] html))
    by (apply splitlines_from_Forall; [constructor|exact H]).
  fold (splitlines html) in Hlines.
  induction Hlines as [|l ls Hl Hls IH]; [reflexivity|].
  cbn [List.filter]. rewrite (strip_spaces l Hl).
  rewrite bool_decide_eq_true_2 by reflexivity. cbn [negb]. exact IH.
Qed.

(** ** The shape of every output *)

Lemma join_head lines c :
  Forall tidy lines -> head (join [LF] lines) = Some c -> isspace c = false.
Proof.
  intros H. destruct H as [|l ls (Hne & Hh & _) Hls]; [discriminate|].
  destruct l as [|x l]; [contradiction|].
  intros Hc. apply Hh. rewrite <- Hc.
  destruct ls; reflexivity.
Qed.

Lemma join_nonempty l ls : l <> [] -> join [LF] (l :: ls) <> [].
Proof.
  intros Hne. destruct l as [|x l]; [contradiction|].
  destruct ls; discriminate.
Qed.

Lemma join_last lines c :
  Forall tidy lines -> last (join [LF] lines) = Some c -> isspace c = false.
Proof.
  intros H. induction H as [|l ls Ht Hls IH]; [discriminate|].
  destruct ls as [|l' ls']; [apply Ht|].
  change (join [LF] (l :: l' :: ls')) with (l ++ [LF] ++ join [LF] (l' :: ls')).
  rewrite !last_app.
  destruct (last (join [LF] (l' :: ls'))) as [y|] eqn:E.
  - intros [= <-]. now apply IH.
  - apply last_None in E. exfalso. revert E. apply join_nonempty.
    inversion Hls as [|? ? (Hne & _) _]; subst. exact Hne.
Qed.

(** Every output is normalised: a line feed is the only line boundary left
    in it (no CR, no form feed, no Unicode separator), and it neither
    starts nor ends with white space, so it never ends with a newline. *)
Theorem output_normalised (html : pystr) :
  Forall (fun c => is_linebreak c = true -> c = LF) (clean_html html)
  /\ (forall c, head (clean_html html) = Some c -> isspace c = false)
  /\ (forall c, last (clean_html html) = Some c -> isspace c = false).
Proof.
  destruct (clean_html_lines html) as (text & -> & _).
  pose proof (kept_lines_spec text) as H.
  assert (Ht : Forall tidy (kept_lines text)).
  { eapply Forall_impl; [exact H|]. intros l [Ht _]. exact Ht. }
  split; [|split].
  - apply join_Forall; [reflexivity|].
    eapply Forall_impl; [exact H|]. intros l [_ Hin].
    eapply Forall_impl; [exact Hin|]. intros c Hc Hb.
    unfold inline in Hc. congruence.
  - intros c. now apply join_head.
  - intros c. now apply join_last.
Qed.

(** ** Never longer *)

Lemma re_sub_from_length matcher s : forall skip,
  length (re_sub_from matcher [] skip s) <= length s.
Proof.
  induction s as [|c rest IH]; intros skip; [reflexivity|].
  cbn [re_sub_from length]. destruct skip as [|k].
  - destruct (matcher (c :: rest)) as [[|n]|]; cbn [app length].
    + specialize (IH 0). lia.
    + specialize (IH n). lia.
    + specialize (IH 0). lia.
  - specialize (IH k). lia.
Qed.

Lemma startswith_length p s : startswith p s = true -> length p <= length s.
Proof.
  revert s. induction p as [|a p IH]; intros s; [cbn; lia|].
  destruct s as [|b s]; [discriminate|]. cbn [startswith length].
  intros H. apply andb_prop in H as [_ H]. apply IH in H. lia.
Qed.

Lemma replace_from_length old new s : forall skip,
  length new <= length old ->
  length (replace_from skip old new s) <= length s - skip.
Proof.
  induction s as [|c rest IH]; intros skip Hnew; [reflexivity|].
  cbn [replace_from]. destruct skip as [|k].
  - destruct (startswith old (c :: rest)) eqn:E.
    + apply startswith_length in E. cbn [length] in E.
      rewrite length_app. specialize (IH (length old - 1) Hnew).
      cbn [length]. lia.
    + specialize (IH 0 Hnew). cbn [length]. lia.
  - specialize (IH k Hnew). cbn [length]. lia.
Qed.

Lemma replace_length a old' new s :
  length new <= length (a :: old') ->
  length (replace (a :: old') new s) <= length s.
Proof.
  intros H. unfold replace.
  pose proof (replace_from_length (a :: old') new s 0 H). lia.
Qed.

Lemma decode_entities_length text :
  length (decode_entities text) <= length text.
Proof.
  unfold decode_entities.
  etransitivity; [apply (replace_length AMP (lit "#39;")); cbn; lia|].
  etransitivity; [apply (replace_length AMP (lit "quot;")); cbn; lia|].
  etransitivity; [apply (replace_length AMP (lit "gt;")); cbn; lia|].
  etransitivity; [apply (replace_length AMP (lit "lt;")); cbn; lia|].
  apply (replace_length AMP (lit "amp;")). cbn. lia.
Qed.

(** The length of [join] on LF, with one more for a line feed behind the
    last line. *)
Fixpoint with_feeds (lines : list pystr) : nat :=
  match lines with
  | [] => 0
  | l :: ls => length l + 1 + with_feeds ls
  end.

Lemma join_length lines :
  length (join [LF] lines) = with_feeds lines - 1.
Proof.
  induction lines as [|l ls IH]; [reflexivity|].
  destruct ls as [|l' ls'].
  - cbn. lia.
  - change (join [LF] (l :: l' :: ls'))
      with (l ++ [LF] ++ join [LF] (l' :: ls')).
    rewrite !length_app, IH. cbn [with_feeds length]. lia.
Qed.

Lemma splitlines_from_length s : forall after_cr cur,
  with_feeds (splitlines_from after_cr cur s) <= length cur + length s + 1.
Proof.
  induction s as [|c rest IH]; intros after_cr cur.
  - cbn. destruct cur; cbn; lia.
  - cbn [splitlines_from length].
    destruct (after_cr && (c =? LF)%N).
    + specialize (IH false cur). lia.
    + destruct (is_linebreak c).
      * cbn [with_feeds]. specialize (IH (c =? CR)%N []). cbn in IH. lia.
      * specialize (IH false (cur ++ [c])). rewrite length_app in IH.
        cbn in IH. lia.
Qed.

Lemma lstrip_length s : length (lstrip s) <= length s.
Proof.
  induction s as [|c s IH]; [reflexivity|]. cbn.
  destruct (isspace c); cbn; lia.
Qed.

Lemma strip_length s : length (strip s) <= length s.
Proof.
  unfold strip, rstrip. rewrite length_rev.
  etransitivity; [apply lstrip_length|]. rewrite length_rev.
  apply lstrip_length.
Qed.

Lemma kept_lines_length lines :
  with_feeds
    (List.map strip
       (List.filter (fun line => negb (bool_decide (strip line = []))) lines))
  <= with_feeds lines.
Proof.
  induction lines as [|l ls IH]; [reflexivity|]. cbn [List.filter].
  destruct (negb (bool_decide (strip l = []))); cbn [List.map with_feeds].
  - pose proof (strip_length l). lia.
  - lia.
Qed.

Lemma squeeze_length text : length (squeeze text) <= length text.
Proof.
  unfold squeeze, kept_lines. rewrite join_length.
  pose proof (kept_lines_length (splitlines text)).
  pose proof (splitlines_from_length text false []). 
  fold (splitlines text) in *. cbn [length] in *. lia.
Qed.

(** [clean_html] never returns more code points than it was given. *)
Theorem output_not_longer (html : pystr) :
  length (clean_html html) <= length html.
Proof.
  rewrite clean_html_stages.
  etransitivity; [apply squeeze_length|].
  etransitivity; [apply decode_entities_length|].
  etransitivity; [apply re_sub_from_length|].
  apply re_sub_from_length.
Qed.

(** ** Tags and entities inside unmarked text *)

Lemma find_needs_head a needle' hay :
  Forall (fun c => c <> a) hay -> find (a :: needle') hay = None.
Proof.
  induction 1 as [|c hay Hc Hhay IH]; [reflexivity|].
  cbn [find]. rewrite (startswith_head a needle' c hay Hc).
  now rewrite IH.
Qed.

(** Without a second [<] behind it, a [<] starts no script or style
    element. *)
Lemma match_element_needs_closing name tail :
  Forall (fun c => c <> LT) tail -> match_element name (LT :: tail) = None.
Proof.
  intros H. unfold match_element.
  change (lit "<" ++ name) with (LT :: name).
  change (lit "</" ++ name ++ lit ">") with (LT :: 47%N :: name ++ lit ">").
  destruct (startswith (LT :: name) (LT :: tail)); [|reflexivity].
  cbn [length drop].
  destruct (lazy_until true 62%N (drop (length name) tail)) as [a|];
    [|reflexivity].
  rewrite find_needs_head; [reflexivity|].
  now apply Forall_drop, Forall_drop.
Qed.

Lemma script_style_kept p tail :
  Forall (fun c => c <> LT) p -> Forall (fun c => c <> LT) tail ->
  re_sub match_script_style [] (p ++ LT :: tail) = p ++ LT :: tail.
Proof.
  intros Hp Ht. unfold re_sub.
  rewrite re_sub_from_copies;
    [|apply match_script_style_needs_lt|exact Hp].
  f_equal. cbn [re_sub_from]. unfold match_script_style.
  rewrite !match_element_needs_closing by exact Ht. f_equal.
  rewrite <- (app_nil_r tail) at 1.
  rewrite re_sub_from_copies;
    [|apply match_script_style_needs_lt|exact Ht].
  cbn. apply app_nil_r.
Qed.

Lemma lazy_until_finds body rest :
  Forall (fun c => c <> GT /\ c <> LF) body ->
  lazy_until false GT (body ++ GT :: rest) = Some (length body + 1).
Proof.
  induction 1 as [|c body [Hgt Hlf] Hbody IH]; [reflexivity|].
  cbn [app lazy_until length].
  destruct (N.eqb_spec c GT) as [E|_]; [contradiction|].
  destruct (N.eqb_spec c LF) as [E|_]; [contradiction|].
  cbn [negb andb]. now rewrite IH.
Qed.

Lemma lazy_until_misses rest :
  Forall (fun c => c <> GT) rest -> lazy_until false GT rest = None.
Proof.
  induction 1 as [|c rest Hc Hrest IH]; [reflexivity|].
  cbn [lazy_until]. destruct (N.eqb_spec c GT) as [E|_]; [contradiction|].
  destruct (negb false && (c =? LF)%N); [reflexivity|]. now rewrite IH.
Qed.

(** The run from a [<] to the next [>] on the same line is treated as a
    tag and deleted, whatever stands between the two: in unmarked
    surroundings [a < b and c > d] loses [< b and c >]. *)
Theorem tag_removed (p body q : pystr) :
  unmarked p -> unmarked q ->
  Forall (fun c => c <> LT /\ c <> GT /\ c <> LF) body ->
  tidy (p ++ q) -> Forall inline (p ++ q) ->
  clean_html (p ++ [LT] ++ body ++ [GT] ++ q) = p ++ q.
Proof.
  intros Hp Hq Hbody Htidy Hinline. rewrite clean_html_stages.
  cbn [app].
  rewrite script_style_kept; [|now apply unmarked_lt|].
  2:{ apply Forall_app. split.
      - eapply Forall_impl; [exact Hbody|]. intros c (H1 & H2 & H3). exact H1.
      - constructor; [discriminate|now apply unmarked_lt]. }
  assert (Htag : re_sub match_tag [] (p ++ LT :: body ++ GT :: q) = p ++ q).
  { unfold re_sub.
    rewrite re_sub_from_copies;
      [|apply match_tag_needs_lt|now apply unmarked_lt].
    f_equal. cbn [re_sub_from match_tag]. change (LT =? 60)%N with true.
    cbv iota. change 62%N with GT.
    rewrite lazy_until_finds
      by (eapply Forall_impl; [exact Hbody|]; intros c (H1 & H2 & H3); auto).
    cbn [option_map app].
    replace (length body + 1) with (length (body ++ [GT]))
      by (rewrite length_app; reflexivity).
    replace (body ++ GT :: q) with ((body ++ [GT]) ++ q)
      by (now rewrite <- app_assoc).
    rewrite re_sub_from_skips.
    rewrite <- (app_nil_r q) at 1.
    rewrite re_sub_from_copies;
      [|apply match_tag_needs_lt|now apply unmarked_lt].
    cbn. apply app_nil_r. }
  rewrite Htag.
  rewrite decode_entities_without_amp
    by (apply Forall_app; split; now apply unmarked_amp).
  now apply squeeze_line.
Qed.

(** A [<] with no [>] behind it on its line is kept: in unmarked
    surroundings [a < b] stays as it is. *)
Theorem lone_less_than_kept (p q : pystr) :
  unmarked p -> unmarked q -> Forall (fun c => c <> GT) q ->
  tidy (p ++ [LT] ++ q) -> Forall inline (p ++ [LT] ++ q) ->
  clean_html (p ++ [LT] ++ q) = p ++ [LT] ++ q.
Proof.
  intros Hp Hq Hgt Htidy Hinline. rewrite clean_html_stages.
  cbn [app] in *.
  rewrite script_style_kept; [|now apply unmarked_lt|now apply unmarked_lt].
  assert (Htag : re_sub match_tag [] (p ++ LT :: q) = p ++ LT :: q).
  { unfold re_sub.
    rewrite re_sub_from_copies;
      [|apply match_tag_needs_lt|now apply unmarked_lt].
    f_equal. cbn [re_sub_from match_tag]. change (LT =? 60)%N with true.
    cbv iota. change 62%N with GT.
    rewrite lazy_until_misses by exact Hgt. cbn [option_map]. f_equal.
    rewrite <- (app_nil_r q) at 1.
    rewrite re_sub_from_copies;
      [|apply match_tag_needs_lt|now apply unmarked_lt].
    cbn. apply app_nil_r. }
  rewrite Htag.
  assert (Hdecode : forall old' new,
    replace (AMP :: old') new (p ++ LT :: q) = p ++ LT :: q).
  { intros old' new. apply replace_without_head.
    apply Forall_app. split; [now apply unmarked_amp|].
    constructor; [discriminate|now apply unmarked_amp]. }
  unfold decode_entities.
  change (lit "&amp;") with (AMP :: lit "amp;").
  change (lit "&lt;") with (AMP :: lit "lt;").
  change (lit "&gt;") with (AMP :: lit "gt;").
  change (lit "&quot;") with (AMP :: lit "quot;").
  change (lit "&#39;") with (AMP :: lit "#39;").
  rewrite !Hdecode.
  now apply squeeze_line.
Qed.

(** The entities and what they stand for, [&amp;] aside. *)
Definition entities : list (pystr * pystr) :=
  [ (lit "&lt;", lit "<"); (lit "&gt;", lit ">");
    (lit "&quot;", [34%N]); (lit "&#39;", lit "'") ].

Lemma replace_miss a old' new p c rest :
  Forall (fun x => x <> a) p ->
  startswith (a :: old') (c :: rest) = false ->
  replace (a :: old') new (p ++ c :: rest)
  = p ++ c :: replace (a :: old') new rest.
Proof.
  intros Hp Hmiss. unfold replace.
  rewrite replace_from_copies by exact Hp. f_equal.
  cbn [replace_from]. now rewrite Hmiss.
Qed.

Lemma unmarked_all s :
  unmarked s ->
  Forall (fun c => c <> LT) s /\ Forall (fun c => c <> AMP) s.
Proof. intros H. split; [now apply unmarked_lt|now apply unmarked_amp]. Qed.

(** In unmarked surroundings each of [&lt;], [&gt;], [&quot;] and [&#39;]
    is replaced by the character it stands for; a decoded [<] or [>] is not
    taken for part of a tag, tags being removed first. *)
Theorem entity_decoded (p q entity decoded : pystr) :
  In (entity, decoded) entities ->
  unmarked p -> unmarked q ->
  tidy (p ++ decoded ++ q) -> Forall inline (p ++ decoded ++ q) ->
  clean_html (p ++ entity ++ q) = p ++ decoded ++ q.
Proof.
  intros Hin Hp Hq Htidy Hinline. rewrite clean_html_stages.
  destruct (unmarked_all p Hp) as [Hplt Hpamp].
  destruct (unmarked_all q Hq) as [Hqlt Hqamp].
  assert (Hnolt : Forall (fun c => c <> LT) (p ++ entity ++ q)).
  { apply Forall_app. split; [exact Hplt|].
    apply Forall_app. split; [|exact Hqlt].
    cbn in Hin.
    repeat (destruct Hin as [[= <- <-]|Hin];
            [repeat (constructor; [discriminate|]); constructor|]).
    contradiction. }
  rewrite (re_sub_without_lt match_script_style);
    [|apply match_script_style_needs_lt|exact Hnolt].
  rewrite (re_sub_without_lt match_tag);
    [|apply match_tag_needs_lt|exact Hnolt].
  assert (Hq' : forall old' new, replace (AMP :: old') new q = q)
    by (intros; now apply replace_without_head).
  assert (Hdone : forall old' new d,
    Forall (fun c => c <> AMP) d ->
    replace (AMP :: old') new (p ++ d ++ q) = p ++ d ++ q).
  { intros old' new d Hd. apply replace_without_head.
    apply Forall_app. split; [exact Hpamp|].
    apply Forall_app. split; [exact Hd|exact Hqamp]. }
  unfold decode_entities.
  change (lit "&amp;") with (AMP :: lit "amp;").
  change (lit "&lt;") with (AMP :: lit "lt;").
  change (lit "&gt;") with (AMP :: lit "gt;").
  change (lit "&quot;") with (AMP :: lit "quot;").
  change (lit "&#39;") with (AMP :: lit "#39;").
  cbn in Hin.
  destruct Hin as [[= <- <-]|[[= <- <-]|[[= <- <-]|[[= <- <-]|[]]]]].
  - change (lit "&lt;") with (AMP :: lit "lt;").
    cbn [app].
    rewrite (replace_miss AMP (lit "amp;") _ p AMP) by (exact Hpamp || reflexivity).
    rewrite (replace_without_head AMP (lit "amp;") _ (lit "lt;" ++ q))
      by (apply Forall_app; split;
          [repeat (constructor; [discriminate|]); constructor|exact Hqamp]).
    change (p ++ AMP :: lit "lt;" ++ q) with (p ++ (AMP :: lit "lt;") ++ q).
    rewrite (replace_occurrence AMP (lit "lt;") _ p q Hpamp), Hq'.
    rewrite !Hdone by (repeat (constructor; [discriminate|]); constructor).
    now apply squeeze_line.
  - change (lit "&gt;") with (AMP :: lit "gt;").
    cbn [app].
    rewrite (replace_miss AMP (lit "amp;") _ p AMP) by (exact Hpamp || reflexivity).
    rewrite (replace_without_head AMP (lit "amp;") _ (lit "gt;" ++ q))
      by (apply Forall_app; split;
          [repeat (constructor; [discriminate|]); constructor|exact Hqamp]).
    rewrite (replace_miss AMP (lit "lt;") _ p AMP) by (exact Hpamp || reflexivity).
    rewrite (replace_without_head AMP (lit "lt;") _ (lit "gt;" ++ q))
      by (apply Forall_app; split;
          [repeat (constructor; [discriminate|]); constructor|exact Hqamp]).
    change (p ++ AMP :: lit "gt;" ++ q) with (p ++ (AMP :: lit "gt;") ++ q).
    rewrite (replace_occurrence AMP (lit "gt;") _ p q Hpamp), Hq'.
    rewrite !Hdone by (repeat (constructor; [discriminate|]); constructor).
    now apply squeeze_line.
  - change (lit "&quot;") with (AMP :: lit "quot;").
    cbn [app].
    rewrite (replace_miss AMP (lit "amp;") _ p AMP) by (exact Hpamp || reflexivity).
    rewrite (replace_without_head AMP (lit "amp;") _ (lit "quot;" ++ q))
      by (apply Forall_app; split;
          [repeat (constructor; [discriminate|]); constructor|exact Hqamp]).
    rewrite (replace_miss AMP (lit "lt;") _ p AMP) by (exact Hpamp || reflexivity).
    rewrite (replace_without_head AMP (lit "lt;") _ (lit "quot;" ++ q))
      by (apply Forall_app; split;
          [repeat (constructor; [discriminate|]); constructor|exact Hqamp]).
    rewrite (replace_miss AMP (lit "gt;") _ p AMP) by (exact Hpamp || reflexivity).
    rewrite (replace_without_head AMP (lit "gt;") _ (lit "quot;" ++ q))
      by (apply Forall_app; split;
          [repeat (constructor; [discriminate|]); constructor|exact Hqamp]).
    change (p ++ AMP :: lit "quot;" ++ q) with (p ++ (AMP :: lit "quot;") ++ q).
    rewrite (replace_occurrence AMP (lit "quot;") _ p q Hpamp), Hq'.
    rewrite !Hdone by (repeat (constructor; [discriminate|]); constructor).
    now apply squeeze_line.
  - change (lit "&#39;") with (AMP :: lit "#39;").
    cbn [app].
    rewrite (replace_miss AMP (lit "amp;") _ p AMP) by (exact Hpamp || reflexivity).
    rewrite (replace_without_head AMP (lit "amp;") _ (lit "#39;" ++ q))
      by (apply Forall_app; split;
          [repeat (constructor; [discriminate|]); constructor|exact Hqamp]).
    rewrite (replace_miss AMP (lit "lt;") _ p AMP) by (exact Hpamp || reflexivity).
    rewrite (replace_without_head AMP (lit "lt;") _ (lit "#39;" ++ q))
      by (apply Forall_app; split;
          [repeat (constructor; [discriminate|]); constructor|exact Hqamp]).
    rewrite (replace_miss AMP (lit "gt;") _ p AMP) by (exact Hpamp || reflexivity).
    rewrite (replace_without_head AMP (lit "gt;") _ (lit "#39;" ++ q))
      by (apply Forall_app; split;
          [repeat (constructor; [discriminate|]); constructor|exact Hqamp]).
    rewrite (replace_miss AMP (lit "quot;") _ p AMP) by (exact Hpamp || reflexivity).
    rewrite (replace_without_head AMP (lit "quot;") _ (lit "#39;" ++ q))
      by (apply Forall_app; split;
          [repeat (constructor; [discriminate|]); constructor|exact Hqamp]).
    change (p ++ AMP :: lit "#39;" ++ q) with (p ++ (AMP :: lit "#39;") ++ q).
    rewrite (replace_occurrence AMP (lit "#39;") _ p q Hpamp), Hq'.
    now apply squeeze_line.
Qed.

(** [&amp;] is decoded first, so what it leaves is decoded again:
    [&amp;lt;], the escaped form of the text [&lt;], comes out as [<]. *)
Theorem ampersand_decoded_twice (p q : pystr) :
  unmarked p -> unmarked q ->
  tidy (p ++ [LT] ++ q) -> Forall inline (p ++ [LT] ++ q) ->
  clean_html (p ++ lit "&amp;lt;" ++ q) = p ++ [LT] ++ q.
Proof.
  intros Hp Hq Htidy Hinline. rewrite clean_html_stages.
  destruct (unmarked_all p Hp) as [Hplt Hpamp].
  destruct (unmarked_all q Hq) as [Hqlt Hqamp].
  assert (Hnolt : Forall (fun c => c <> LT) (p ++ lit "&amp;lt;" ++ q)).
  { apply Forall_app. split; [exact Hplt|].
    apply Forall_app. split; [|exact Hqlt].
    repeat (constructor; [discriminate|]); constructor. }
  rewrite (re_sub_without_lt match_script_style);
    [|apply match_script_style_needs_lt|exact Hnolt].
  rewrite (re_sub_without_lt match_tag);
    [|apply match_tag_needs_lt|exact Hnolt].
  unfold decode_entities.
  change (lit "&amp;") with (AMP :: lit "amp;").
  change (lit "&lt;") with (AMP :: lit "lt;").
  change (lit "&gt;") with (AMP :: lit "gt;").
  change (lit "&quot;") with (AMP :: lit "quot;").
  change (lit "&#39;") with (AMP :: lit "#39;").
  change (p ++ lit "&amp;lt;" ++ q)
    with (p ++ (AMP :: lit "amp;") ++ (lit "lt;" ++ q)).
  rewrite (replace_occurrence AMP (lit "amp;") _ p _ Hpamp).
  rewrite (replace_without_head AMP (lit "amp;") _ (lit "lt;" ++ q))
    by (apply Forall_app; split;
        [repeat (constructor; [discriminate|]); constructor|exact Hqamp]).
  change (p ++ lit "&" ++ lit "lt;" ++ q)
    with (p ++ (AMP :: lit "lt;") ++ q).
  rewrite (replace_occurrence AMP (lit "lt;") _ p q Hpamp).
  rewrite (replace_without_head AMP (lit "lt;") _ q Hqamp).
  assert (Hdone : forall old' new,
    replace (AMP :: old') new (p ++ lit "<" ++ q) = p ++ lit "<" ++ q).
  { intros old' new. apply replace_without_head.
    apply Forall_app. split; [exact Hpamp|].
    constructor; [discriminate|exact Hqamp]. }
  rewrite !Hdone. now apply squeeze_line.
Qed.

End CleanHtmlFacts.

(* ===================================================================== *)
(** * Properties of clean_html.py as a script *)
(* ===================================================================== *)

Module ScriptFacts.
Import PyStr CleanHtml CleanHtmlScript.

Section Script.

Context {FS : Type}.
Variable read_text : pystr -> FS -> Launcher.exn + pystr.
Variable write_text : pystr -> pystr -> FS -> option Launcher.exn * FS.

Local Abbreviation world := (@World FS).
Local Abbreviation run := (script read_text write_text).

(** With any number of arguments other than two, the script prints its
    usage line and exits with status 1; no file is written. *)
Theorem script_usage (argv : list pystr) (w : world) :
  length argv <> 3 ->
  fst (run argv w) = SysExit 1
  /\ stdout (snd (run argv w))
     = stdout w
       ++ [lit "Usage: python clean_html.py <input_file> <output_file>"]
  /\ files (snd (run argv w)) = files w.
Proof.
  intros H. unfold script.
  destruct argv as [|a0 [|a1 [|a2 [|a3 rest]]]]; cbn in H;
    try (repeat split; reflexivity).
  contradiction.
Qed.

(** When the input cannot be read, nothing is written.  A missing file ends
    the script with status 1 and a line naming the missing file; any other
    exception of the read (no permission, bad encoding) is not caught, and
    nothing is printed. *)
Theorem script_unreadable_input (prog input_file output_file : pystr)
    (w : world) (e : Launcher.exn) :
  read_text input_file (files w) = inl e ->
  let out := run [prog; input_file; output_file] w in
  files (snd out) = files w
  /\ (Launcher.exn_class e = "FileNotFoundError" ->
      fst out = SysExit 1
      /\ stdout (snd out)
         = stdout w ++ [lit "Error: Input file not found at " ++ input_file])
  /\ (Launcher.exn_class e <> "FileNotFoundError" ->
      fst out = Uncaught e /\ stdout (snd out) = stdout w).
Proof.
  intros Hread. cbv zeta. unfold script. rewrite Hread.
  destruct (String.eqb_spec (Launcher.exn_class e) "FileNotFoundError")
    as [E|E]; cbn [fst snd files stdout print].
  - split; [reflexivity|]. split; [auto|]. intros H. contradiction.
  - split; [reflexivity|]. split; [intros H; contradiction|auto].
Qed.

(** The script ends normally only after it has read the input and written
    to the output path the cleaned form of exactly what it read; the text
    written has no blank line and no white space at the ends of its
    lines.  Input and output may be the same path: the input is read whole
    before the output is opened. *)
Theorem script_finished (argv : list pystr) (w : world) :
  fst (run argv w) = Finished ->
  exists prog input_file output_file html,
    argv = [prog; input_file; output_file]
    /\ read_text input_file (files w) = inr html
    /\ write_text output_file (clean_html html) (files w)
       = (None, files (snd (run argv w)))
    /\ stdout (snd (run argv w))
       = stdout w
         ++ [lit "Successfully cleaned " ++ input_file ++
             lit " and saved to " ++ output_file]
    /\ Forall CleanHtmlSpec.tidy (splitlines (clean_html html)).
Proof.
  unfold script.
  destruct argv as [|a0 [|a1 [|a2 [|a3 rest]]]]; try discriminate.
  destruct (read_text a1 (files w)) as [e|html] eqn:Hread.
  - destruct (String.eqb (Launcher.exn_class e) "FileNotFoundError");
      discriminate.
  - destruct (write_text a2 (clean_html html) (files w)) as [[e|] files']
      eqn:Hwrite; [discriminate|].
    intros _. exists a0, a1, a2, html. cbn [snd files stdout print].
    split; [reflexivity|]. split; [exact Hread|].
    split; [exact Hwrite|]. split; [reflexivity|].
    destruct (CleanHtmlSpec.clean_html_lines html) as (text & _ & ->).
    eapply Forall_impl; [apply CleanHtmlSpec.kept_lines_spec|].
    intros l [Ht _]. exact Ht.
Qed.

(** When writing the output fails, the exception is not caught and the
    success line is not printed. *)
Theorem script_write_failure (prog input_file output_file html : pystr)
    (w : world) (e : Launcher.exn) :
  read_text input_file (files w) = inr html ->
  fst (write_text output_file (clean_html html) (files w)) = Some e ->
  let out := run [prog; input_file; output_file] w in
  fst out = Uncaught e /\ stdout (snd out) = stdout w.
Proof.
  intros Hread Hwrite. cbv zeta. unfold script. rewrite Hread.
  destruct (write_text output_file (clean_html html) (files w))
    as [failure files'].
  cbn [fst] in Hwrite. subst failure. split; reflexivity.
Qed.

End Script.

End ScriptFacts.

(* ===================================================================== *)
(** * Sample runs *)
(* ===================================================================== *)

Module Samples.
Import Launcher.

Definition stop_situation (urgency_level : string) : Situation :=
  {| type := "traffic_stop";
     urgency := {| level := urgency_level |};
     jurisdiction := {| primary := "statutory"; secondary := [] |};
     entities := {| people := ["Officer Johnson"]; organizations := [] |};
     legal_framework := JStr "statutory" |}.

Definition fee_situation : Situation :=
  {| type := "fee_demand";
     urgency := {| level := "medium" |};
     jurisdiction := {| primary := "commercial"; secondary := ["statutory"] |};
     entities := {| people := []; organizations := ["County Clerk"] |};
     legal_framework := JStr "commercial" |}.

Definition high_risk : LegalSummary :=
  {| tone_summary := "negative"; risk_level := "HIGH" |}.

Definition low_risk : LegalSummary :=
  {| tone_summary := "positive"; risk_level := "LOW" |}.

Definition mixed_contradictions : list Contradiction :=
  [ CStr "must and may in one clause";
    CDict [("description", "fee is both waived and due"); ("kind", "direct")];
    CDict [("kind", "implied")] ].

Definition some_remedy : Remedy :=
  {| legal_strategies := ["Challenge jurisdiction"];
     remedy_contradictions := Some mixed_contradictions |}.

Definition no_remedy : Remedy :=
  {| legal_strategies := []; remedy_contradictions := None |}.

(** Collaborators that answer the same whatever the text. *)
Definition sample_results (s : Situation) (m : LegalSummary) (r : Remedy)
    : Results :=
  {| session_id := "20260101_120000";
     timestamp := "2026-01-01T12:00:00";
     input := {| raw_text := "You are hereby required to pay."; context := None |};
     situation_analysis := s;
     legal_analysis :=
       {| clauses := [JStr "You are hereby required to pay."];
          contradictions := mixed_contradictions;
          legal_structure := JNull;
          tone_analysis := JStr "negative";
          legal_risks := [];
          legal_summary := m |};
     remedy := r;
     recommendations := _generate_recommendations s m r |}.

Definition start : @World unit string :=
  {| trace := []; fs := tt; now := "2026-01-01T12:00:00" |}.

(** A file system that refuses every write, and one that takes them all. *)
Definition refuse (path : string) (results : Results) (files : unit)
    : option exn * unit :=
  (Some (Exception "PermissionError" "[Errno 13] Permission denied"), files).

Definition accept (path : string) (results : Results) (files : unit)
    : option exn * unit :=
  (None, files).

Definition sample_system : VeroBrixSystem :=
  {| self_session_id := "20260101_120000" |}.

Definition sample_analyze
    (dump : string -> Results -> unit -> option exn * unit)
    : M (FS:=unit) (DateTime:=string) Results :=
  analyze_situation (fun t => t) dump
    (fun _ _ => fee_situation) (fun text => [JStr text])
    (fun _ => mixed_contradictions) (fun _ => JNull)
    (fun _ => JStr "negative") (fun _ => [])
    (fun _ _ _ => high_risk) (fun _ => some_remedy)
    sample_system "You are hereby required to pay." None.

(** The dictionaries of a call of the store-level method: a situation with
    its urgency and jurisdiction, a summary, a remedy with its list of
    contradictions. *)
Definition sample_heap : list Store.obj :=
  [ Store.ODict [("type", Store.VStr "fee_demand"); ("urgency", Store.VRef 1);
                 ("jurisdiction", Store.VRef 2)];
    Store.ODict [("level", Store.VStr "medium")];
    Store.ODict [("primary", Store.VStr "commercial")];
    Store.ODict [("tone_summary", Store.VStr "negative");
                 ("risk_level", Store.VStr "HIGH")];
    Store.ODict [("legal_strategies", Store.VRef 5);
                 ("contradictions", Store.VRef 6)];
    Store.OList [Store.VStr "Challenge jurisdiction"];
    Store.OList [Store.VStr "must and may in one clause"] ].

Definition sample_state : Store.state :=
  {| Store.heap := sample_heap; Store.io := [] |}.

End Samples.

Module SampleRuns.
Import Launcher Samples.

Example clean_html_sample :
  CleanHtml.clean_html
    (PyStr.lit "<p> a &amp; b </p>" ++ [PyStr.LF; PyStr.LF] ++
     PyStr.lit "<script x>1<2</script>  c " ++ [PyStr.CR; PyStr.LF] ++
     PyStr.lit "<br>")
  = PyStr.lit "a & b" ++ [PyStr.LF] ++ PyStr.lit "c".
Proof. vm_compute. reflexivity. Qed.

Example clean_html_unclosed_script :
  CleanHtml.clean_html (PyStr.lit "<script>x <b>y</b>")
  = PyStr.lit "x y".
Proof. vm_compute. reflexivity. Qed.

Example clean_html_blank :
  CleanHtml.clean_html (PyStr.lit "  " ++ [PyStr.LF; 160%N; PyStr.LF]) = [].
Proof. vm_compute. reflexivity. Qed.

Example splitlines_sample :
  PyStr.splitlines
    (PyStr.lit "a" ++ [PyStr.CR; PyStr.LF; PyStr.LF] ++ PyStr.lit "b"
     ++ [PyStr.LF])
  = [PyStr.lit "a"; []; PyStr.lit "b"].
Proof. reflexivity. Qed.

Example recommendations_sample :
  _generate_recommendations fee_situation high_risk some_remedy
  = {| immediate_actions :=
         [ "HIGH RISK: Seek immediate legal counsel";
           "Do not pay without challenging authority";
           "Request fee schedule" ];
       short_term_actions :=
         [ "Challenge contradictory provisions in documents";
           "Challenge lawful authority for fee";
           "Demand due process hearing" ];
       long_term_actions :=
         [ "File administrative appeal";
           "Consider legal action if rights violated" ];
       warnings := ["Situation contains high-risk legal elements"];
       opportunities :=
         ["Commercial jurisdiction may provide UCC protections"] |}.
Proof. reflexivity. Qed.

(** The store-level method on the sample heap: a new recommendation set,
    the seven objects of the caller untouched. *)
Example store_sample :
  let out :=
    Store._generate_recommendations (Store.VRef 0) (Store.VRef 3)
      (Store.VRef 4) sample_state in
  fst out = inr (Store.VRef 12)
  /\ Store.read_recommendations (Store.heap (snd out)) (Store.VRef 12)
     = Some (_generate_recommendations fee_situation high_risk some_remedy)
  /\ take 7 (Store.heap (snd out)) = sample_heap
  /\ Store.io (snd out) = [].
Proof. vm_compute. repeat split. Qed.

(** A missing key stops the store-level method with [KeyError]. *)
Example store_missing_key :
  fst (Store._generate_recommendations (Store.VRef 1) (Store.VRef 3)
         (Store.VRef 4) sample_state)
  = inl (Store.KeyError "urgency").
Proof. vm_compute. reflexivity. Qed.

Example summary_sample :
  PresentationSpec.printed
    (trace (snd (print_analysis_summary (fun text => text)
                   (sample_results fee_situation low_risk no_remedy) start)))
  = [ nl +:+ str_repeat "=" 60;
      "VEROBRIX LEGAL ANALYSIS SUMMARY";
      str_repeat "=" 60;
      "Session ID: 20260101_120000";
      "Analysis Time: 2026-01-01T12:00:00";
      "Situation Type: fee_demand";
      "Risk Level: LOW";
      "Urgency: medium";
      "Primary Jurisdiction: commercial";
      "Secondary Jurisdictions: statutory";
      "Organizations: County Clerk";
      nl +:+ "CONTRADICTIONS DETECTED: 3";
      "  1. must and may in one clause";
      "  2. fee is both waived and due";
      "  3. Unknown contradiction";
      nl +:+ "IMMEDIATE ACTIONS REQUIRED:";
      "  • Do not pay without challenging authority";
      "  • Request fee schedule";
      nl +:+ str_repeat "=" 60 ].
Proof. vm_compute. reflexivity. Qed.

Example analyze_refused :
  fst (sample_analyze refuse start) = fst (sample_analyze accept start)
  /\ PresentationSpec.printed (trace (snd (sample_analyze refuse start))) = []
  /\ last (trace (snd (sample_analyze refuse start)))
     = Some (EvLog "VeroBrix System" "Comprehensive analysis completed").
Proof. vm_compute. repeat split. Qed.

End SampleRuns.

(* ===================================================================== *)
(** * The theorems at the samples *)
(* ===================================================================== *)

Module Witnesses.
Import Launcher Samples.

Lemma high_urgency_high_risk_traffic_stop_at_sample :
  level (urgency (stop_situation "high")) = "high"
  /\ risk_level high_risk = "HIGH"
  /\ type (stop_situation "high") = "traffic_stop"
  /\ (immediate_actions
        (_generate_recommendations (stop_situation "high") high_risk no_remedy)
      = RecommendationSpec.urgency_triggered
        ++ RecommendationSpec.risk_triggered
        ++ ["Document all details of the encounter"; "Preserve any evidence"]
      /\ length (immediate_actions
                   (_generate_recommendations (stop_situation "high")
                      high_risk no_remedy)) = 6).
Proof.
  split; [reflexivity|]. split; [reflexivity|]. split; [reflexivity|].
  apply (RecommendationSpec.high_urgency_high_risk_traffic_stop
           (stop_situation "high") high_risk no_remedy); reflexivity.
Defined.

Lemma urgency_toggle_at_sample :
  level (urgency (stop_situation "high")) = "high"
  /\ level (urgency (stop_situation "low")) = "low"
  /\ (immediate_actions
        (_generate_recommendations (stop_situation "high") high_risk some_remedy)
      = RecommendationSpec.urgency_triggered
        ++ immediate_actions
             (_generate_recommendations (stop_situation "low") high_risk
                some_remedy)
      /\ short_term_actions
           (_generate_recommendations (stop_situation "high") high_risk
              some_remedy)
         = short_term_actions
             (_generate_recommendations (stop_situation "low") high_risk
                some_remedy)
      /\ long_term_actions
           (_generate_recommendations (stop_situation "high") high_risk
              some_remedy)
         = long_term_actions
             (_generate_recommendations (stop_situation "low") high_risk
                some_remedy)
      /\ warnings
           (_generate_recommendations (stop_situation "high") high_risk
              some_remedy)
         = warnings
             (_generate_recommendations (stop_situation "low") high_risk
                some_remedy)
      /\ opportunities
           (_generate_recommendations (stop_situation "high") high_risk
              some_remedy)
         = opportunities
             (_generate_recommendations (stop_situation "low") high_risk
                some_remedy)).
Proof.
  split; [reflexivity|]. split; [reflexivity|].
  apply (RecommendationSpec.urgency_toggle
           (stop_situation "high") (stop_situation "low")
           high_risk high_risk some_remedy some_remedy); reflexivity.
Defined.

Lemma fee_demand_immediate_actions_at_sample :
  type fee_situation = "fee_demand"
  /\ immediate_actions
       (_generate_recommendations fee_situation high_risk some_remedy)
     = (RecommendationSpec.urgency_part fee_situation
        ++ RecommendationSpec.risk_part high_risk)
       ++ ["Do not pay without challenging authority"; "Request fee schedule"].
Proof.
  split; [reflexivity|].
  apply (RecommendationSpec.fee_demand_immediate_actions
           fee_situation high_risk some_remedy).
  reflexivity.
Defined.

Lemma warnings_iff_high_risk_at_sample :
  warnings (_generate_recommendations fee_situation high_risk some_remedy)
  = [RecommendationSpec.high_risk_warning]
  /\ warnings (_generate_recommendations fee_situation low_risk some_remedy)
     = [].
Proof.
  split.
  - apply (RecommendationSpec.warnings_iff_high_risk
             fee_situation high_risk some_remedy).
    reflexivity.
  - apply (RecommendationSpec.warnings_iff_high_risk
             fee_situation low_risk some_remedy).
    discriminate.
Defined.

Lemma persistence_failure_contained_at_sample :
  exists results,
    fst (sample_analyze refuse start) = inr results
    /\ In (EvLog "VeroBrix System"
             "Error saving results: [Errno 13] Permission denied")
          (trace (snd (sample_analyze refuse start)))
    /\ fst (sample_analyze accept start) = inr results.
Proof.
  eexists.
  pose proof
    (OrchestratorSpec.persistence_failure_contained
       (fun t => t) refuse
       (fun _ _ => fee_situation) (fun text => [JStr text])
       (fun _ => mixed_contradictions) (fun _ => JNull)
       (fun _ => JStr "negative") (fun _ => [])
       (fun _ _ _ => high_risk) (fun _ => some_remedy)
       sample_system "You are hereby required to pay." None
       start (Exception "PermissionError" "[Errno 13] Permission denied")
       eq_refl) as (Hreturn & Hlog & Hsame).
  split; [exact Hreturn|]. split; [exact Hlog|].
  exact (Hsame accept start eq_refl eq_refl).
Defined.

Lemma contradictions_rendered_at_sample :
  PresentationSpec.contradiction_lines mixed_contradictions
  = [ "  1. must and may in one clause";
      "  2. fee is both waived and due";
      "  3. Unknown contradiction" ]
  /\ PresentationSpec.contradiction_lines mixed_contradictions !! 2
     = Some ("  " +:+ str_of_nat 3 +:+ ". " +:+
             PresentationSpec.rendering (CDict [("kind", "implied")])).
Proof.
  split; [reflexivity|].
  exact (proj1 (proj2
           (PresentationSpec.contradictions_rendered (fun text => text)
              (sample_results fee_situation low_risk no_remedy) start))
           2 (CDict [("kind", "implied")]) eq_refl).
Defined.

Lemma empty_section_omitted_at_sample :
  PresentationSpec.field_empty PresentationSpec.PeopleInvolved
    (sample_results fee_situation low_risk no_remedy)
  /\ exists lines,
       fst (print_analysis_summary (fun text => text)
              (sample_results fee_situation low_risk no_remedy) start)
       = inr tt
       /\ PresentationSpec.printed
            (trace (snd (print_analysis_summary (fun text => text)
                           (sample_results fee_situation low_risk no_remedy)
                           start)))
          = PresentationSpec.printed (trace start) ++ lines
       /\ Forall
            (fun line =>
               PresentationSpec.str_startswith
                 (PresentationSpec.header_of PresentationSpec.PeopleInvolved)
                 line = false)
            lines.
Proof.
  split; [reflexivity|].
  apply (PresentationSpec.empty_section_omitted (fun text => text)
           (sample_results fee_situation low_risk no_remedy) start
           PresentationSpec.PeopleInvolved).
  reflexivity.
Defined.

Lemma clean_html_lines_tidy_at_sample :
  CleanHtml.clean_html (PyStr.lit " <b> a </b> ") <> []
  /\ Forall CleanHtmlSpec.tidy
       (CleanHtmlSpec.split_on PyStr.LF
          (CleanHtml.clean_html (PyStr.lit " <b> a </b> "))).
Proof.
  assert (H : CleanHtml.clean_html (PyStr.lit " <b> a </b> ") <> [])
    by (vm_compute; discriminate).
  split; [exact H|].
  exact (proj2 (CleanHtmlSpec.clean_html_lines_tidy
                  (PyStr.lit " <b> a </b> ")) H).
Defined.

Lemma generate_recommendations_pure_at_sample :
  Store.holds_situation sample_heap (Store.VRef 0) fee_situation
  /\ Store.holds_summary sample_heap (Store.VRef 3) high_risk
  /\ Store.holds_remedy sample_heap (Store.VRef 4) some_remedy
  /\ exists v,
       fst (Store._generate_recommendations (Store.VRef 0) (Store.VRef 3)
              (Store.VRef 4) sample_state) = inr v
       /\ Store.read_recommendations
            (Store.heap
               (snd (Store._generate_recommendations (Store.VRef 0)
                       (Store.VRef 3) (Store.VRef 4) sample_state))) v
          = Some (_generate_recommendations fee_situation high_risk
                    some_remedy).
Proof.
  assert (Hs : Store.holds_situation sample_heap (Store.VRef 0) fee_situation)
    by (repeat split).
  assert (Hm : Store.holds_summary sample_heap (Store.VRef 3) high_risk)
    by (repeat split).
  assert (Hr : Store.holds_remedy sample_heap (Store.VRef 4) some_remedy)
    by (exists (Store.VRef 6); split; reflexivity).
  split; [exact Hs|]. split; [exact Hm|]. split; [exact Hr|].
  exact (proj1 (proj2 (proj2
           (StoreSpec.generate_recommendations_pure sample_state
              (Store.VRef 0) (Store.VRef 3) (Store.VRef 4))))
           fee_situation high_risk some_remedy Hs Hm Hr).
Defined.

End Witnesses.

(* ===================================================================== *)
(** * Further sample runs *)
(* ===================================================================== *)

Module MoreSamples.
Import Launcher Samples.

(** A disk with room for one file: a write replaces what was there. *)
Definition one_file : Type := option (string * Results).

Definition overwrite (path : string) (results : Results) (files : one_file)
    : option exn * one_file :=
  (None, Some (path, results)).

Definition empty_disk : @World one_file string :=
  {| trace := []; fs := None; now := "2026-01-01T12:00:00" |}.

Definition disk_analyze (text : string)
    : M (FS:=one_file) (DateTime:=string) Results :=
  analyze_situation (fun t => t) overwrite
    (fun _ _ => fee_situation) (fun text => [JStr text])
    (fun _ => mixed_contradictions) (fun _ => JNull)
    (fun _ => JStr "negative") (fun _ => [])
    (fun _ _ _ => high_risk) (fun _ => some_remedy)
    sample_system text None.

(** The input file of [main]: there, missing, or unreadable. *)
Definition input_there (path : string) (files : unit) : exn + string :=
  inr "You are hereby required to pay.".

Definition input_missing (path : string) (files : unit) : exn + string :=
  inl (Exception "FileNotFoundError"
         "[Errno 2] No such file or directory: 'intake/sample_document.txt'").

Definition render_fine (template : string) (variables : dict string)
    : exn + string :=
  inr "NOTICE OF LAWFUL TRAVEL".

Definition render_broken (template : string) (variables : dict string)
    : exn + string :=
  inl (Exception "KeyError" "'traffic_stop'").

Definition sample_main
    (dump : string -> Results -> unit -> option exn * unit)
    (read : string -> unit -> exn + string)
    (render : string -> dict string -> exn + string)
    : M (FS:=unit) (DateTime:=string) unit :=
  Driver.main (fun t => t) (fun t => t) dump (fun text => text)
    (fun _ _ => fee_situation) (fun text => [JStr text])
    (fun _ => mixed_contradictions) (fun _ => JNull)
    (fun _ => JStr "negative") (fun _ => [])
    (fun _ _ _ => high_risk) (fun _ => some_remedy)
    read render.

(** The files of the script: one readable page, and nothing else. *)
Definition page : PyStr.pystr := PyStr.lit " <b> a </b> ".

Definition read_page (path : PyStr.pystr) (files : unit)
    : exn + PyStr.pystr :=
  if bool_decide (path = PyStr.lit "page.html") then inr page
  else inl (Exception "FileNotFoundError" "[Errno 2] No such file or directory").

Definition write_ok (path text : PyStr.pystr) (files : unit)
    : option exn * unit :=
  (None, files).

Definition write_denied (path text : PyStr.pystr) (files : unit)
    : option exn * unit :=
  (Some (Exception "PermissionError" "[Errno 13] Permission denied"), files).

Definition console : @CleanHtmlScript.World unit :=
  {| CleanHtmlScript.stdout := []; CleanHtmlScript.files := tt |}.


End MoreSamples.

Module MoreSampleRuns.
Import Launcher Samples MoreSamples.

Example main_sample :
  PresentationSpec.printed
    (trace (snd (sample_main refuse input_missing render_fine start)))
  = ["Please create the file 'intake/sample_document.txt' with some text."]
  /\ last (PresentationSpec.printed
             (trace (snd (sample_main refuse input_there render_fine start))))
     = Some (nl +:+ "Full analysis results saved to: output/verobrix_analysis_2026-01-01T12:00:00.json")
  /\ last (PresentationSpec.printed
             (trace (snd (sample_main accept input_there render_broken start))))
     = Some "An error occurred during analysis: 'traffic_stop'".
Proof. vm_compute. repeat split. Qed.

Example script_sample :
  CleanHtmlScript.script read_page write_ok
    [PyStr.lit "clean_html.py"; PyStr.lit "page.html"; PyStr.lit "page.txt"]
    console
  = (CleanHtmlScript.Finished,
     {| CleanHtmlScript.stdout :=
          [PyStr.lit "Successfully cleaned page.html and saved to page.txt"];
        CleanHtmlScript.files := tt |}).
Proof. vm_compute. reflexivity. Qed.

Example clean_html_quirks :
  CleanHtml.clean_html (PyStr.lit "a < b and c > d") = PyStr.lit "a  d"
  /\ CleanHtml.clean_html (PyStr.lit "a < b") = PyStr.lit "a < b"
  /\ CleanHtml.clean_html (PyStr.lit "x &amp;lt; y") = PyStr.lit "x < y".
Proof. vm_compute. repeat split. Qed.

End MoreSampleRuns.

Module MoreWitnesses.
Import Launcher Samples MoreSamples.

(** Two situations that differ in what the recommendations never read. *)
Definition fee_situation_again : Situation :=
  {| type := "fee_demand";
     urgency := {| level := "low" |};
     jurisdiction := {| primary := "commercial"; secondary := [] |};
     entities := {| people := ["John Doe"]; organizations := [] |};
     legal_framework := JNull |}.

Definition eviction : Situation :=
  {| type := "eviction_notice";
     urgency := {| level := "high" |};
     jurisdiction := {| primary := "statutory"; secondary := [] |};
     entities := {| people := []; organizations := [] |};
     legal_framework := JNull |}.

Lemma recommendations_depend_on_six_tests_at_sample :
  _generate_recommendations fee_situation high_risk some_remedy
  = _generate_recommendations fee_situation_again
      {| tone_summary := "neutral"; risk_level := "HIGH" |}
      {| legal_strategies := [];
         remedy_contradictions := Some [CStr "x"] |}.
Proof.
  apply RecommendationFacts.recommendations_depend_on_six_tests.
  - simpl. split; discriminate.
  - simpl. split; reflexivity.
  - reflexivity.
  - reflexivity.
  - simpl. split; discriminate.
  - simpl. split; reflexivity.
Defined.

Lemma unknown_type_adds_nothing_at_sample :
  ~ In (type eviction) RecommendationFacts.known_types
  /\ immediate_actions (_generate_recommendations eviction high_risk no_remedy)
     = RecommendationSpec.urgency_part eviction
       ++ RecommendationSpec.risk_part high_risk
  /\ short_term_actions (_generate_recommendations eviction high_risk no_remedy)
     = []
  /\ long_term_actions (_generate_recommendations eviction high_risk no_remedy)
     = [].
Proof.
  assert (H : ~ In (type eviction) RecommendationFacts.known_types).
  { simpl. intros [H|[H|[H|[]]]]; discriminate H. }
  split; [exact H|].
  exact (RecommendationFacts.unknown_type_adds_nothing eviction high_risk
           no_remedy H).
Defined.


Lemma result_is_fresh_at_sample :
  let out := Store._generate_recommendations (Store.VRef 0) (Store.VRef 3)
               (Store.VRef 4) sample_state in
  fst out = inr (Store.VRef 12)
  /\ Store.heap (snd out) !! 12
     = Some (Store.ODict [ ("immediate_actions", Store.VRef 7);
                           ("short_term_actions", Store.VRef 8);
                           ("long_term_actions", Store.VRef 9);
                           ("warnings", Store.VRef 10);
                           ("opportunities", Store.VRef 11) ])
  /\ (forall k, k < 5 ->
        exists items,
          Store.heap (snd out) !! (7 + k) = Some (Store.OList items)).
Proof.
  assert (Hs : Store.holds_situation sample_heap (Store.VRef 0) fee_situation)
    by (repeat split).
  assert (Hm : Store.holds_summary sample_heap (Store.VRef 3) high_risk)
    by (repeat split).
  assert (Hr : Store.holds_remedy sample_heap (Store.VRef 4) some_remedy)
    by (exists (Store.VRef 6); split; reflexivity).
  exact (StoreFacts.result_is_fresh sample_state (Store.VRef 0)
           (Store.VRef 3) (Store.VRef 4) fee_situation high_risk some_remedy
           Hs Hm Hr).
Defined.

Lemma second_analysis_overwrites_at_sample :
  let w1 := snd (disk_analyze "first notice" empty_disk) in
  exists second,
    fst (disk_analyze "second notice" w1) = inr second
    /\ fs (snd (disk_analyze "second notice" w1))
       = snd (overwrite (OrchestratorSpec.artifact sample_system) second
                (fs empty_disk)).
Proof.
  apply (OrchestratorFacts.second_analysis_overwrites (fun t => t) overwrite
           (fun _ _ => fee_situation) (fun text => [JStr text])
           (fun _ => mixed_contradictions) (fun _ => JNull)
           (fun _ => JStr "negative") (fun _ => [])
           (fun _ _ _ => high_risk) (fun _ => some_remedy)
           sample_system "first notice" None "second notice" None empty_disk).
  reflexivity.
Defined.

Lemma main_without_input_at_sample :
  fs (snd (sample_main accept input_missing render_fine start)) = fs start
  /\ OrchestratorSpec.calls_of
       (trace (snd (sample_main accept input_missing render_fine start)))
     = OrchestratorSpec.calls_of (trace start)
  /\ PresentationSpec.printed
       (trace (snd (sample_main accept input_missing render_fine start)))
     = PresentationSpec.printed (trace start)
       ++ ["Please create the file 'intake/sample_document.txt' with some text."].
Proof.
  apply (DriverFacts.main_without_input (fun t => t) (fun t => t) accept
           (fun text => text)
           (fun _ _ => fee_situation) (fun text => [JStr text])
           (fun _ => mixed_contradictions) (fun _ => JNull)
           (fun _ => JStr "negative") (fun _ => [])
           (fun _ _ _ => high_risk) (fun _ => some_remedy)
           input_missing render_fine start
           (Exception "FileNotFoundError"
              "[Errno 2] No such file or directory: 'intake/sample_document.txt'")).
  reflexivity.
Defined.

Lemma main_document_failure_at_sample :
  exists results,
    input results
    = {| raw_text := "You are hereby required to pay."; context := None |}
    /\ session_id results = "2026-01-01T12:00:00"
    /\ PresentationSpec.printed
         (trace (snd (sample_main accept input_there render_broken start)))
       = PresentationSpec.printed (trace start)
         ++ PresentationSpec.summary_lines (fun text => text) results
         ++ [ nl +:+ str_repeat "=" 60;
              "DOCUMENT GENERATION EXAMPLE";
              str_repeat "=" 60;
              "An error occurred during analysis: " +:+ "'traffic_stop'" ]
    /\ fs (snd (sample_main accept input_there render_broken start))
       = snd (accept
                ("output/verobrix_analysis_" +:+ "2026-01-01T12:00:00"
                 +:+ ".json")
                results (fs start)).
Proof.
  exact (DriverFacts.main_document_failure (fun t => t) (fun t => t)
           accept (fun text => text)
           (fun _ _ => fee_situation) (fun text => [JStr text])
           (fun _ => mixed_contradictions) (fun _ => JNull)
           (fun _ => JStr "negative") (fun _ => [])
           (fun _ _ _ => high_risk) (fun _ => some_remedy)
           input_there render_broken start
           "You are hereby required to pay."
           (Exception "KeyError" "'traffic_stop'")
           eq_refl eq_refl).
Defined.

Lemma main_reports_saved_after_failed_save_at_sample :
  In (EvLog "VeroBrix System"
        ("Error saving results: " +:+ "[Errno 13] Permission denied"))
     (trace (snd (sample_main refuse input_there render_fine start)))
  /\ last (PresentationSpec.printed
             (trace (snd (sample_main refuse input_there render_fine start))))
     = Some (nl +:+ "Full analysis results saved to: output/verobrix_analysis_"
             +:+ "2026-01-01T12:00:00" +:+ ".json").
Proof.
  apply (DriverFacts.main_reports_saved_after_failed_save
           (fun t => t) (fun t => t) refuse (fun text => text)
           (fun _ _ => fee_situation) (fun text => [JStr text])
           (fun _ => mixed_contradictions) (fun _ => JNull)
           (fun _ => JStr "negative") (fun _ => [])
           (fun _ _ _ => high_risk) (fun _ => some_remedy)
           input_there render_fine start
           "You are hereby required to pay." "NOTICE OF LAWFUL TRAVEL"
           (Exception "PermissionError" "[Errno 13] Permission denied"));
    [reflexivity | reflexivity | intros results files; reflexivity].
Defined.

(** Hypotheses about concrete strings, decided character by character. *)
Ltac each_char :=
  repeat (apply Forall_cons; split;
          [first [reflexivity | repeat split; discriminate]|]);
  apply Forall_nil_2.

Ltac tidy_line :=
  split; [discriminate|];
  split; intros c Hc; vm_compute in Hc; injection Hc as <-; reflexivity.

Lemma clean_text_unchanged_at_sample :
  CleanHtml.clean_html
    (PyStr.join [PyStr.LF] [PyStr.lit "a b"; PyStr.lit "c > d"])
  = PyStr.join [PyStr.LF] [PyStr.lit "a b"; PyStr.lit "c > d"].
Proof.
  apply CleanHtmlFacts.clean_text_unchanged.
  apply Forall_cons; split;
    [split; [tidy_line|split; each_char]|].
  apply Forall_cons; split;
    [split; [tidy_line|split; each_char]|].
  apply Forall_nil_2.
Defined.

Lemma white_space_gives_empty_at_sample :
  CleanHtml.clean_html [32%N; 9%N; PyStr.LF; PyStr.CR; 32%N] = [].
Proof. apply CleanHtmlFacts.white_space_gives_empty. each_char. Defined.

Lemma tag_removed_at_sample :
  CleanHtml.clean_html
    (PyStr.lit "a" ++ [CleanHtmlFacts.LT] ++ PyStr.lit "br /" ++
     [CleanHtmlFacts.GT] ++ PyStr.lit "b")
  = PyStr.lit "a" ++ PyStr.lit "b".
Proof.
  apply CleanHtmlFacts.tag_removed;
    [each_char | each_char | each_char | tidy_line | each_char].
Defined.

Lemma lone_less_than_kept_at_sample :
  CleanHtml.clean_html (PyStr.lit "a " ++ [CleanHtmlFacts.LT] ++ PyStr.lit " b")
  = PyStr.lit "a " ++ [CleanHtmlFacts.LT] ++ PyStr.lit " b".
Proof.
  apply CleanHtmlFacts.lone_less_than_kept;
    [each_char | each_char | each_char | tidy_line | each_char].
Defined.

Lemma entity_decoded_at_sample :
  CleanHtml.clean_html (PyStr.lit "say " ++ PyStr.lit "&quot;" ++ PyStr.lit "hi")
  = PyStr.lit "say " ++ [34%N] ++ PyStr.lit "hi".
Proof.
  apply CleanHtmlFacts.entity_decoded;
    [right; right; left; reflexivity
    | each_char | each_char | tidy_line | each_char].
Defined.

Lemma ampersand_decoded_twice_at_sample :
  CleanHtml.clean_html (PyStr.lit "x " ++ PyStr.lit "&amp;lt;" ++ PyStr.lit " y")
  = PyStr.lit "x " ++ [CleanHtmlFacts.LT] ++ PyStr.lit " y".
Proof.
  apply CleanHtmlFacts.ampersand_decoded_twice;
    [each_char | each_char | tidy_line | each_char].
Defined.

Lemma script_usage_at_sample :
  fst (CleanHtmlScript.script read_page write_ok
         [PyStr.lit "clean_html.py"; PyStr.lit "page.html"] console)
  = CleanHtmlScript.SysExit 1
  /\ CleanHtmlScript.stdout
       (snd (CleanHtmlScript.script read_page write_ok
               [PyStr.lit "clean_html.py"; PyStr.lit "page.html"] console))
     = CleanHtmlScript.stdout console
       ++ [PyStr.lit "Usage: python clean_html.py <input_file> <output_file>"]
  /\ CleanHtmlScript.files
       (snd (CleanHtmlScript.script read_page write_ok
               [PyStr.lit "clean_html.py"; PyStr.lit "page.html"] console))
     = CleanHtmlScript.files console.
Proof.
  apply (ScriptFacts.script_usage read_page write_ok
           [PyStr.lit "clean_html.py"; PyStr.lit "page.html"] console).
  simpl. lia.
Defined.

Lemma script_unreadable_input_at_sample :
  let out := CleanHtmlScript.script read_page write_ok
               [PyStr.lit "clean_html.py"; PyStr.lit "gone.html";
                PyStr.lit "page.txt"] console in
  fst out = CleanHtmlScript.SysExit 1
  /\ CleanHtmlScript.stdout (snd out)
     = [PyStr.lit "Error: Input file not found at gone.html"]
  /\ CleanHtmlScript.files (snd out) = CleanHtmlScript.files console.
Proof.
  pose proof (ScriptFacts.script_unreadable_input read_page write_ok
                (PyStr.lit "clean_html.py") (PyStr.lit "gone.html")
                (PyStr.lit "page.txt") console
                (Exception "FileNotFoundError"
                   "[Errno 2] No such file or directory")
                eq_refl) as (Hfiles & Hmissing & _).
  destruct (Hmissing eq_refl) as [Hexit Hout].
  split; [exact Hexit|]. split; [exact Hout|]. exact Hfiles.
Defined.

Lemma script_finished_at_sample :
  exists prog input_file output_file html,
    [PyStr.lit "clean_html.py"; PyStr.lit "page.html"; PyStr.lit "page.txt"]
    = [prog; input_file; output_file]
    /\ read_page input_file tt = inr html
    /\ write_ok output_file (CleanHtml.clean_html html) tt = (None, tt)
    /\ CleanHtmlScript.stdout
         (snd (CleanHtmlScript.script read_page write_ok
                 [PyStr.lit "clean_html.py"; PyStr.lit "page.html";
                  PyStr.lit "page.txt"] console))
       = [PyStr.lit "Successfully cleaned " ++ input_file ++
          PyStr.lit " and saved to " ++ output_file]
    /\ Forall CleanHtmlSpec.tidy (PyStr.splitlines (CleanHtml.clean_html html)).
Proof.
  exact (ScriptFacts.script_finished read_page write_ok
           [PyStr.lit "clean_html.py"; PyStr.lit "page.html";
            PyStr.lit "page.txt"] console eq_refl).
Defined.

Lemma script_write_failure_at_sample :
  let out := CleanHtmlScript.script read_page write_denied
               [PyStr.lit "clean_html.py"; PyStr.lit "page.html";
                PyStr.lit "page.txt"] console in
  fst out
  = CleanHtmlScript.Uncaught
      (Exception "PermissionError" "[Errno 13] Permission denied")
  /\ CleanHtmlScript.stdout (snd out) = CleanHtmlScript.stdout console.
Proof.
  exact (ScriptFacts.script_write_failure read_page write_denied
           (PyStr.lit "clean_html.py") (PyStr.lit "page.html")
           (PyStr.lit "page.txt") page console
           (Exception "PermissionError" "[Errno 13] Permission denied")
           eq_refl eq_refl).
Defined.

End MoreWitnesses.
